(** * Collection and normalisation core of the GDELT and YouTube scrapers

    A shallow embedding of [src/scraping/gdelt_scraping.py] and
    [src/scraping/youtube_scraping.py]: the monthly time windows, the page
    loops, the record normalisation and the two deduplications, followed by
    the properties the specification states about them.

    Python values that the scrapers receive from the network are loosely
    typed; they are embedded as [pyval].  A [str] is embedded as the
    [string] of its characters, one [ascii] per character: the strings
    covered are those of characters below U+0100.  Python exceptions are embedded as
    the [Raise] outcome, so that "never raises" is a statement about the
    result of a function and not a property of its type. *)

From Stdlib Require Import ZArith List String Ascii Bool Lia.
Import ListNotations.

Open Scope Z_scope.
Open Scope list_scope.

(** ** Outcomes of Python code *)

Inductive exn : Type :=
| ValueError
| TypeError
| KeyError
| AttributeError
| OverflowError
| RequestException.

(** [OutOfFuel] is the outcome of a loop model that was not given enough
    iterations; no Python run ends with it. *)
Inductive outcome (A : Type) : Type :=
| Ret (a : A)
| Raise (e : exn)
| OutOfFuel.

Arguments Ret {A} a.
Arguments Raise {A} e.
Arguments OutOfFuel {A}.

Definition bind {A B : Type} (m : outcome A) (k : A -> outcome B) : outcome B :=
  match m with
  | Ret a => k a
  | Raise e => Raise e
  | OutOfFuel => OutOfFuel
  end.

Notation "x <- m ;; k" := (bind m (fun x => k))
  (at level 61, m at next level, right associativity).
Notation "' pat <- m ;; k" := (bind m (fun pat => k))
  (at level 61, pat pattern, m at next level, right associativity).

(** [try: m except Exception: h]. *)
Definition try_except {A : Type} (m : outcome A) (h : exn -> outcome A) : outcome A :=
  match m with
  | Raise e => h e
  | other => other
  end.

Definition raises {A : Type} (m : outcome A) : Prop := exists e, m = Raise e.

(** ** Characters and decimal fields *)

Definition code (c : ascii) : Z := Z.of_N (N_of_ascii c).

Definition is_digit (c : ascii) : bool := (48 <=? code c) && (code c <=? 57).

Definition digit_val (c : ascii) : Z := code c - 48.

Definition digit_char (d : Z) : ascii := ascii_of_N (Z.to_N (48 + d)).

(** Value of a string of decimal digits, [None] when a character is not a
    digit.  The empty string has value 0. *)
Fixpoint digits_val (acc : Z) (s : string) : option Z :=
  match s with
  | EmptyString => Some acc
  | String c s' => if is_digit c then digits_val (10 * acc + digit_val c) s' else None
  end.

Definition pad2 (n : Z) : string :=
  String (digit_char (n / 10 mod 10)) (String (digit_char (n mod 10)) EmptyString).

Definition pad4 (n : Z) : string :=
  String (digit_char (n / 1000 mod 10))
    (String (digit_char (n / 100 mod 10)) (pad2 n)).

(** ** [datetime] *)

(** [tzinfo] is the UTC offset in seconds of an aware datetime and [None]
    for a naive one. *)
Record datetime : Type := mkdatetime {
  year : Z;
  month : Z;
  day : Z;
  hour : Z;
  minute : Z;
  second : Z;
  microsecond : Z;
  tzinfo : option Z
}.

Definition MINYEAR : Z := 1.
Definition MAXYEAR : Z := 9999.

Definition is_leap (y : Z) : bool :=
  (y mod 4 =? 0) && (negb (y mod 100 =? 0) || (y mod 400 =? 0)).

Definition days_in_month (y m : Z) : Z :=
  match m with
  | 2 => if is_leap y then 29 else 28
  | 4 | 6 | 9 | 11 => 30
  | _ => 31
  end.

Definition check_date_fields (y m d : Z) : bool :=
  (MINYEAR <=? y) && (y <=? MAXYEAR) && (1 <=? m) && (m <=? 12)
  && (1 <=? d) && (d <=? days_in_month y m).

Definition check_time_fields (H M S us : Z) : bool :=
  (0 <=? H) && (H <=? 23) && (0 <=? M) && (M <=? 59)
  && (0 <=? S) && (S <=? 59) && (0 <=? us) && (us <=? 999999).

(** The constructor [datetime(y, m, d, H, M, S, us, tzinfo)]: fields out of
    range raise [ValueError]. *)
Definition datetime_new (y m d H M S us : Z) (tz : option Z) : outcome datetime :=
  if check_date_fields y m d && check_time_fields H M S us
  then Ret (mkdatetime y m d H M S us tz)
  else Raise ValueError.

Definition valid_datetime (dt : datetime) : bool :=
  check_date_fields (year dt) (month dt) (day dt)
  && check_time_fields (hour dt) (minute dt) (second dt) (microsecond dt).

Definition dflt (o : option Z) (z : Z) : Z :=
  match o with Some v => v | None => z end.

(** [dt.replace(year=.., month=.., day=.., hour=.., minute=.., second=..)];
    an argument that is not given is [None].  The result is built by the
    constructor, so it is validated again. *)
Definition replace (dt : datetime) (y m d H M S : option Z) : outcome datetime :=
  datetime_new (dflt y (year dt)) (dflt m (month dt)) (dflt d (day dt))
               (dflt H (hour dt)) (dflt M (minute dt)) (dflt S (second dt))
               (microsecond dt) (tzinfo dt).

(** [dt.replace(tzinfo=tz)]. *)
Definition replace_tzinfo (dt : datetime) (tz : option Z) : datetime :=
  mkdatetime (year dt) (month dt) (day dt) (hour dt) (minute dt) (second dt)
             (microsecond dt) tz.

(** [dt - timedelta(seconds=1)], written with its borrows; stepping below
    0001-01-01 00:00:00 raises [OverflowError]. *)
Definition sub_one_second (dt : datetime) : outcome datetime :=
  let mk y m d H M S := mkdatetime y m d H M S (microsecond dt) (tzinfo dt) in
  if 0 <? second dt then
    Ret (mk (year dt) (month dt) (day dt) (hour dt) (minute dt) (second dt - 1))
  else if 0 <? minute dt then
    Ret (mk (year dt) (month dt) (day dt) (hour dt) (minute dt - 1) 59)
  else if 0 <? hour dt then
    Ret (mk (year dt) (month dt) (day dt) (hour dt - 1) 59 59)
  else if 1 <? day dt then
    Ret (mk (year dt) (month dt) (day dt - 1) 23 59 59)
  else if 1 <? month dt then
    Ret (mk (year dt) (month dt - 1) (days_in_month (year dt) (month dt - 1)) 23 59 59)
  else if MINYEAR <? year dt then
    Ret (mk (year dt - 1) 12 31 23 59 59)
  else Raise OverflowError.

(** Proleptic Gregorian ordinal of a date, day 1 being 0001-01-01. *)
Definition days_before_year (y : Z) : Z :=
  let p := y - 1 in p * 365 + p / 4 - p / 100 + p / 400.

Fixpoint days_before_month_aux (y : Z) (n : nat) : Z :=
  match n with
  | O => 0
  | S n' => days_before_month_aux y n' + days_in_month y (Z.of_nat n)
  end.

Definition days_before_month (y m : Z) : Z :=
  days_before_month_aux y (Z.to_nat (m - 1)).

Definition ymd2ord (y m d : Z) : Z :=
  days_before_year y + days_before_month y m + d.

(** The instant of an aware datetime with offset [off], in microseconds. *)
Definition utc_microseconds (dt : datetime) (off : Z) : Z :=
  ((ymd2ord (year dt) (month dt) (day dt) * 86400
    + hour dt * 3600 + minute dt * 60 + second dt) - off) * 1000000
  + microsecond dt.

Fixpoint lex_compare (a b : list Z) : comparison :=
  match a, b with
  | [], [] => Eq
  | [], _ :: _ => Lt
  | _ :: _, [] => Gt
  | x :: a', y :: b' =>
      match x ?= y with
      | Eq => lex_compare a' b'
      | c => c
      end
  end.

Definition fields (dt : datetime) : list Z :=
  [year dt; month dt; day dt; hour dt; minute dt; second dt; microsecond dt].

(** Comparison as [datetime._cmp] does it: datetimes with the same offset
    (or both naive) compare field by field, a naive one against an aware one
    raises [TypeError], and two different offsets compare the instants. *)
Definition dt_cmp (a b : datetime) : outcome comparison :=
  match tzinfo a, tzinfo b with
  | None, None => Ret (lex_compare (fields a) (fields b))
  | Some oa, Some ob =>
      if oa =? ob then Ret (lex_compare (fields a) (fields b))
      else Ret (utc_microseconds a oa ?= utc_microseconds b ob)
  | _, _ => Raise TypeError
  end.

Definition dt_le (a b : datetime) : outcome bool :=
  c <- dt_cmp a b ;; Ret (match c with Gt => false | _ => true end).

Definition dt_lt (a b : datetime) : outcome bool :=
  c <- dt_cmp a b ;; Ret (match c with Lt => true | _ => false end).

Definition dt_gt (a b : datetime) : outcome bool :=
  c <- dt_cmp a b ;; Ret (match c with Gt => true | _ => false end).

(** An aware datetime, and the instant of a datetime: the microseconds
    since the start of the calendar, in UTC for an aware datetime. *)
Definition is_aware (dt : datetime) : bool :=
  match tzinfo dt with Some _ => true | None => false end.

Definition instant (dt : datetime) : Z := utc_microseconds dt (dflt (tzinfo dt) 0).

(** [min(a, b)]: [b] when [b < a], else [a]. *)
Definition dt_min (a b : datetime) : outcome datetime :=
  lt <- dt_lt b a ;; Ret (if lt then b else a).

(** *** Reading and writing datetimes *)

Definition take_digits2 (s : string) : option (Z * string) :=
  match s with
  | String a (String b rest) =>
      if is_digit a && is_digit b then Some (10 * digit_val a + digit_val b, rest)
      else None
  | _ => None
  end.

Definition take_digits4 (s : string) : option (Z * string) :=
  match take_digits2 s with
  | Some (hi, rest) =>
      match take_digits2 rest with
      | Some (lo, rest') => Some (100 * hi + lo, rest')
      | None => None
      end
  | None => None
  end.

Definition expect (c : ascii) (s : string) : option string :=
  match s with
  | String a rest => if Ascii.eqb a c then Some rest else None
  | EmptyString => None
  end.

Definition obind {A B : Type} (o : option A) (k : A -> option B) : option B :=
  match o with Some a => k a | None => None end.

(** [HH:MM:SS] *)
Definition parse_hms (s : string) : option (Z * Z * Z * string) :=
  obind (take_digits2 s) (fun '(hh, s1) =>
  obind (expect ":" s1) (fun s2 =>
  obind (take_digits2 s2) (fun '(mi, s3) =>
  obind (expect ":" s3) (fun s4 =>
  obind (take_digits2 s4) (fun '(ss, s5) => Some (hh, mi, ss, s5)))))).

(** [+HH:MM] or [-HH:MM], as seconds east of UTC; the empty rest is a naive
    time. *)
Definition parse_offset (s : string) : option (option Z) :=
  match s with
  | EmptyString => Some None
  | String sign rest =>
      let sgn := if Ascii.eqb sign "+" then Some 1
                 else if Ascii.eqb sign "-" then Some (-1) else None in
      obind sgn (fun k =>
      obind (take_digits2 rest) (fun '(h, s1) =>
      obind (expect ":" s1) (fun s2 =>
      obind (take_digits2 s2) (fun '(m, s3) =>
        match s3 with
        | EmptyString =>
            if h * 3600 + m * 60 <? 86400 then Some (Some (k * (h * 3600 + m * 60)))
            else None
        | _ => None
        end))))
  end.

(** [datetime.fromisoformat] on the shapes the scrapers meet: [YYYY-MM-DD],
    and [YYYY-MM-DD], one separator character, [HH:MM:SS], with an optional
    [+HH:MM] or [-HH:MM] offset.  A string of another shape raises
    [ValueError] here; the further shapes that versions of CPython accept
    (fractions of a second, compact dates, a time without seconds) are
    left out, and the comment pipeline below is stated for any parser. *)
Definition fromisoformat (s : string) : outcome datetime :=
  let parsed :=
    obind (take_digits4 s) (fun '(y, s1) =>
    obind (expect "-" s1) (fun s2 =>
    obind (take_digits2 s2) (fun '(m, s3) =>
    obind (expect "-" s3) (fun s4 =>
    obind (take_digits2 s4) (fun '(d, s5) =>
      match s5 with
      | EmptyString => Some (y, m, d, 0, 0, 0, None)
      | String _ tstr =>
          obind (parse_hms tstr) (fun '(hh, mi, ss, s6) =>
          obind (parse_offset s6) (fun tz => Some (y, m, d, hh, mi, ss, tz)))
      end))))) in
  match parsed with
  | Some (y, m, d, hh, mi, ss, tz) => datetime_new y m d hh mi ss 0 tz
  | None => Raise ValueError
  end.

(** The ['YYYY-MM-DD'] text of a date. *)
Definition isoformat_date (y m d : Z) : string :=
  (pad4 y ++ "-" ++ pad2 m ++ "-" ++ pad2 d)%string.

(** [%Y] as the C library prints it: the decimal year, which has fewer than
    four digits below the year 1000. *)
Definition strftime_Y (y : Z) : string :=
  if y <? 10 then String (digit_char (y mod 10)) EmptyString
  else if y <? 100 then pad2 y
  else if y <? 1000 then String (digit_char (y / 100 mod 10)) (pad2 y)
  else pad4 y.

(** [to_gdelt_datetime]: [dt.strftime("%Y%m%d%H%M%S")]. *)
Definition to_gdelt_datetime (dt : datetime) : string :=
  (strftime_Y (year dt) ++ pad2 (month dt) ++ pad2 (day dt)
   ++ pad2 (hour dt) ++ pad2 (minute dt) ++ pad2 (second dt))%string.

(** [dt.strftime("%Y-%m-%d %H:%M:%S")]. *)
Definition strftime_iso (dt : datetime) : string :=
  (strftime_Y (year dt) ++ "-" ++ pad2 (month dt) ++ "-" ++ pad2 (day dt)
   ++ " " ++ pad2 (hour dt) ++ ":" ++ pad2 (minute dt) ++ ":" ++ pad2 (second dt))%string.

(** The text [YYYYMMDDHHMMSS] of a date and time. *)
Definition compact_text (y m d H M S : Z) : string :=
  (pad4 y ++ pad2 m ++ pad2 d ++ pad2 H ++ pad2 M ++ pad2 S)%string.

(** The text [YYYY-MM-DD HH:MM:SS] of a date and time. *)
Definition iso_text (y m d H M S : Z) : string :=
  (pad4 y ++ "-" ++ pad2 m ++ "-" ++ pad2 d ++ " "
   ++ pad2 H ++ ":" ++ pad2 M ++ ":" ++ pad2 S)%string.

(** ** The monthly time windows of the GDELT scraper *)

(** The dict [{"start": .., "end": ..}]. *)
Record time_range : Type := mkrange {
  range_start : datetime;
  range_end : datetime
}.

(** The body of [while current <= end] in [generate_monthly_ranges]; [fuel]
    bounds the number of tests of the loop condition. *)
Fixpoint monthly_loop (fuel : nat) (current end_ : datetime)
    (ranges : list time_range) : outcome (list time_range) :=
  match fuel with
  | O => OutOfFuel
  | S fuel' =>
      continue <- dt_le current end_ ;;
      if continue : bool then
        next_month <-
          (if month current =? 12
           then replace current (Some (year current + 1)) (Some 1) (Some 1) None None None
           else replace current None (Some (month current + 1)) (Some 1) None None None) ;;
        last_second <- sub_one_second next_month ;;
        global_end <- replace end_ None None None (Some 23) (Some 59) (Some 59) ;;
        month_end <- dt_min last_second global_end ;;
        month_start <- replace current None None None (Some 0) (Some 0) (Some 0) ;;
        monthly_loop fuel' next_month end_ (ranges ++ [mkrange month_start month_end])
      else Ret ranges
  end.

(** One test of the loop condition per calendar month from [current] to
    [end_], and the last one that leaves the loop. *)
Definition monthly_fuel (current end_ : datetime) : nat :=
  S (Z.to_nat (12 * (year end_ - year current) + (month end_ - month current) + 1)).

Definition generate_monthly_ranges (start_date end_date : string)
    : outcome (list time_range) :=
  start <- fromisoformat start_date ;;
  current <- replace start None None (Some 1) None None None ;;
  end_ <- fromisoformat end_date ;;
  monthly_loop (monthly_fuel current end_) current end_ [].

Definition naive (y m d H M S : Z) : datetime := mkdatetime y m d H M S 0 None.

(** ** The windows in closed form *)

(** The month after [(y, m)]. *)
Definition next_ym (ym : Z * Z) : Z * Z :=
  let (y, m) := ym in if m =? 12 then (y + 1, 1) else (y, m + 1).

(** [n] consecutive months from [ym] on. *)
Fixpoint months_from (n : nat) (ym : Z * Z) : list (Z * Z) :=
  match n with
  | O => []
  | S n' => ym :: months_from n' (next_ym ym)
  end.

(** The window of the month [ym] when the global end is the date
    [ye]-[me]-[de]: from the first day of the month at 00:00:00 to its last
    second, or to 23:59:59 on the global end in the month of the global
    end. *)
Definition month_chunk (ye me de : Z) (ym : Z * Z) : time_range :=
  let (y, m) := ym in
  mkrange (naive y m 1 0 0 0)
          (if (y =? ye) && (m =? me) then naive ye me de 23 59 59
           else naive y m (days_in_month y m) 23 59 59).

(** Each window ends one second before the next one starts. *)
Fixpoint contiguous (ranges : list time_range) : Prop :=
  match ranges with
  | a :: ((b :: _) as rest) =>
      sub_one_second (range_start b) = Ret (range_end a) /\ contiguous rest
  | _ => True
  end.

(** The number of calendar months from the month [ys]-[ms] to the month
    [ye]-[me], both included; 0 when the first is after the second. *)
Definition months_touched (ys ms ye me : Z) : nat :=
  Z.to_nat (12 * (ye - ys) + (me - ms) + 1).

(** ** Loosely typed values *)

(** A finite float is [m * 2^e]. *)
Inductive pyfloat : Type :=
| FFinite (m e : Z)
| FInf (negative : bool)
| FNaN.

(** The values a decoded JSON body is made of.  A [PDict] keeps its items
    in insertion order; a lookup finds the first binding of a key. *)
#[warnings="-register-all"]
Inductive pyval : Type :=
| PNone
| PBool (b : bool)
| PInt (z : Z)
| PFloat (f : pyfloat)
| PStr (s : string)
| PList (l : list pyval)
| PDict (d : list (string * pyval)).

Definition pyfloat_eq_dec (a b : pyfloat) : {a = b} + {a <> b}.
Proof. decide equality; first [apply Z.eq_dec | apply bool_dec]. Defined.

(** Equality of two values as trees.  On strings, which is what the
    upstream services put in identifiers and URLs, it is Python's [==]. *)
Fixpoint pyval_eq_dec (a b : pyval) {struct a} : {a = b} + {a <> b}.
Proof.
  decide equality.
  - apply bool_dec.
  - apply Z.eq_dec.
  - apply pyfloat_eq_dec.
  - apply string_dec.
  - apply (list_eq_dec pyval_eq_dec).
  - apply list_eq_dec. decide equality. apply string_dec.
Defined.

(** Lists and dicts cannot be hashed: they cannot be keys of a dict. *)
Definition hashable (v : pyval) : bool :=
  match v with
  | PList _ | PDict _ => false
  | _ => true
  end.

(** A [bool], an [int] or a [float] as a number.  Python compares and
    hashes the three by value: [True == 1 == 1.0]. *)
Definition as_float (v : pyval) : option pyfloat :=
  match v with
  | PBool b => Some (FFinite (if b then 1 else 0) 0)
  | PInt z => Some (FFinite z 0)
  | PFloat f => Some f
  | _ => None
  end.

(** [a == b] on two numbers; [m * 2^e] and [m' * 2^e'] are compared after
    scaling both by the smaller exponent.  The [nan] of a decoded body is
    one object ([json.decoder.NaN]), and as a key it is found by identity
    before [==] is tried, so it is the same key as itself. *)
Definition float_eqb (a b : pyfloat) : bool :=
  match a, b with
  | FFinite m e, FFinite m' e' =>
      let k := Z.min e e' in
      m * 2 ^ (e - k) =? m' * 2 ^ (e' - k)
  | FInf n, FInf n' => Bool.eqb n n'
  | FNaN, FNaN => true
  | _, _ => false
  end.

(** Whether [a] and [b] are one key of a dict: [a is b or a == b], on
    values that can be hashed. *)
Definition same_key (a b : pyval) : bool :=
  match a, b with
  | PNone, PNone => true
  | PStr s, PStr t => String.eqb s t
  | _, _ =>
      match as_float a, as_float b with
      | Some x, Some y => float_eqb x y
      | _, _ => false
      end
  end.

(** A representative of the keys that are the same key as a value: a number
    [m * 2^e] is written with [m] odd (or as 0 * 2^0). *)
Inductive hkey : Type :=
| KNone
| KNum (m e : Z)
| KInf (negative : bool)
| KNaN
| KStr (s : string).

Definition hkey_eq_dec (a b : hkey) : {a = b} + {a <> b}.
Proof. decide equality; first [apply Z.eq_dec | apply bool_dec | apply string_dec]. Defined.

Definition option_hkey_eq_dec (a b : option hkey) : {a = b} + {a <> b}.
Proof. decide equality. apply hkey_eq_dec. Defined.

(** [p] as [r * 2^j] with [r] odd. *)
Fixpoint strip_twos (p : positive) : positive * Z :=
  match p with
  | xO q => let '(r, j) := strip_twos q in (r, j + 1)
  | _ => (p, 0)
  end.

Definition reduced (m e : Z) : hkey :=
  match m with
  | 0 => KNum 0 0
  | Zpos p => let '(r, j) := strip_twos p in KNum (Zpos r) (e + j)
  | Zneg p => let '(r, j) := strip_twos p in KNum (Zneg r) (e + j)
  end.

Definition float_key (f : pyfloat) : hkey :=
  match f with
  | FFinite m e => reduced m e
  | FInf n => KInf n
  | FNaN => KNaN
  end.

(** The key a value is filed under in a dict; [None] when it cannot be
    hashed. *)
Definition dict_key (v : pyval) : option hkey :=
  match v with
  | PNone => Some KNone
  | PStr s => Some (KStr s)
  | PList _ | PDict _ => None
  | _ => option_map float_key (as_float v)
  end.

Fixpoint assoc {V : Type} (k : string) (d : list (string * V)) : option V :=
  match d with
  | [] => None
  | (k', v) :: d' => if String.eqb k k' then Some v else assoc k d'
  end.

(** [d.get(k, default)] on the items of a dict. *)
Definition dict_get (d : list (string * pyval)) (k : string) (default : pyval) : pyval :=
  match assoc k d with
  | Some x => x
  | None => default
  end.

(** [v.get(k, default)]: only a dict has the method. *)
Definition py_get (v : pyval) (k : string) (default : pyval) : outcome pyval :=
  match v with
  | PDict d => Ret (dict_get d k default)
  | _ => Raise AttributeError
  end.

(** [v[k]] with a string key: [KeyError] on a dict without the key,
    [TypeError] on a value that is not a dict. *)
Definition py_getitem (v : pyval) (k : string) : outcome pyval :=
  match v with
  | PDict d => match assoc k d with Some x => Ret x | None => Raise KeyError end
  | _ => Raise TypeError
  end.

Fixpoint chars (s : string) : list pyval :=
  match s with
  | EmptyString => []
  | String c s' => PStr (String c EmptyString) :: chars s'
  end.

(** [for x in v]. *)
Definition py_iter (v : pyval) : outcome (list pyval) :=
  match v with
  | PList l => Ret l
  | PDict d => Ret (map (fun kv => PStr (fst kv)) d)
  | PStr s => Ret (chars s)
  | _ => Raise TypeError
  end.

Fixpoint contains (sub s : string) : bool :=
  prefix sub s ||
  match s with
  | EmptyString => false
  | String _ s' => contains sub s'
  end.

Definition is_str (k : string) (v : pyval) : bool :=
  match v with PStr s => String.eqb s k | _ => false end.

(** [k in v] for a string [k]. *)
Definition py_contains (k : string) (v : pyval) : outcome bool :=
  match v with
  | PDict d => Ret (match assoc k d with Some _ => true | None => false end)
  | PList l => Ret (existsb (is_str k) l)
  | PStr s => Ret (contains k s)
  | _ => Raise TypeError
  end.

Definition float_is_zero (f : pyfloat) : bool :=
  match f with FFinite m _ => m =? 0 | _ => false end.

(** Truth value of [v], as [if v] and [not v] take it. *)
Definition py_truthy (v : pyval) : bool :=
  match v with
  | PNone => false
  | PBool b => b
  | PInt z => negb (z =? 0)
  | PFloat f => negb (float_is_zero f)
  | PStr s => negb (String.eqb s EmptyString)
  | PList l => match l with [] => false | _ => true end
  | PDict d => match d with [] => false | _ => true end
  end.

(** White space, as [str.strip] takes it ([str.isspace]). *)
Definition is_space (c : ascii) : bool :=
  ((9 <=? code c) && (code c <=? 13)) || ((28 <=? code c) && (code c <=? 32))
  || (code c =? 133) || (code c =? 160).

Fixpoint all_space (s : string) : bool :=
  match s with
  | EmptyString => true
  | String c s' => is_space c && all_space s'
  end.

(** White space, as [int] skips it around a literal: the separators
    U+001C to U+001F are not part of it. *)
Definition int_space (c : ascii) : bool :=
  ((9 <=? code c) && (code c <=? 13)) || (code c =? 32)
  || (code c =? 133) || (code c =? 160).

Fixpoint int_lstrip (s : string) : string :=
  match s with
  | String c s' => if int_space c then int_lstrip s' else s
  | EmptyString => EmptyString
  end.

Fixpoint int_blank (s : string) : bool :=
  match s with
  | EmptyString => true
  | String c s' => int_space c && int_blank s'
  end.

(** The digits of an integer literal after its sign: a digit first, single
    underscores only between digits, white space only at the end. *)
Fixpoint int_digits (acc : Z) (after_digit : bool) (s : string) : option Z :=
  match s with
  | EmptyString => if after_digit then Some acc else None
  | String c s' =>
      if is_digit c then int_digits (10 * acc + digit_val c) true s'
      else if Ascii.eqb c "_" then
        if after_digit then
          match s' with
          | String c' _ => if is_digit c' then int_digits acc false s' else None
          | EmptyString => None
          end
        else None
      else if after_digit && int_blank s then Some acc
      else None
  end.

Fixpoint count_digits (s : string) : Z :=
  match s with
  | EmptyString => 0
  | String c s' => (if is_digit c then 1 else 0) + count_digits s'
  end.

(** [sys.get_int_max_str_digits()], at its default. *)
Definition int_max_str_digits : Z := 4300.

(** [int(s)] for a string in base 10.  A literal of more digits than
    [int_max_str_digits] is refused. *)
Definition int_of_string (s : string) : outcome Z :=
  let body := int_lstrip s in
  let '(sign, body') :=
    match body with
    | String c rest =>
        if Ascii.eqb c "-" then (-1, rest)
        else if Ascii.eqb c "+" then (1, rest)
        else (1, body)
    | EmptyString => (1, body)
    end in
  match int_digits 0 false body' with
  | Some n =>
      if count_digits body' <=? int_max_str_digits then Ret (sign * n)
      else Raise ValueError
  | None => Raise ValueError
  end.

(** [int(v)]. *)
Definition py_int (v : pyval) : outcome Z :=
  match v with
  | PInt z => Ret z
  | PBool b => Ret (if b then 1 else 0)
  | PFloat (FFinite m e) =>
      Ret (if 0 <=? e then m * 2 ^ e else Z.quot m (2 ^ (- e)))
  | PFloat (FInf _) => Raise OverflowError
  | PFloat FNaN => Raise ValueError
  | PStr s => int_of_string s
  | PNone | PList _ | PDict _ => Raise TypeError
  end.

Fixpoint map_outcome {A B : Type} (f : A -> outcome B) (l : list A) : outcome (list B) :=
  match l with
  | [] => Ret []
  | a :: l' => b <- f a ;; bs <- map_outcome f l' ;; Ret (b :: bs)
  end.

(** ** [strptime] with the format [%Y%m%d%H%M%S] *)

(** [_strptime] turns the format into a regular expression, one group per
    directive, and takes the first match in backtracking order.  A group is
    the ordered list of its alternatives; an alternative is a sequence of
    character classes. *)
Definition cls : Type := ascii -> bool.

Definition between (lo hi : ascii) : cls :=
  fun c => (code lo <=? code c) && (code c <=? code hi).

Definition exactly (a : ascii) : cls := fun c => Ascii.eqb c a.

Fixpoint match_seq (p : list cls) (s : string) : option (string * string) :=
  match p with
  | [] => Some (EmptyString, s)
  | k :: p' =>
      match s with
      | String c s' =>
          if k c then
            match match_seq p' s' with
            | Some (txt, rest) => Some (String c txt, rest)
            | None => None
            end
          else None
      | EmptyString => None
      end
  end.

Definition alternatives (alts : list (list cls)) (s : string) : list (string * string) :=
  flat_map (fun p => match match_seq p s with Some r => [r] | None => [] end) alts.

(** All the ways the groups match a prefix of [s], in backtracking order,
    each with the texts of the groups and the unmatched rest. *)
Fixpoint match_groups (gs : list (list (list cls))) (s : string)
    : list (list string * string) :=
  match gs with
  | [] => [([], s)]
  | g :: gs' =>
      flat_map (fun '(txt, rest) =>
                  map (fun '(caps, r) => (txt :: caps, r)) (match_groups gs' rest))
               (alternatives g s)
  end.

Definition d09 : cls := is_digit.

(** [(\d\d\d\d)] *)
Definition re_Y : list (list cls) := [[d09; d09; d09; d09]].
(** [(1[0-2]|0[1-9]|[1-9])] *)
Definition re_m : list (list cls) :=
  [[exactly "1"; between "0" "2"]; [exactly "0"; between "1" "9"]; [between "1" "9"]].
(** [(3[0-1]|[1-2]\d|0[1-9]|[1-9]| [1-9])] *)
Definition re_d : list (list cls) :=
  [[exactly "3"; between "0" "1"]; [between "1" "2"; d09];
   [exactly "0"; between "1" "9"]; [between "1" "9"]; [exactly " "; between "1" "9"]].
(** [(2[0-3]|[0-1]\d|\d)] *)
Definition re_H : list (list cls) :=
  [[exactly "2"; between "0" "3"]; [between "0" "1"; d09]; [d09]].
(** [([0-5]\d|\d)] *)
Definition re_M : list (list cls) := [[between "0" "5"; d09]; [d09]].
(** [(6[0-1]|[0-5]\d|\d)] *)
Definition re_S : list (list cls) :=
  [[exactly "6"; between "0" "1"]; [between "0" "5"; d09]; [d09]].

Definition gdelt_format : list (list (list cls)) := [re_Y; re_m; re_d; re_H; re_M; re_S].

(** [datetime.strptime(s, "%Y%m%d%H%M%S")]: no match, text left over after
    the match, and field values that are no date or time raise
    [ValueError]. *)
Definition strptime_str (s : string) : outcome datetime :=
  match match_groups gdelt_format s with
  | ([tY; tm; td; tH; tM; tS], EmptyString) :: _ =>
      y <- int_of_string tY ;;
      m <- int_of_string tm ;;
      d <- int_of_string td ;;
      hh <- int_of_string tH ;;
      mi <- int_of_string tM ;;
      ss <- int_of_string tS ;;
      datetime_new y m d hh mi ss 0 None
  | _ => Raise ValueError
  end.

(** A first argument that is not a [str] raises [TypeError]. *)
Definition strptime (v : pyval) : outcome datetime :=
  match v with
  | PStr s => strptime_str s
  | _ => Raise TypeError
  end.

(** [normalize_published_time]. *)
Definition normalize_published_time (seendate_str : pyval) : outcome (option string) :=
  if negb (py_truthy seendate_str) then Ret None
  else
    try_except
      (dt <- strptime seendate_str ;; Ret (Some (strftime_iso dt)))
      (fun _ => Ret None).

(** *** What the expression matches *)

(** The field [txt] is what its group matches first, with nothing left, and
    [int] reads it as [n]. *)
Definition reads_as (g : list (list cls)) (txt : string) (n : Z) : bool :=
  match alternatives g txt with
  | (t, EmptyString) :: _ => String.eqb t txt
  | _ => false
  end
  && match int_of_string txt with
     | Ret v => v =? n
     | _ => false
     end.

(** Every two-digit field from [lo] to [hi] is read back by its group. *)
Definition reads_fields (g : list (list cls)) (lo hi : Z) : bool :=
  forallb (fun p => (List.length p <=? 2)%nat) g
  && forallb (fun k => implb (lo <=? k) (reads_as g (pad2 k) k))
             (map Z.of_nat (seq 0 (Z.to_nat (hi + 1)))).

(** A digit or a space, a class of such characters, a text made of them. *)
Definition ok_char (c : ascii) : bool := is_digit c || Ascii.eqb c " ".

Definition cls_ok (k : cls) : Prop := forall c, k c = true -> ok_char c = true.

Definition all_ok (s : string) : Prop :=
  Forall (fun c => ok_char c = true) (list_ascii_of_string s).

(** A group whose alternatives are [lo] to [hi] characters of digits and
    spaces. *)
Definition group_ok (lo hi : nat) (g : list (list cls)) : Prop :=
  forall p, In p g -> (lo <= List.length p <= hi)%nat /\ Forall cls_ok p.

(** ** Deduplication *)

Section Dedup.
Context {R K : Type}.
Variable key : R -> K.
Variable key_eq_dec : forall a b : K, {a = b} + {a <> b}.

(** [DataFrame.drop_duplicates(subset=key)] with its default
    [keep='first']: a row is kept when no earlier row has its key; the
    kept rows stay in their order. *)
Fixpoint drop_duplicates_from (seen : list K) (rows : list R) : list R :=
  match rows with
  | [] => []
  | r :: rest =>
      if in_dec key_eq_dec (key r) seen
      then drop_duplicates_from seen rest
      else r :: drop_duplicates_from (key r :: seen) rest
  end.

Definition drop_duplicates (rows : list R) : list R :=
  drop_duplicates_from [] rows.

(** [d[k] = v] on an insertion-ordered dict: a key that is present keeps
    its place and takes the new value, a new key goes to the end. *)
Fixpoint dict_setitem (d : list (K * R)) (k : K) (v : R) : list (K * R) :=
  match d with
  | [] => [(k, v)]
  | (k', v') :: d' =>
      if key_eq_dec k k' then (k', v) :: d'
      else (k', v') :: dict_setitem d' k v
  end.

(** [{key(v): v for v in rows}], continued from the dict [d]. *)
Definition dict_comprehension_from (d : list (K * R)) (rows : list R) : list (K * R) :=
  fold_left (fun acc v => dict_setitem acc (key v) v) rows d.

(** [list({key(v): v for v in rows}.values())]. *)
Definition dict_values_by_key (rows : list R) : list R :=
  map snd (dict_comprehension_from [] rows).

(** [r] is the first row of [rows] with its key. *)
Definition first_with_key (rows : list R) (r : R) : Prop :=
  exists l1 l2, rows = l1 ++ r :: l2 /\ ~ In (key r) (map key l1).

(** [r] is the last row of [rows] with its key. *)
Definition last_with_key (rows : list R) (r : R) : Prop :=
  exists l1 l2, rows = l1 ++ r :: l2 /\ ~ In (key r) (map key l2).
End Dedup.

(** ** The GDELT scraper *)

Module Gdelt.

(** One article record, the dict that [fetch_gdelt_chunk] appends. *)
Record article : Type := mkarticle {
  url : pyval;
  title : pyval;
  source_domain : pyval;
  language : pyval;
  country : pyval;
  published_at : pyval;
  tone : pyval;
  keyword : string;
  source : string
}.

(** A row of the data frame after the [published_at_iso] column is added. *)
Record row : Type := mkrow {
  record : article;
  published_at_iso : option string
}.

(** The query parameters of one request. *)
Record params : Type := mkparams {
  query : string;
  mode : string;
  maxrecords : Z;
  format : string;
  startdatetime : string;
  enddatetime : string
}.

(** What [requests.get] returns: the status, the body, and the decoded
    body, [None] when [resp.json()] raises [JSONDecodeError]. *)
Record response : Type := mkresponse {
  status_code : Z;
  text : string;
  json : option pyval
}.

(** [resp.raise_for_status()]: 4xx and 5xx raise. *)
Definition raise_for_status (resp : response) : outcome unit :=
  if (400 <=? status_code resp) && (status_code resp <? 600)
  then Raise RequestException
  else Ret tt.

Definition quoted (keyword : string) : string :=
  let q := String (ascii_of_nat 34) EmptyString in
  (q ++ keyword ++ q)%string.

(** The record built from one element of [articles]. *)
Definition article_record (keyword : string) (art : pyval) : outcome article :=
  url <- py_get art "url" (PStr "") ;;
  title <- py_get art "title" (PStr "") ;;
  source_domain <- py_get art "sourceDomain" (PStr "") ;;
  language <- py_get art "language" (PStr "") ;;
  country <- py_get art "domainCountryCode" (PStr "") ;;
  published_at <- py_get art "seendate" (PStr "") ;;
  tone <- py_get art "tone" PNone ;;
  Ret (mkarticle url title source_domain language country published_at tone
                 keyword "gdelt").

(** The records of a decoded body, the part of [fetch_gdelt_chunk] after
    its [try] block. *)
Definition records_of_body (keyword : string) (data : pyval) : outcome (list article) :=
  has_articles <- py_contains "articles" data ;;
  if negb has_articles then Ret []
  else
    articles <- py_getitem data "articles" ;;
    arts <- py_iter articles ;;
    map_outcome (article_record keyword) arts.

(** The [try] block of [fetch_gdelt_chunk] on the answer of the request:
    [inl] is an early [return []], [inr] the decoded body. *)
Definition decode_response (answer : outcome response)
    : outcome (list article + pyval) :=
  try_except
    (resp <- answer ;;
     _ <- raise_for_status resp ;;
     if all_space (text resp) then Ret (inl [])
     else
       match json resp with
       | Some data => Ret (inr data)
       | None => Ret (inl [])
       end)
    (fun _ => Ret (inl [])).

(** The first step on the data frame: the [published_at_iso] column. *)
Definition add_published_at_iso (all_records : list article) : outcome (list row) :=
  map_outcome (fun a => iso <- normalize_published_time (published_at a) ;;
                        Ret (mkrow a iso)) all_records.

Section Frame.
(** pandas finds the duplicated rows through the codes that [factorize]
    gives the cells of each column of the subset: two rows are duplicates
    when their cells have the same codes.  The [keyword] cells are strings,
    told apart as strings.  Which cells of the [url] column share a code
    depends, for cells that are not strings, on the dtype pandas chose for
    the column and on pandas itself, and is left open: [cell_code] is any
    function. *)
Variable C : Type.
Variable C_eq_dec : forall a b : C, {a = b} + {a <> b}.
Variable cell_code : pyval -> C.

Definition key (r : row) : C * string :=
  (cell_code (url (record r)), keyword (record r)).

Definition key_eq_dec (a b : C * string) : {a = b} + {a <> b}.
Proof. decide equality; first [apply string_dec | apply C_eq_dec]. Defined.

(** [df.drop_duplicates(subset=["url", "keyword"])].  A list or a dict in
    the [url] column cannot be hashed, and [factorize] raises [TypeError]. *)
Definition deduplicate (df : list row) : outcome (list row) :=
  if forallb (fun r => hashable (url (record r))) df
  then Ret (drop_duplicates key key_eq_dec df)
  else Raise TypeError.
End Frame.

Arguments key {C} _ _.
Arguments key_eq_dec {C} _ _ _.
Arguments deduplicate {C} _ _ _.

Section Upstream.
(** The GDELT service: a state and the answer to one request. *)
Variable U : Type.
Variable requests_get : U -> params -> outcome response * U.

(** The codes of the cells of the [url] column. *)
Variable C : Type.
Variable C_eq_dec : forall a b : C, {a = b} + {a <> b}.
Variable cell_code : pyval -> C.

Definition fetch_gdelt_chunk (u : U) (keyword : string) (start_dt end_dt : datetime)
    (maxrecords : Z) : outcome (list article * U) :=
  let params := mkparams (quoted keyword) "ArtList" maxrecords "json"
                         (to_gdelt_datetime start_dt) (to_gdelt_datetime end_dt) in
  let '(answer, u') := requests_get u params in
  decoded <- decode_response answer ;;
  match decoded with
  | inl early => Ret (early, u')
  | inr data => records <- records_of_body keyword data ;; Ret (records, u')
  end.

(** [for dr in date_ranges] for one keyword. *)
Fixpoint fetch_windows (u : U) (keyword : string) (maxrecords : Z)
    (date_ranges : list time_range) (all_records : list article)
    : outcome (list article * U) :=
  match date_ranges with
  | [] => Ret (all_records, u)
  | dr :: rest =>
      '(chunk_records, u') <-
        fetch_gdelt_chunk u keyword (range_start dr) (range_end dr) maxrecords ;;
      fetch_windows u' keyword maxrecords rest (all_records ++ chunk_records)
  end.

(** [for keyword in keywords]. *)
Fixpoint fetch_keywords (u : U) (keywords : list string) (maxrecords : Z)
    (date_ranges : list time_range) (all_records : list article)
    : outcome (list article * U) :=
  match keywords with
  | [] => Ret (all_records, u)
  | keyword :: rest =>
      '(all_records', u') <- fetch_windows u keyword maxrecords date_ranges all_records ;;
      fetch_keywords u' rest maxrecords date_ranges all_records'
  end.

End Upstream.

End Gdelt.

(** The article record of a dict. *)
Definition article_of (keyword : string) (art : list (string * pyval)) : Gdelt.article :=
  Gdelt.mkarticle (dict_get art "url" (PStr "")) (dict_get art "title" (PStr ""))
                  (dict_get art "sourceDomain" (PStr "")) (dict_get art "language" (PStr ""))
                  (dict_get art "domainCountryCode" (PStr ""))
                  (dict_get art "seendate" (PStr "")) (dict_get art "tone" PNone)
                  keyword "gdelt".

(** ** The YouTube scraper *)

Module Youtube.

(** The dict that [search_videos] appends for one search result. *)
Record video : Type := mkvideo {
  video_id : pyval;
  video_title : pyval;
  channel : pyval;
  video_published_at : pyval;
  keyword : string
}.

(** The dict that [fetch_comments_for_video] appends for one comment; its
    first five entries are the entries of the video, kept here as
    [of_video]. *)
Record comment : Type := mkcomment {
  of_video : video;
  comment_id : pyval;
  comment_text : pyval;
  comment_likes : Z;
  comment_published_at : pyval
}.

(** The two calls made on the client.  The constant arguments
    ([part], [type], [maxResults], [order], ...) are left out. *)
Inductive request : Type :=
| SearchList (q publishedAfter publishedBefore : string) (pageToken : pyval)
| CommentThreadsList (videoId : pyval) (pageToken : pyval).

(** The dict built from one search result. *)
Definition video_of_item (keyword : string) (item : pyval) : outcome video :=
  id <- py_getitem item "id" ;;
  video_id <- py_getitem id "videoId" ;;
  snippet <- py_getitem item "snippet" ;;
  title <- py_get snippet "title" (PStr "") ;;
  channel <- py_get snippet "channelTitle" (PStr "") ;;
  published_at <- py_get snippet "publishedAt" (PStr "") ;;
  Ret (mkvideo video_id title channel published_at keyword).

(** The body of [for item in response.get("items", [])] in
    [search_videos], with its [break] at the cap. *)
Fixpoint search_items (keyword : string) (max_videos_per_keyword : Z)
    (items : list pyval) (all_videos : list video) (collected : Z)
    : outcome (list video * Z) :=
  match items with
  | [] => Ret (all_videos, collected)
  | item :: rest =>
      v <- video_of_item keyword item ;;
      let all_videos' := all_videos ++ [v] in
      let collected' := collected + 1 in
      if collected' >=? max_videos_per_keyword then Ret (all_videos', collected')
      else search_items keyword max_videos_per_keyword rest all_videos' collected'
  end.

(** [str.replace("Z", "+00:00")]. *)
Fixpoint replace_Z (s : string) : string :=
  match s with
  | EmptyString => EmptyString
  | String c s' =>
      if Ascii.eqb c "Z" then ("+00:00" ++ replace_Z s')%string
      else String c (replace_Z s')
  end.

(** [v.replace("Z", "+00:00")]: only a string has the method. *)
Definition py_replace_Z (v : pyval) : outcome string :=
  match v with
  | PStr s => Ret (replace_Z s)
  | _ => Raise AttributeError
  end.

(** [title[:40]] in the progress message: a value that cannot be sliced
    raises [TypeError]. *)
Definition sliceable (v : pyval) : bool :=
  match v with
  | PStr _ | PList _ => true
  | _ => false
  end.

Definition utc : option Z := Some 0.

(** The first lines of the body of the comment loop: the nested snippet
    and its three fields, the text, the timestamp and the likes count. *)
Definition comment_fields (item : pyval) : outcome (pyval * pyval * pyval) :=
  snippet0 <- py_getitem item "snippet" ;;
  top <- py_getitem snippet0 "topLevelComment" ;;
  snippet <- py_getitem top "snippet" ;;
  comment_text <- py_get snippet "textDisplay" (PStr "") ;;
  comment_published_at_str <- py_get snippet "publishedAt" (PStr "") ;;
  comment_likes <- py_get snippet "likeCount" (PInt 0) ;;
  Ret (comment_text, comment_published_at_str, comment_likes).

(** A response body seen as a page: its items and its continuation
    token, as the loops read them. *)
Definition page_items (body : list (string * pyval)) : list pyval :=
  match assoc "items" body with
  | Some (PList l) => l
  | _ => []
  end.

Definition page_token (body : list (string * pyval)) : pyval :=
  match assoc "nextPageToken" body with
  | Some t => t
  | None => PNone
  end.

(** The items of the body are a list, or the body has no items. *)
Definition items_listed (body : list (string * pyval)) : bool :=
  match assoc "items" body with
  | Some (PList _) | None => true
  | Some _ => false
  end.

Section Upstream.
(** The client: a state, and the answer of [execute()] to one request. *)
Variable U : Type.
Variable execute : U -> request -> outcome pyval * U.

(** [datetime.fromisoformat], of whichever CPython runs the scraper. *)
Variable parse_isoformat : string -> outcome datetime.

(** The state of the page loop of [search_videos]: the accumulated
    videos, the counter, the requests sent so far and the client. *)
Record search_state : Type := mksearch {
  all_videos : list video;
  collected : Z;
  sent : list request;
  client : U
}.

(** [while collected < max_videos_per_keyword] for one keyword; [fuel]
    bounds the number of tests of the loop condition. *)
Fixpoint search_pages (fuel : nat) (keyword start_date end_date : string)
    (max_videos_per_keyword : Z) (next_page_token : pyval) (st : search_state)
    : outcome search_state :=
  match fuel with
  | O => OutOfFuel
  | S fuel' =>
      if collected st <? max_videos_per_keyword then
        let req := SearchList keyword start_date end_date next_page_token in
        let '(answer, u') := execute (client st) req in
        match answer with
        | Raise _ => Ret (mksearch (all_videos st) (collected st) (sent st ++ [req]) u')
        | OutOfFuel => OutOfFuel
        | Ret response =>
            items_v <- py_get response "items" (PList []) ;;
            items <- py_iter items_v ;;
            '(all_videos', collected') <-
              search_items keyword max_videos_per_keyword items
                           (all_videos st) (collected st) ;;
            next_page_token' <- py_get response "nextPageToken" PNone ;;
            let st' := mksearch all_videos' collected' (sent st ++ [req]) u' in
            if negb (py_truthy next_page_token') then Ret st'
            else search_pages fuel' keyword start_date end_date
                              max_videos_per_keyword next_page_token' st'
        end
      else Ret st
  end.

(** [for keyword in keywords], each keyword starting with
    [collected = 0] and no page token. *)
Fixpoint search_keywords (fuel : nat) (keywords : list string)
    (start_date end_date : string) (max_videos_per_keyword : Z)
    (videos : list video) (reqs : list request) (u : U)
    : outcome search_state :=
  match keywords with
  | [] => Ret (mksearch videos 0 reqs u)
  | keyword :: rest =>
      st <- search_pages fuel keyword start_date end_date max_videos_per_keyword
                         PNone (mksearch videos 0 reqs u) ;;
      search_keywords fuel rest start_date end_date max_videos_per_keyword
                      (all_videos st) (sent st) (client st)
  end.

(** The key [v["video_id"]] is filed under. *)
Definition id_key (v : video) : option hkey := dict_key (video_id v).

(** [list({v["video_id"]: v for v in all_videos}.values())]. *)
Definition unique_videos (videos : list video) : outcome (list video) :=
  if forallb (fun v => hashable (video_id v)) videos
  then Ret (dict_values_by_key id_key option_hkey_eq_dec videos)
  else Raise TypeError.

(** [search_videos]: the unique videos, the requests sent, the client. *)
Definition search_videos (fuel : nat) (u : U) (keywords : list string)
    (start_date end_date : string) (max_videos_per_keyword : Z)
    : outcome (list video * list request * U) :=
  st <- search_keywords fuel keywords start_date end_date max_videos_per_keyword [] [] u ;;
  videos <- unique_videos (all_videos st) ;;
  Ret (videos, sent st, client st).

(** What the body of the comment loop does with one item. *)
Inductive item_result : Type :=
| Skipped
| Kept (c : comment).

(** One item of a comment page: the extraction, the parse of the
    timestamp under its [try], the range test, the record. *)
Definition comment_of_item (v : video) (start_date end_date : datetime)
    (item : pyval) : outcome item_result :=
  '(comment_text, comment_published_at_str, comment_likes) <- comment_fields item ;;
  parsed <- try_except
              (s <- py_replace_Z comment_published_at_str ;;
               dt <- parse_isoformat s ;; Ret (Some dt))
              (fun _ => Ret None) ;;
  match parsed with
  | None => Ret Skipped
  | Some comment_dt =>
      before <- dt_lt comment_dt start_date ;;
      outside <- (if before : bool then Ret true else dt_gt comment_dt end_date) ;;
      if outside : bool then Ret Skipped
      else
        comment_id <- py_getitem item "id" ;;
        likes <- py_int comment_likes ;;
        Ret (Kept (mkcomment v comment_id comment_text likes comment_published_at_str))
  end.

(** [for item in response.get("items", [])] in
    [fetch_comments_for_video], with its [break] at the cap. *)
Fixpoint comment_items (v : video) (start_date end_date : datetime)
    (max_comments : Z) (items : list pyval) (comments : list comment) (fetched : Z)
    : outcome (list comment * Z) :=
  match items with
  | [] => Ret (comments, fetched)
  | item :: rest =>
      r <- comment_of_item v start_date end_date item ;;
      match r with
      | Skipped => comment_items v start_date end_date max_comments rest comments fetched
      | Kept c =>
          let comments' := comments ++ [c] in
          let fetched' := fetched + 1 in
          if fetched' >=? max_comments then Ret (comments', fetched')
          else comment_items v start_date end_date max_comments rest comments' fetched'
      end
  end.

Record comments_state : Type := mkcomments {
  comments : list comment;
  fetched : Z;
  requested : list request;
  service : U
}.

(** [while fetched < max_comments]. *)
Fixpoint comment_pages (fuel : nat) (v : video) (start_date end_date : datetime)
    (max_comments : Z) (next_page_token : pyval) (st : comments_state)
    : outcome comments_state :=
  match fuel with
  | O => OutOfFuel
  | S fuel' =>
      if fetched st <? max_comments then
        let req := CommentThreadsList (video_id v) next_page_token in
        let '(answer, u') := execute (service st) req in
        match answer with
        | Raise _ =>
            Ret (mkcomments (comments st) (fetched st) (requested st ++ [req]) u')
        | OutOfFuel => OutOfFuel
        | Ret response =>
            items_v <- py_get response "items" (PList []) ;;
            items <- py_iter items_v ;;
            '(comments', fetched') <-
              comment_items v start_date end_date max_comments items
                            (comments st) (fetched st) ;;
            next_page_token' <- py_get response "nextPageToken" PNone ;;
            let st' := mkcomments comments' fetched' (requested st ++ [req]) u' in
            if negb (py_truthy next_page_token') then Ret st'
            else comment_pages fuel' v start_date end_date max_comments
                               next_page_token' st'
        end
      else Ret st
  end.

(** [fetch_comments_for_video]. *)
Definition fetch_comments_for_video (fuel : nat) (u : U) (v : video)
    (start_date end_date : datetime) (max_comments : Z) : outcome comments_state :=
  if sliceable (video_title v) then
    comment_pages fuel v start_date end_date max_comments PNone
                  (mkcomments [] 0 [] u)
  else Raise TypeError.

(** [for video in videos: all_comments.extend(...)]. *)
Fixpoint fetch_all_comments (fuel : nat) (u : U) (videos : list video)
    (start_dt end_dt : datetime) (max_comments_per_video : Z)
    (all_comments : list comment) : outcome (list comment * U) :=
  match videos with
  | [] => Ret (all_comments, u)
  | v :: rest =>
      st <- fetch_comments_for_video fuel u v start_dt end_dt max_comments_per_video ;;
      fetch_all_comments fuel (service st) rest start_dt end_dt max_comments_per_video
                         (all_comments ++ comments st)
  end.

(** [scrape_youtube_comments], up to the rows handed to [to_csv];
    [None] is the early return when nothing was collected. *)
Definition scrape_youtube_comments (fuel : nat) (u : U) (keywords : list string)
    (start_date_str end_date_str : string)
    (max_videos_per_keyword max_comments_per_video : Z)
    : outcome (option (list comment) * U) :=
  let start_rfc3339 := (start_date_str ++ "T00:00:00Z")%string in
  let end_rfc3339 := (end_date_str ++ "T23:59:59Z")%string in
  start0 <- parse_isoformat start_date_str ;;
  let start_dt := replace_tzinfo start0 utc in
  end0 <- parse_isoformat end_date_str ;;
  end1 <- replace end0 None None None (Some 23) (Some 59) (Some 59) ;;
  let end_dt := replace_tzinfo end1 utc in
  '(videos, _, u1) <- search_videos fuel u keywords start_rfc3339 end_rfc3339
                                     max_videos_per_keyword ;;
  '(all_comments, u2) <- fetch_all_comments fuel u1 videos start_dt end_dt
                                             max_comments_per_video [] ;;
  match all_comments with
  | [] => Ret (None, u2)
  | _ => Ret (Some all_comments, u2)
  end.
End Upstream.

End Youtube.

Arguments Youtube.mksearch {U} _ _ _ _.
Arguments Youtube.all_videos {U} _.
Arguments Youtube.collected {U} _.
Arguments Youtube.sent {U} _.
Arguments Youtube.client {U} _.
Arguments Youtube.mkcomments {U} _ _ _ _.
Arguments Youtube.comments {U} _.
Arguments Youtube.fetched {U} _.
Arguments Youtube.requested {U} _.
Arguments Youtube.service {U} _.
Arguments Youtube.search_pages {U} _ _ _ _ _ _ _ _.
Arguments Youtube.search_keywords {U} _ _ _ _ _ _ _ _ _.
Arguments Youtube.search_videos {U} _ _ _ _ _ _ _.
Arguments Youtube.comment_pages {U} _ _ _ _ _ _ _ _ _.
Arguments Youtube.fetch_comments_for_video {U} _ _ _ _ _ _ _ _.
Arguments Youtube.fetch_all_comments {U} _ _ _ _ _ _ _ _ _.
Arguments Youtube.scrape_youtube_comments {U} _ _ _ _ _ _ _ _ _.

(** ** Runs of the page loops *)

Section Runs.
(** The client, and the request that carries a given page token. *)
Variable U : Type.
Variable execute : U -> Youtube.request -> outcome pyval * U.
Variable request_with : pyval -> Youtube.request.

(** From the state [u], asked with the token [token] and then with the
    token of each page in turn, the client answers with the bodies [pages]
    and is left in the state [u_end]. *)
Fixpoint serves (u : U) (token : pyval) (pages : list (list (string * pyval)))
    (u_end : U) : Prop :=
  match pages with
  | [] => u_end = u
  | p :: rest =>
      exists u', execute u (request_with token) = (Ret (PDict p), u')
                 /\ serves u' (Youtube.page_token p) rest u_end
  end.

(** The requests of such a run, and the token after it. *)
Fixpoint requests_for (token : pyval) (pages : list (list (string * pyval)))
    : list Youtube.request :=
  match pages with
  | [] => []
  | p :: rest => request_with token :: requests_for (Youtube.page_token p) rest
  end.

Fixpoint token_after (token : pyval) (pages : list (list (string * pyval))) : pyval :=
  match pages with
  | [] => token
  | p :: rest => token_after (Youtube.page_token p) rest
  end.
End Runs.

Arguments serves {U} _ _ _ _ _ _.

(** Every page carries a continuation token. *)
Definition all_continue (pages : list (list (string * pyval))) : Prop :=
  Forall (fun p => py_truthy (Youtube.page_token p) = true) pages.

(** Every page but the last carries a continuation token, and the last
    carries none. *)
Fixpoint last_is_final (pages : list (list (string * pyval))) : Prop :=
  match pages with
  | [] => False
  | [p] => py_truthy (Youtube.page_token p) = false
  | p :: rest => py_truthy (Youtube.page_token p) = true /\ last_is_final rest
  end.

(** The number of pages a loop asks for when the pages hold [counts] kept
    items each, the counter is at [collected] and the cap is [cap]: one
    page at a time while the counter is below the cap. *)
Fixpoint pages_requested (cap collected : Z) (counts : list nat) : nat :=
  match counts with
  | [] => O
  | k :: rest =>
      if collected <? cap then S (pages_requested cap (collected + Z.of_nat k) rest)
      else O
  end.

(** A request-level failure of the GDELT request: the call raised, the
    status is an error status, the body is blank, or the body does not
    decode. *)
Definition request_failed (answer : outcome Gdelt.response) : bool :=
  match answer with
  | Raise _ => true
  | OutOfFuel => false
  | Ret resp =>
      ((400 <=? Gdelt.status_code resp) && (Gdelt.status_code resp <? 600))
      || all_space (Gdelt.text resp)
      || match Gdelt.json resp with None => true | Some _ => false end
  end.

(** The comments among the results of the items of a page. *)
Definition kept (results : list Youtube.item_result) : list Youtube.comment :=
  flat_map (fun r => match r with Youtube.Kept c => [c] | Youtube.Skipped => [] end)
           results.

(** The results of the items of each page of comments. *)
Definition page_results (parse_isoformat : string -> outcome datetime) (v : Youtube.video)
    (start_date end_date : datetime) (pages : list (list (string * pyval)))
    (results : list (list Youtube.item_result)) : Prop :=
  Forall2 (fun p rs =>
             map_outcome (Youtube.comment_of_item parse_isoformat v start_date end_date)
                         (Youtube.page_items p) = Ret rs)
          pages results.

(** ** The requests of a run of the GDELT scraper *)

(** The query parameters that [fetch_gdelt_chunk] sends for a keyword and
    a window. *)
Definition window_params (keyword : string) (maxrecords : Z) (dr : time_range)
    : Gdelt.params :=
  Gdelt.mkparams (Gdelt.quoted keyword) "ArtList" maxrecords "json"
                 (to_gdelt_datetime (range_start dr)) (to_gdelt_datetime (range_end dr)).



(** A decoded value that is neither a container nor a string: [None], a
    boolean or a number. *)
Definition is_scalar (v : pyval) : bool :=
  match v with
  | PNone | PBool _ | PInt _ | PFloat _ => true
  | _ => false
  end.

Definition is_dict (v : pyval) : bool :=
  match v with PDict _ => true | _ => false end.

(** A decoded GDELT body that [fetch_gdelt_chunk] cannot read: [None], a
    boolean or a number, on which [in] raises [TypeError], or an object
    whose [articles] entry is one, on which [for] raises it. *)
Definition unreadable_body (data : pyval) : bool :=
  match data with
  | PDict body =>
      match assoc "articles" body with
      | Some articles => is_scalar articles
      | None => false
      end
  | _ => is_scalar data
  end.

(** A response of the YouTube client that the page loops cannot read,
    with what they raise on it: [AttributeError] when it is not an object
    and has no [get], [TypeError] when its [items] entry is [None], a
    boolean or a number and cannot be the subject of [for]. *)
Definition unreadable_page (response : pyval) : option exn :=
  match response with
  | PDict body =>
      match assoc "items" body with
      | Some items => if is_scalar items then Some TypeError else None
      | None => None
      end
  | _ => Some AttributeError
  end.

(** ** Writing the CSV file *)

Fixpoint drop_while {A : Type} (p : A -> bool) (l : list A) : list A :=
  match l with
  | [] => []
  | a :: l' => if p a then drop_while p l' else l
  end.

Definition is_slash (c : ascii) : bool := Ascii.eqb c "/".

(** [os.path.dirname] of [posixpath]: the path up to its last slash,
    without its trailing slashes unless it is made of slashes only.  The
    work is done on the reversed path, [rhead] being the reversed head. *)
Definition dirname (p : string) : string :=
  let rhead := drop_while (fun c => negb (is_slash c)) (rev (list_ascii_of_string p)) in
  if forallb is_slash rhead then string_of_list_ascii (rev rhead)
  else string_of_list_ascii (rev (drop_while is_slash rhead)).

(** An [OSError] with its [errno]; [FileNotFoundError] is the one with
    [ENOENT]. *)
Inductive os_error : Type :=
| OSError (errno : Z).

Definition ENOENT : Z := 2.

Section Files.
(** The file system, and the two calls that change it:
    [os.makedirs(name, exist_ok=True)] and [df.to_csv(path, ...)]. *)
Variable FS : Type.
Variable T : Type.
Variable makedirs : FS -> string -> FS + os_error.
Variable to_csv : FS -> string -> list T -> FS + os_error.

(** The end of [scrape_youtube_comments]: the directory of the output
    path is created, whatever it is, and the frame is written. *)
Definition save_comments (fs : FS) (output_path : string) (all_comments : list T)
    : FS + os_error :=
  match makedirs fs (dirname output_path) with
  | inl fs' => to_csv fs' output_path all_comments
  | inr e => inr e
  end.

(** The end of [scrape_gdelt]: the directory is created only [if
    directory], that is when its name is not empty. *)
Definition save_articles (fs : FS) (output_path : string) (df : list T)
    : FS + os_error :=
  let directory := dirname output_path in
  if String.eqb directory EmptyString then to_csv fs output_path df
  else
    match makedirs fs directory with
    | inl fs' => to_csv fs' output_path df
    | inr e => inr e
    end.
End Files.

Arguments save_comments {FS T} _ _ _ _ _.
Arguments save_articles {FS T} _ _ _ _ _.

(** ** A scripted upstream *)

(** A client that answers its requests with the entries of a script, in
    order, whatever is asked; when the script is used up the call fails. *)
Module Mock.

Local Open Scope string_scope.

Definition script : Type := list (outcome pyval).

Definition execute (u : script) (_ : Youtube.request) : outcome pyval * script :=
  match u with
  | [] => (Raise RequestException, [])
  | answer :: rest => (answer, rest)
  end.

(** A search result with its video id and title. *)
Definition search_item (id title : string) : pyval :=
  PDict [("id", PDict [("videoId", PStr id)]);
         ("snippet", PDict [("title", PStr title)])].

(** A comment thread: the entries of the item beside its snippet, and the
    entries of the nested snippet of its top-level comment. *)
Definition comment_thread (entries snippet : list (string * pyval)) : pyval :=
  PDict (entries
         ++ [("snippet", PDict [("topLevelComment", PDict [("snippet", PDict snippet)])])]).

(** A comment thread with its id, text, timestamp and likes count. *)
Definition comment_item (id text published_at : string) (likes : Z) : pyval :=
  comment_thread [("id", PStr id)]
                 [("textDisplay", PStr text); ("publishedAt", PStr published_at);
                  ("likeCount", PInt likes)].

(** An aware datetime in UTC. *)
Definition utc_datetime (y m d H M S : Z) : datetime :=
  mkdatetime y m d H M S 0 Youtube.utc.

(** A page with a continuation token, and a last page. *)
Definition page (items : list pyval) (token : string) : list (string * pyval) :=
  [("items", PList items); ("nextPageToken", PStr token)].

Definition last_page (items : list pyval) : list (string * pyval) :=
  [("items", PList items)].

(** An article row and a video with the fields that matter to the
    deduplications; the other fields are empty. *)
Definition article (url keyword title : string) : Gdelt.article :=
  Gdelt.mkarticle (PStr url) (PStr title) (PStr "") (PStr "") (PStr "") (PStr "")
                  PNone keyword "gdelt".

Definition row (url keyword title : string) : Gdelt.row :=
  Gdelt.mkrow (article url keyword title) None.

Definition video (id keyword : string) : Youtube.video :=
  Youtube.mkvideo (PStr id) (PStr "") (PStr "") (PStr "") keyword.

(** Codes that tell any two different cells apart. *)
Definition cell_code (v : pyval) : pyval := v.

Definition deduplicate : list Gdelt.row -> outcome (list Gdelt.row) :=
  Gdelt.deduplicate pyval_eq_dec cell_code.

(** The response to a request that succeeded: its text, and what the text
    decodes to. *)
Definition ok (text : string) (data : pyval) : Gdelt.response :=
  Gdelt.mkresponse 200 text (Some data).

(** A body with two articles that have no field, and what it decodes to. *)
Definition two_articles_text : string :=
  "{" ++ Gdelt.quoted "articles" ++ ": [{}, {}]}".

Definition two_articles : pyval :=
  PDict [("articles", PList [PDict []; PDict []])].

(** A file system that only remembers the directories it was asked to
    make and the files it was asked to write: making the directory with
    the empty name fails, as it does on every file system. *)
Definition makedirs (fs : list string) (name : string) : list string + os_error :=
  if String.eqb name EmptyString then inr (OSError ENOENT) else inl (name :: fs).

Definition to_csv {T : Type} (fs : list string) (path : string) (_ : list T)
    : list string + os_error :=
  inl (path :: fs).

(** A body whose [articles] entry is [null], and what it decodes to. *)
Definition null_articles_text : string :=
  "{" ++ Gdelt.quoted "articles" ++ ": null}".

Definition null_articles : pyval := PDict [("articles", PNone)].

(** A GDELT service without state that gives every request the same
    answer. *)
Definition always (answer : outcome Gdelt.response) (u : unit) (_ : Gdelt.params)
    : outcome Gdelt.response * unit :=
  (answer, u).

End Mock.


(** * Properties *)

(** ** Dates and the monthly windows *)

Ltac zdiv := Z.to_euclidean_division_equations; lia.

Lemma digit_char_spec (d : Z) :
  0 <= d <= 9 -> is_digit (digit_char d) = true /\ digit_val (digit_char d) = d.
Proof.
  intros H.
  assert (E : d = 0 \/ d = 1 \/ d = 2 \/ d = 3 \/ d = 4 \/ d = 5 \/ d = 6 \/ d = 7
              \/ d = 8 \/ d = 9) by lia.
  repeat (destruct E as [-> | E]); try subst d; split; reflexivity.
Qed.

Lemma take_digits2_pad2_mod (n : Z) (rest : string) :
  0 <= n ->
  take_digits2 (String (digit_char (n / 10 mod 10)) (String (digit_char (n mod 10)) rest))
  = Some (n mod 100, rest).
Proof.
  intros H. unfold take_digits2.
  destruct (digit_char_spec (n / 10 mod 10) ltac:(zdiv)) as [D1 V1].
  destruct (digit_char_spec (n mod 10) ltac:(zdiv)) as [D2 V2].
  rewrite D1, D2, V1, V2. cbn [andb]. do 2 f_equal. zdiv.
Qed.

Lemma take_digits2_pad2 (n : Z) (rest : string) :
  0 <= n <= 99 ->
  take_digits2 (String (digit_char (n / 10 mod 10)) (String (digit_char (n mod 10)) rest))
  = Some (n, rest).
Proof.
  intros H. rewrite take_digits2_pad2_mod by lia. do 2 f_equal. zdiv.
Qed.

Lemma take_digits4_pad4 (n : Z) (rest : string) :
  0 <= n <= 9999 ->
  take_digits4 (pad4 n ++ rest) = Some (n, rest).
Proof.
  intros H. unfold take_digits4, pad4, pad2. cbn [append].
  destruct (digit_char_spec (n / 1000 mod 10) ltac:(zdiv)) as [D1 V1].
  destruct (digit_char_spec (n / 100 mod 10) ltac:(zdiv)) as [D2 V2].
  unfold take_digits2 at 1. rewrite D1, D2, V1, V2. cbn [andb].
  rewrite take_digits2_pad2_mod by lia. do 2 f_equal. zdiv.
Qed.

Lemma days_in_month_bounds (y m : Z) : 28 <= days_in_month y m <= 31.
Proof.
  unfold days_in_month.
  destruct m as [|p|p]; try lia.
  repeat (destruct p as [p|p|]; try lia); destruct (is_leap y); lia.
Qed.

Lemma check_date_fields_spec (y m d : Z) :
  check_date_fields y m d = true <->
  1 <= y <= 9999 /\ 1 <= m <= 12 /\ 1 <= d <= days_in_month y m.
Proof.
  unfold check_date_fields, MINYEAR, MAXYEAR.
  rewrite !andb_true_iff, !Z.leb_le. lia.
Qed.

Lemma fromisoformat_isoformat_date (y m d : Z) :
  check_date_fields y m d = true ->
  fromisoformat (isoformat_date y m d) = Ret (naive y m d 0 0 0).
Proof.
  intros V. pose proof V as V'. apply check_date_fields_spec in V'.
  pose proof (days_in_month_bounds y m).
  unfold fromisoformat, isoformat_date.
  rewrite take_digits4_pad4 by lia. cbn [obind].
  unfold pad2. cbn [append expect Ascii.eqb Bool.eqb obind].
  rewrite take_digits2_pad2 by lia. cbn [obind expect Ascii.eqb Bool.eqb].
  rewrite take_digits2_pad2 by lia. cbn [obind].
  unfold datetime_new. rewrite V. reflexivity.
Qed.

Lemma check_time_fields_spec (H M S us : Z) :
  check_time_fields H M S us = true <->
  0 <= H <= 23 /\ 0 <= M <= 59 /\ 0 <= S <= 59 /\ 0 <= us <= 999999.
Proof.
  unfold check_time_fields. rewrite !andb_true_iff, !Z.leb_le. lia.
Qed.

Lemma datetime_new_ok (y m d H M S us : Z) (tz : option Z) :
  1 <= y <= 9999 -> 1 <= m <= 12 -> 1 <= d <= days_in_month y m ->
  0 <= H <= 23 -> 0 <= M <= 59 -> 0 <= S <= 59 -> 0 <= us <= 999999 ->
  datetime_new y m d H M S us tz = Ret (mkdatetime y m d H M S us tz).
Proof.
  intros. unfold datetime_new.
  rewrite (proj2 (check_date_fields_spec y m d)) by lia.
  rewrite (proj2 (check_time_fields_spec H M S us)) by lia.
  reflexivity.
Qed.

Ltac cmp_cases :=
  repeat match goal with
         | |- context [?a ?= ?b] => destruct (Z.compare_spec a b); try lia
         end.

Lemma lex3_compare (a1 a2 a3 b1 b2 b3 : Z) (ta tb : list Z) :
  lex_compare (a1 :: a2 :: a3 :: ta) (b1 :: b2 :: b3 :: tb) =
  match a1 ?= b1 with
  | Eq => match a2 ?= b2 with
          | Eq => match a3 ?= b3 with Eq => lex_compare ta tb | c => c end
          | c => c
          end
  | c => c
  end.
Proof. reflexivity. Qed.

Lemma dt_le_month_start (y m ye me de : Z) :
  1 <= m <= 12 -> 1 <= me <= 12 -> 1 <= de ->
  dt_le (naive y m 1 0 0 0) (naive ye me de 0 0 0)
  = Ret (12 * y + m <=? 12 * ye + me).
Proof.
  intros. unfold dt_le, dt_cmp, naive, fields. cbn [tzinfo year month day hour minute second microsecond bind].
  rewrite lex3_compare. cbn [lex_compare].
  destruct (Z.leb_spec (12 * y + m) (12 * ye + me)); cmp_cases; reflexivity.
Qed.

Lemma sub_one_second_month_start (y m : Z) :
  1 < m ->
  sub_one_second (naive y m 1 0 0 0)
  = Ret (naive y (m - 1) (days_in_month y (m - 1)) 23 59 59).
Proof.
  intros. unfold sub_one_second, naive.
  cbn [year month day hour minute second microsecond tzinfo].
  rewrite !Z.ltb_irrefl. destruct (Z.ltb_spec 1 m); [reflexivity | lia].
Qed.

Lemma sub_one_second_year_start (y : Z) :
  1 < y ->
  sub_one_second (naive y 1 1 0 0 0) = Ret (naive (y - 1) 12 31 23 59 59).
Proof.
  intros. unfold sub_one_second, naive, MINYEAR.
  cbn [year month day hour minute second microsecond tzinfo].
  rewrite !Z.ltb_irrefl. destruct (Z.ltb_spec 1 y); [reflexivity | lia].
Qed.

Lemma dt_min_month_end (y m d ye me de : Z) :
  dt_min (naive y m d 23 59 59) (naive ye me de 23 59 59)
  = Ret (match lex_compare [ye; me; de] [y; m; d] with
         | Lt => naive ye me de 23 59 59
         | _ => naive y m d 23 59 59
         end).
Proof.
  unfold dt_min, dt_lt, dt_cmp, naive, fields.
  cbn [year month day hour minute second microsecond tzinfo bind].
  rewrite !lex3_compare. cbn [lex_compare].
  rewrite !Z.compare_refl.
  destruct (ye ?= y), (me ?= m), (de ?= d); reflexivity.
Qed.

Ltac rewrite_naive L :=
  let E := fresh "E" in
  pose proof L as E; unfold naive in E; rewrite E; clear E.

Lemma monthly_loop_step (ye me de : Z) (fuel : nat) (y m : Z) (acc : list time_range) :
  check_date_fields ye me de = true ->
  1 <= y <= 9999 -> 1 <= m <= 12 ->
  12 * y + m <= 12 * ye + me ->
  12 * y + m < 12 * 9999 + 12 ->
  monthly_loop (S fuel) (naive y m 1 0 0 0) (naive ye me de 0 0 0) acc
  = monthly_loop fuel (naive (fst (next_ym (y, m))) (snd (next_ym (y, m))) 1 0 0 0)
                 (naive ye me de 0 0 0) (acc ++ [month_chunk ye me de (y, m)]).
Proof.
  intros Ve Hy Hm Hle Hmax. apply check_date_fields_spec in Ve.
  pose proof (days_in_month_bounds y m) as Bm.
  pose proof (days_in_month_bounds ye me) as Be.
  cbn [monthly_loop]. rewrite dt_le_month_start by lia.
  destruct (Z.leb_spec (12 * y + m) (12 * ye + me)); [|lia]. cbn [bind].
  unfold replace, dflt, naive.
  cbn [year month day hour minute second microsecond tzinfo next_ym fst snd].
  destruct (Z.eqb_spec m 12) as [->|Hm12].
  - pose proof (days_in_month_bounds (y + 1) 1).
    rewrite (datetime_new_ok (y + 1) 1 1) by lia. cbn [bind fst snd].
    rewrite_naive (sub_one_second_year_start (y + 1) ltac:(lia)). cbn [bind].
    rewrite (datetime_new_ok ye me de 23 59 59) by lia. cbn [bind].
    rewrite (datetime_new_ok y 12 1 0 0 0) by lia.
    rewrite_naive (dt_min_month_end (y + 1 - 1) 12 31 ye me de). cbn [bind].
    rewrite lex3_compare. cbn [lex_compare].
    replace (y + 1 - 1) with y by lia.
    unfold month_chunk, naive. cbn [days_in_month].
    do 3 f_equal.
    destruct (Z.eqb_spec y ye), (Z.eqb_spec 12 me); cbn [andb]; subst;
      cmp_cases; try reflexivity.
    replace de with 31 by (cbn in Be; lia). reflexivity.
  - pose proof (days_in_month_bounds y (m + 1)).
    rewrite (datetime_new_ok y (m + 1) 1) by lia. cbn [bind fst snd].
    rewrite_naive (sub_one_second_month_start y (m + 1) ltac:(lia)). cbn [bind].
    rewrite (datetime_new_ok ye me de 23 59 59) by lia. cbn [bind].
    rewrite (datetime_new_ok y m 1 0 0 0) by lia.
    rewrite_naive (dt_min_month_end y (m + 1 - 1) (days_in_month y (m + 1 - 1)) ye me de).
    cbn [bind].
    rewrite lex3_compare. cbn [lex_compare].
    replace (m + 1 - 1) with m by lia.
    unfold month_chunk, naive.
    do 3 f_equal.
    destruct (Z.eqb_spec y ye), (Z.eqb_spec m me); cbn [andb]; subst;
      cmp_cases; try reflexivity.
    replace de with (days_in_month ye me) by lia. reflexivity.
Qed.

Lemma next_ym_range (y m : Z) :
  1 <= m <= 12 -> 1 <= snd (next_ym (y, m)) <= 12
  /\ 12 * fst (next_ym (y, m)) + snd (next_ym (y, m)) = 12 * y + m + 1.
Proof.
  intros. cbn [next_ym]. destruct (Z.eqb_spec m 12); cbn [fst snd]; lia.
Qed.

Lemma monthly_loop_spec (ye me de : Z) :
  check_date_fields ye me de = true ->
  12 * ye + me < 12 * 9999 + 12 ->
  forall (n fuel : nat) (y m : Z) (acc : list time_range),
    1 <= y <= 9999 -> 1 <= m <= 12 ->
    n = months_touched y m ye me ->
    (n < fuel)%nat ->
    monthly_loop fuel (naive y m 1 0 0 0) (naive ye me de 0 0 0) acc
    = Ret (acc ++ map (month_chunk ye me de) (months_from n (y, m))).
Proof.
  intros Ve Hmax. pose proof Ve as Ve'. apply check_date_fields_spec in Ve'.
  unfold months_touched.
  induction n as [|n IH]; intros fuel y m acc Hy Hm Hn Hf.
  - destruct fuel as [|fuel]; [lia|].
    cbn [monthly_loop]. rewrite dt_le_month_start by lia.
    destruct (Z.leb_spec (12 * y + m) (12 * ye + me)); [lia|].
    cbn [bind months_from map]. now rewrite app_nil_r.
  - destruct fuel as [|fuel]; [lia|].
    rewrite monthly_loop_step by (auto; lia).
    destruct (next_ym_range y m Hm) as [Hm' Hidx].
    rewrite IH; try lia.
    cbn [months_from map]. rewrite <- app_assoc. cbn [app].
    now rewrite <- surjective_pairing.
Qed.

Lemma monthly_loop_overflow (de : Z) :
  check_date_fields 9999 12 de = true ->
  forall (n fuel : nat) (y m : Z) (acc : list time_range),
    1 <= y <= 9999 -> 1 <= m <= 12 ->
    Z.of_nat n = 12 * (9999 - y) + (12 - m) ->
    (n < fuel)%nat ->
    monthly_loop fuel (naive y m 1 0 0 0) (naive 9999 12 de 0 0 0) acc
    = Raise ValueError.
Proof.
  intros Ve. pose proof Ve as Ve'. apply check_date_fields_spec in Ve'.
  induction n as [|n IH]; intros fuel y m acc Hy Hm Hn Hf.
  - destruct fuel as [|fuel]; [lia|].
    assert (y = 9999) by lia. assert (m = 12) by lia. subst y m.
    cbn [monthly_loop]. rewrite dt_le_month_start by lia.
    reflexivity.
  - destruct fuel as [|fuel]; [lia|].
    rewrite monthly_loop_step by (auto; lia).
    destruct (next_ym_range y m Hm) as [Hm' Hidx].
    apply IH; lia.
Qed.

(** What [generate_monthly_ranges] computes on two calendar dates. *)
Theorem generate_monthly_ranges_spec (ys ms ds ye me de : Z) :
  check_date_fields ys ms ds = true ->
  check_date_fields ye me de = true ->
  generate_monthly_ranges (isoformat_date ys ms ds) (isoformat_date ye me de)
  = if (12 * ys + ms <=? 12 * ye + me) && (12 * ye + me =? 12 * 9999 + 12)
    then Raise ValueError
    else Ret (map (month_chunk ye me de)
                  (months_from (months_touched ys ms ye me) (ys, ms))).
Proof.
  intros Vs Ve. unfold generate_monthly_ranges.
  rewrite !fromisoformat_isoformat_date by assumption. cbn [bind].
  pose proof Vs as Vs'. apply check_date_fields_spec in Vs'.
  pose proof Ve as Ve'. apply check_date_fields_spec in Ve'.
  pose proof (days_in_month_bounds ys ms).
  unfold replace, dflt, naive.
  cbn [year month day hour minute second microsecond tzinfo].
  rewrite (datetime_new_ok ys ms 1 0 0 0) by lia. cbn [bind].
  unfold monthly_fuel. cbn [year month].
  fold (months_touched ys ms ye me).
  destruct (Z.leb_spec (12 * ys + ms) (12 * ye + me)) as [Hle|Hgt];
    destruct (Z.eqb_spec (12 * ye + me) (12 * 9999 + 12)) as [Hmax|Hmax]; cbn [andb].
  - assert (ye = 9999) by lia. assert (me = 12) by lia. subst ye me.
    apply (monthly_loop_overflow de Ve (Z.to_nat (12 * (9999 - ys) + (12 - ms))));
      unfold months_touched; lia.
  - apply (monthly_loop_spec ye me de Ve ltac:(lia) _ _ ys ms []); try lia.
  - assert (E : months_touched ys ms ye me = 0%nat) by (unfold months_touched; lia).
    rewrite E. cbn [monthly_loop]. fold (naive ys ms 1 0 0 0) (naive ye me de 0 0 0).
    rewrite dt_le_month_start by lia.
    destruct (Z.leb_spec (12 * ys + ms) (12 * ye + me)); [lia|]. reflexivity.
  - apply (monthly_loop_spec ye me de Ve ltac:(lia) _ _ ys ms []); try lia.
Qed.

Lemma dt_cmp_naive_dates (y1 m1 d1 y2 m2 d2 : Z) :
  dt_cmp (naive y1 m1 d1 0 0 0) (naive y2 m2 d2 0 0 0)
  = Ret (lex_compare [y1; m1; d1] [y2; m2; d2]).
Proof.
  unfold dt_cmp, naive, fields.
  cbn [year month day hour minute second microsecond tzinfo].
  rewrite !lex3_compare. cbn [lex_compare].
  destruct (y1 ?= y2), (m1 ?= m2), (d1 ?= d2); reflexivity.
Qed.

(** C1: on the input of the specification's example the first window starts on
    2022-01-01, two weeks before [start_date], because the day of
    [start_date] is replaced by 1 and never restored. *)
Theorem generate_monthly_ranges_example :
  generate_monthly_ranges "2022-01-15" "2022-03-10"
  = Ret [ mkrange (naive 2022 1 1 0 0 0) (naive 2022 1 31 23 59 59);
          mkrange (naive 2022 2 1 0 0 0) (naive 2022 2 28 23 59 59);
          mkrange (naive 2022 3 1 0 0 0) (naive 2022 3 10 23 59 59) ].
Proof. vm_compute. reflexivity. Qed.

(** C10, as amended: the day of [start_date] is not used; a first window, when
    there is one, starts at 00:00:00 on the first day of the month of
    [start_date]; and when [start_date] is after [end_date] while the
    first day of its month is not, and [end_date] is not in December 9999,
    the result is the single window from that first day to [end_date]
    23:59:59. *)
Theorem generate_monthly_ranges_start_day_unused (ys ms ds ye me de : Z) :
  check_date_fields ys ms ds = true ->
  check_date_fields ye me de = true ->
  (forall ds', check_date_fields ys ms ds' = true ->
     generate_monthly_ranges (isoformat_date ys ms ds') (isoformat_date ye me de)
     = generate_monthly_ranges (isoformat_date ys ms ds) (isoformat_date ye me de))
  /\ (forall c rest,
        generate_monthly_ranges (isoformat_date ys ms ds) (isoformat_date ye me de)
        = Ret (c :: rest) ->
        range_start c = naive ys ms 1 0 0 0)
  /\ (dt_lt (naive ye me de 0 0 0) (naive ys ms ds 0 0 0) = Ret true ->
      dt_le (naive ys ms 1 0 0 0) (naive ye me de 0 0 0) = Ret true ->
      (ye, me) <> (9999, 12) ->
      generate_monthly_ranges (isoformat_date ys ms ds) (isoformat_date ye me de)
      = Ret [mkrange (naive ys ms 1 0 0 0) (naive ye me de 23 59 59)]).
Proof.
  intros Vs Ve. split; [|split].
  - intros ds' Vs'. now rewrite !generate_monthly_ranges_spec.
  - intros c rest. rewrite generate_monthly_ranges_spec by assumption.
    destruct ((12 * ys + ms <=? 12 * ye + me) && (12 * ye + me =? 12 * 9999 + 12));
      [discriminate|].
    destruct (months_touched ys ms ye me); cbn [months_from map month_chunk];
      intros E; inversion E. reflexivity.
  - intros Hlt Hle Hdec.
    apply check_date_fields_spec in Vs as Vs'. apply check_date_fields_spec in Ve as Ve'.
    unfold dt_lt, dt_le in Hlt, Hle. rewrite dt_cmp_naive_dates in Hlt, Hle.
    cbn [bind lex_compare] in Hlt, Hle.
    assert (ye = ys /\ me = ms) as [-> ->].
    { destruct (Z.compare_spec ye ys), (Z.compare_spec me ms),
        (Z.compare_spec ys ye), (Z.compare_spec ms me); try lia; try discriminate. }
    rewrite generate_monthly_ranges_spec by assumption.
    destruct (Z.eqb_spec (12 * ys + ms) (12 * 9999 + 12)) as [Hmax|Hmax].
    + exfalso. apply Hdec. f_equal; lia.
    + rewrite andb_false_r.
      replace (months_touched ys ms ys ms) with 1%nat by (unfold months_touched; lia).
      cbn [months_from map month_chunk]. now rewrite !Z.eqb_refl.
Qed.

Lemma generate_monthly_ranges_start_day_unused_witness :
  generate_monthly_ranges "2022-01-15" "2022-01-10"
  = Ret [mkrange (naive 2022 1 1 0 0 0) (naive 2022 1 10 23 59 59)].
Proof.
  refine (proj2 (proj2 (generate_monthly_ranges_start_day_unused
                          2022 1 15 2022 1 10 eq_refl eq_refl)) eq_refl eq_refl _).
  discriminate.
Defined.

(** C10, as stated, fails when [end_date] is in December 9999: the month
    after it does not exist, and computing it raises [ValueError]. *)
Lemma generate_monthly_ranges_december_9999 :
  dt_lt (naive 9999 12 10 0 0 0) (naive 9999 12 15 0 0 0) = Ret true
  /\ dt_le (naive 9999 12 1 0 0 0) (naive 9999 12 10 0 0 0) = Ret true
  /\ generate_monthly_ranges "9999-12-15" "9999-12-10" = Raise ValueError.
Proof. repeat split; vm_compute; reflexivity. Qed.


(** *** The shape of the windows *)

Lemma months_from_length (n : nat) (ym : Z * Z) : List.length (months_from n ym) = n.
Proof. revert ym. induction n as [|n IH]; intros ym; cbn [months_from List.length]; auto. Qed.

Lemma months_from_last (n : nat) :
  forall y m d0,
    1 <= m <= 12 ->
    let ym := last (months_from (S n) (y, m)) d0 in
    1 <= snd ym <= 12 /\ 12 * fst ym + snd ym = 12 * y + m + Z.of_nat n.
Proof.
  induction n as [|n IH]; intros y m d0 Hm; cbn zeta.
  - cbn [months_from last fst snd]. lia.
  - change (months_from (S (S n)) (y, m))
      with ((y, m) :: months_from (S n) (next_ym (y, m))).
    change (last ((y, m) :: months_from (S n) (next_ym (y, m))) d0)
      with (last (months_from (S n) (next_ym (y, m))) d0).
    destruct (next_ym_range y m Hm) as [Hm' Hidx].
    rewrite (surjective_pairing (next_ym (y, m))).
    destruct (IH (fst (next_ym (y, m))) (snd (next_ym (y, m))) d0 Hm') as [H1 H2].
    cbn zeta in H1, H2. lia.
Qed.

Lemma month_chunk_contiguous (ye me de : Z) (n : nat) :
  forall y m,
    1 <= y -> 1 <= m <= 12 ->
    12 * y + m + Z.of_nat n - 1 <= 12 * ye + me ->
    contiguous (map (month_chunk ye me de) (months_from n (y, m))).
Proof.
  induction n as [|n IH]; intros y m Hy Hm Hle; [exact I|].
  destruct n as [|n]; [exact I|].
  change (months_from (S (S n)) (y, m))
    with ((y, m) :: months_from (S n) (next_ym (y, m))).
  destruct (next_ym_range y m Hm) as [Hm' Hidx].
  specialize (IH (fst (next_ym (y, m))) (snd (next_ym (y, m)))).
  rewrite <- surjective_pairing in IH.
  cbn [map]. change (months_from (S n) (next_ym (y, m)))
    with (next_ym (y, m) :: months_from n (next_ym (next_ym (y, m)))) in *.
  cbn [map contiguous]. split.
  - unfold month_chunk at 1 2. cbn [next_ym].
    assert (Hne : (y =? ye) && (m =? me) = false).
    { destruct (Z.eqb_spec y ye), (Z.eqb_spec m me); cbn [andb]; try reflexivity. lia. }
    rewrite Hne. destruct (Z.eqb_spec m 12) as [->|Hm12]; cbn [range_start range_end].
    + rewrite sub_one_second_year_start by lia.
      replace (y + 1 - 1) with y by lia. reflexivity.
    + rewrite sub_one_second_month_start by lia.
      replace (m + 1 - 1) with m by lia. reflexivity.
  - apply IH; lia.
Qed.

Lemma last_map {A B : Type} (f : A -> B) (l : list A) (d : A) :
  last (map f l) (f d) = f (last l d).
Proof.
  induction l as [|a [|b l] IH]; [reflexivity | reflexivity |].
  change (last (map f (a :: b :: l)) (f d)) with (last (map f (b :: l)) (f d)).
  now rewrite IH.
Qed.

(** X1: the part of the contract of the windows that holds.  When the
    month of [start_date] is not after the month of [end_date] (and
    [end_date] is before December 9999), there is one window per calendar
    month touched, each window ends one second before the next starts, the
    first starts on the first day of the month of [start_date] at 00:00:00,
    and the last ends on [end_date] at 23:59:59. *)
Theorem generate_monthly_ranges_shape (ys ms ds ye me de : Z) :
  check_date_fields ys ms ds = true ->
  check_date_fields ye me de = true ->
  12 * ys + ms <= 12 * ye + me ->
  12 * ye + me < 12 * 9999 + 12 ->
  exists first rest,
    generate_monthly_ranges (isoformat_date ys ms ds) (isoformat_date ye me de)
    = Ret (first :: rest)
    /\ List.length (first :: rest) = months_touched ys ms ye me
    /\ contiguous (first :: rest)
    /\ range_start first = naive ys ms 1 0 0 0
    /\ range_end (last (first :: rest) first) = naive ye me de 23 59 59.
Proof.
  intros Vs Ve Hle Hmax. rewrite generate_monthly_ranges_spec by assumption.
  apply check_date_fields_spec in Vs as Vs'. apply check_date_fields_spec in Ve as Ve'.
  destruct (Z.eqb_spec (12 * ye + me) (12 * 9999 + 12)) as [Hdec|Hdec]; [lia|].
  rewrite andb_false_r.
  destruct (months_touched ys ms ye me) as [|k] eqn:En;
    [unfold months_touched in En; lia|].
  change (months_from (S k) (ys, ms)) with ((ys, ms) :: months_from k (next_ym (ys, ms))).
  cbn [map]. eexists _, _. split; [reflexivity|].
  change (month_chunk ye me de (ys, ms)
          :: map (month_chunk ye me de) (months_from k (next_ym (ys, ms))))
    with (map (month_chunk ye me de) (months_from (S k) (ys, ms))).
  split; [now rewrite length_map, months_from_length|].
  split; [apply month_chunk_contiguous; unfold months_touched in En; lia|].
  split; [reflexivity|].
  rewrite last_map.
  destruct (months_from_last k ys ms (ys, ms) ltac:(lia)) as [H1 H2]. cbn zeta in H1, H2.
  destruct (last (months_from (S k) (ys, ms)) (ys, ms)) as [y' m'].
  cbn [fst snd] in H1, H2. unfold months_touched in En.
  assert (y' = ye /\ m' = me) as [-> ->] by lia.
  unfold month_chunk. now rewrite !Z.eqb_refl.
Qed.

Lemma generate_monthly_ranges_shape_witness :
  exists first rest,
    generate_monthly_ranges "2022-01-15" "2022-03-10" = Ret (first :: rest)
    /\ List.length (first :: rest) = 3%nat
    /\ contiguous (first :: rest)
    /\ range_start first = naive 2022 1 1 0 0 0
    /\ range_end (last (first :: rest) first) = naive 2022 3 10 23 59 59.
Proof.
  refine (generate_monthly_ranges_shape 2022 1 15 2022 3 10 eq_refl eq_refl _ _); lia.
Defined.


(** ** Deduplication *)

Section DedupFacts.
Context {R K : Type}.
Variable key : R -> K.
Variable key_eq_dec : forall a b : K, {a = b} + {a <> b}.

Local Abbreviation dd_from := (drop_duplicates_from key key_eq_dec).
Local Abbreviation dd := (drop_duplicates key key_eq_dec).

Lemma drop_duplicates_from_keys (rows : list R) :
  forall seen k,
    In k (map key (dd_from seen rows)) <-> In k (map key rows) /\ ~ In k seen.
Proof.
  induction rows as [|r rest IH]; intros seen k; cbn [drop_duplicates_from map In].
  - tauto.
  - destruct (in_dec key_eq_dec (key r) seen) as [Hin|Hnin].
    + rewrite IH. split.
      * intros [H1 H2]. auto.
      * intros [[E|H1] H2]; [subst k; contradiction | auto].
    + cbn [map In]. rewrite IH. cbn [In].
      destruct (key_eq_dec (key r) k) as [E|NE].
      * subst k. tauto.
      * tauto.
Qed.

Lemma drop_duplicates_from_NoDup (rows : list R) :
  forall seen, NoDup (map key (dd_from seen rows)).
Proof.
  induction rows as [|r rest IH]; intros seen; cbn [drop_duplicates_from map].
  - constructor.
  - destruct (in_dec key_eq_dec (key r) seen); [apply IH|].
    cbn [map]. constructor; [|apply IH].
    rewrite drop_duplicates_from_keys. cbn [In]. tauto.
Qed.

Lemma drop_duplicates_from_first (rows : list R) :
  forall seen r,
    In r (dd_from seen rows) ->
    exists l1 l2, rows = l1 ++ r :: l2 /\ ~ In (key r) (map key l1)
                  /\ ~ In (key r) seen.
Proof.
  induction rows as [|x rest IH]; intros seen r; cbn [drop_duplicates_from].
  - intros [].
  - destruct (in_dec key_eq_dec (key x) seen) as [Hin|Hnin].
    + intros H. destruct (IH _ _ H) as (l1 & l2 & -> & H1 & H2).
      exists (x :: l1), l2. repeat split; auto.
      cbn [map In]. intros [E|H3]; [|auto]. rewrite E in Hin. contradiction.
    + intros [->|H].
      * exists [], rest. repeat split; auto.
      * destruct (IH _ _ H) as (l1 & l2 & -> & H1 & H2).
        exists (x :: l1), l2. repeat split.
        -- cbn [map In]. intros [E|H3]; [|auto]. apply H2. left. exact E.
        -- intros H3. apply H2. right. exact H3.
Qed.

Lemma drop_duplicates_from_fixed (rows : list R) :
  forall seen,
    NoDup (map key rows) ->
    (forall r, In r rows -> ~ In (key r) seen) ->
    dd_from seen rows = rows.
Proof.
  induction rows as [|x rest IH]; intros seen ND Hs; cbn [drop_duplicates_from].
  - reflexivity.
  - cbn [map] in ND. inversion ND as [|? ? Hx ND']; subst.
    destruct (in_dec key_eq_dec (key x) seen) as [Hin|Hnin].
    + exfalso. apply (Hs x); [left; reflexivity | exact Hin].
    + f_equal. apply IH; [assumption|].
      intros r Hr [E|H]; [|apply (Hs r); [right; assumption | assumption]].
      apply Hx. rewrite E. now apply in_map.
Qed.

(** The four facts about [drop_duplicates]. *)
Lemma drop_duplicates_NoDup (rows : list R) : NoDup (map key (dd rows)).
Proof. apply drop_duplicates_from_NoDup. Qed.

Lemma drop_duplicates_first (rows : list R) (r : R) :
  In r (dd rows) -> first_with_key key rows r.
Proof.
  intros H. destruct (drop_duplicates_from_first _ _ _ H) as (l1 & l2 & E & H1 & _).
  now exists l1, l2.
Qed.

Lemma drop_duplicates_from_keeps (l1 l2 : list R) (r : R) :
  forall seen,
    ~ In (key r) seen -> ~ In (key r) (map key l1) ->
    In r (dd_from seen (l1 ++ r :: l2)).
Proof.
  induction l1 as [|x l1 IH]; intros seen Hs Hl; cbn [app drop_duplicates_from].
  - destruct (in_dec key_eq_dec (key r) seen); [contradiction | now left].
  - cbn [map In] in Hl.
    destruct (in_dec key_eq_dec (key x) seen).
    + apply IH; tauto.
    + right. apply IH; [|tauto]. cbn [In]. intros [E|H]; [|auto]. apply Hl. now left.
Qed.

Lemma drop_duplicates_keeps_first (rows : list R) (r : R) :
  first_with_key key rows r -> In r (dd rows).
Proof.
  intros (l1 & l2 & -> & H). apply drop_duplicates_from_keeps; auto.
Qed.

Lemma drop_duplicates_keys (rows : list R) (k : K) :
  In k (map key (dd rows)) <-> In k (map key rows).
Proof. unfold drop_duplicates. rewrite drop_duplicates_from_keys. cbn [In]. tauto. Qed.

Lemma drop_duplicates_fixed (rows : list R) :
  NoDup (map key rows) -> dd rows = rows.
Proof. intros ND. apply drop_duplicates_from_fixed; auto. Qed.

Lemma drop_duplicates_idempotent (rows : list R) : dd (dd rows) = dd rows.
Proof. apply drop_duplicates_fixed, drop_duplicates_NoDup. Qed.

(** The insertion-ordered dict. *)
Local Abbreviation setitem := (dict_setitem key_eq_dec).
Local Abbreviation compr := (dict_comprehension_from key key_eq_dec).

Lemma dict_setitem_fresh (d : list (K * R)) (k : K) (v : R) :
  ~ In k (map fst d) -> setitem d k v = d ++ [(k, v)].
Proof.
  induction d as [|[k' v'] d IH]; cbn [dict_setitem map fst In app]; intros H.
  - reflexivity.
  - destruct (key_eq_dec k k') as [E|NE]; [exfalso; auto|].
    f_equal. apply IH. tauto.
Qed.

Lemma dict_setitem_keys (d : list (K * R)) (k : K) (v : R) :
  In k (map fst d) -> map fst (setitem d k v) = map fst d.
Proof.
  induction d as [|[k' v'] d IH]; cbn [dict_setitem map fst In]; intros H.
  - contradiction.
  - destruct (key_eq_dec k k') as [E|NE]; [reflexivity|].
    cbn [map fst]. f_equal. apply IH. destruct H as [H|H]; [congruence | exact H].
Qed.

Lemma dict_setitem_keys_incl (d : list (K * R)) (k k0 : K) (v : R) :
  In k0 (map fst (setitem d k v)) <-> k0 = k \/ In k0 (map fst d).
Proof.
  destruct (in_dec key_eq_dec k (map fst d)) as [Hin|Hnin].
  - rewrite dict_setitem_keys by assumption. split; [tauto|].
    intros [->|H]; assumption.
  - rewrite dict_setitem_fresh by assumption.
    rewrite map_app, in_app_iff. cbn [map fst In]. split.
    + intros [H|[H|[]]]; auto.
    + intros [->|H]; auto.
Qed.

Lemma dict_setitem_NoDup (d : list (K * R)) (k : K) (v : R) :
  NoDup (map fst d) -> NoDup (map fst (setitem d k v)).
Proof.
  intros ND. destruct (in_dec key_eq_dec k (map fst d)) as [Hin|Hnin].
  - now rewrite dict_setitem_keys.
  - rewrite dict_setitem_fresh by assumption. rewrite map_app. cbn [map fst].
    apply NoDup_app; [assumption | repeat constructor; intros [] |].
    intros a Ha [<-|[]]. contradiction.
Qed.

Lemma dict_setitem_In (d : list (K * R)) (k : K) (v : R) (e : K * R) :
  NoDup (map fst d) ->
  In e (setitem d k v) -> e = (k, v) \/ (In e d /\ fst e <> k).
Proof.
  induction d as [|[k' v'] d IH]; cbn [dict_setitem map fst]; intros ND.
  - intros [<-|[]]. now left.
  - inversion ND as [|? ? Hk' ND']; subst.
    destruct (key_eq_dec k k') as [E|NE].
    + subst k'. intros [<-|H]; [now left|]. right. split; [now right|].
      intros Ek. apply Hk'. rewrite <- Ek. now apply in_map.
    + intros [<-|H].
      * right. split; [now left | cbn [fst]; congruence].
      * destruct (IH ND' H) as [->|[H1 H2]]; [now left|].
        right. split; [now right | assumption].
Qed.

(** What the dict comprehension holds: one entry per key, under each key
    the last row that has it, and an entry for every row. *)
Lemma dict_comprehension_spec (rows : list R) :
  let d := compr [] rows in
  NoDup (map fst d)
  /\ (forall k v, In (k, v) d -> key v = k /\ last_with_key key rows v)
  /\ (forall r, In r rows -> In (key r) (map fst d)).
Proof.
  unfold dict_comprehension_from.
  induction rows as [|x rows IH] using rev_ind; cbn zeta.
  - cbn [fold_left map]. split; [constructor|]. split; [intros ? ? [] | intros ? []].
  - rewrite fold_left_app. cbn [fold_left].
    cbn zeta in IH. destruct IH as (ND & Hlast & Hall).
    split; [now apply dict_setitem_NoDup|]. split.
    + intros k v H. apply dict_setitem_In in H; [|assumption].
      destruct H as [E|[H Hne]].
      * inversion E; subst. split; [reflexivity|].
        exists rows, []. split; [reflexivity | intros []].
      * cbn [fst] in Hne. destruct (Hlast _ _ H) as (Ek & l1 & l2 & -> & Hl2).
        split; [assumption|].
        exists l1, (l2 ++ [x]). split.
        -- now rewrite <- app_assoc.
        -- rewrite map_app, in_app_iff. cbn [map In].
           intros [H1|[H1|[]]]; [auto | congruence].
    + intros r Hr. apply dict_setitem_keys_incl.
      apply in_app_iff in Hr. destruct Hr as [Hr|[->|[]]]; auto.
Qed.

Lemma dict_comprehension_fixed (rows : list R) :
  NoDup (map key rows) -> compr [] rows = map (fun r => (key r, r)) rows.
Proof.
  unfold dict_comprehension_from.
  induction rows as [|x rows IH] using rev_ind; intros ND.
  - reflexivity.
  - rewrite fold_left_app. cbn [fold_left].
    rewrite map_app in ND. apply NoDup_remove in ND. cbn [map] in ND.
    rewrite app_nil_r in ND. destruct ND as [ND Hx].
    rewrite IH by assumption.
    rewrite dict_setitem_fresh; [now rewrite map_app|].
    rewrite map_map. cbn [fst]. exact Hx.
Qed.

Local Abbreviation dv := (dict_values_by_key key key_eq_dec).

Lemma dict_values_keys (rows : list R) :
  map key (dv rows) = map fst (compr [] rows).
Proof.
  unfold dict_values_by_key. rewrite map_map.
  apply map_ext_in. intros [k v] H. cbn [snd fst].
  now apply (dict_comprehension_spec rows) in H.
Qed.

Lemma dict_values_NoDup (rows : list R) : NoDup (map key (dv rows)).
Proof. rewrite dict_values_keys. apply dict_comprehension_spec. Qed.

Lemma dict_values_last (rows : list R) (v : R) :
  In v (dv rows) -> last_with_key key rows v.
Proof.
  unfold dict_values_by_key. rewrite in_map_iff. intros ([k v'] & <- & H).
  now apply (dict_comprehension_spec rows) in H.
Qed.

Lemma dict_values_all (rows : list R) (r : R) :
  In r rows -> In (key r) (map key (dv rows)).
Proof. rewrite dict_values_keys. apply dict_comprehension_spec. Qed.

Lemma dict_values_fixed (rows : list R) :
  NoDup (map key rows) -> dv rows = rows.
Proof.
  intros ND. unfold dict_values_by_key. rewrite dict_comprehension_fixed by assumption.
  rewrite map_map. cbn [snd]. apply map_id.
Qed.

Lemma dict_values_idempotent (rows : list R) : dv (dv rows) = dv rows.
Proof. apply dict_values_fixed, dict_values_NoDup. Qed.
End DedupFacts.


(** ** The keys of a dict *)

Lemma strip_twos_spec (p : positive) :
  Z.pos p = Z.pos (fst (strip_twos p)) * 2 ^ snd (strip_twos p)
  /\ 0 <= snd (strip_twos p)
  /\ Z.odd (Z.pos (fst (strip_twos p))) = true.
Proof.
  induction p as [p IH|p IH|]; cbn [strip_twos].
  - cbn [fst snd]. rewrite Z.pow_0_r. split; [lia|]. split; [lia|reflexivity].
  - destruct (strip_twos p) as [r j]. cbn [fst snd] in *.
    destruct IH as (E & Hj & Ho). split; [|split; [lia|assumption]].
    rewrite Z.pow_add_r by lia. rewrite Z.pow_1_r.
    change (Z.pos p~0) with (2 * Z.pos p). rewrite E. ring.
  - cbn [fst snd]. split; [reflexivity|]. split; [lia|reflexivity].
Qed.

(** A number that is not 0 is an odd number times a power of two, and
    [reduced] finds them. *)
Lemma reduced_spec (m e : Z) :
  (m = 0 /\ reduced m e = KNum 0 0)
  \/ exists r j, Z.odd r = true /\ 0 <= j /\ m = r * 2 ^ j
                 /\ reduced m e = KNum r (e + j).
Proof.
  destruct m as [|p|p]; [left; split; reflexivity| |]; right;
    pose proof (strip_twos_spec p) as (E & Hj & Ho); cbn [reduced];
    destruct (strip_twos p) as [r j]; cbn [fst snd] in *.
  - exists (Z.pos r), j. repeat split; assumption.
  - exists (Z.neg r), j. repeat split; try assumption.
    change (Z.neg p) with (- Z.pos p). rewrite E.
    change (Z.neg r) with (- Z.pos r). ring.
Qed.

Lemma odd_times_pow_unique (r r' a a' : Z) :
  Z.odd r = true -> Z.odd r' = true -> 0 <= a -> 0 <= a' ->
  r * 2 ^ a = r' * 2 ^ a' -> r = r' /\ a = a'.
Proof.
  assert (W : forall r r' a a',
             Z.odd r = true -> Z.odd r' = true -> 0 <= a <= a' ->
             r * 2 ^ a = r' * 2 ^ a' -> r = r' /\ a = a').
  { clear. intros r r' a a' Ho Ho' Ha E.
    replace a' with (a + (a' - a)) in E by lia.
    rewrite Z.pow_add_r in E by lia.
    assert (P : 0 < 2 ^ a) by (apply Z.pow_pos_nonneg; lia).
    assert (E' : r = r' * 2 ^ (a' - a)) by nia.
    destruct (Z.eq_dec a a') as [->|Hne].
    - rewrite Z.sub_diag, Z.pow_0_r in E'. split; [lia|reflexivity].
    - exfalso. replace (a' - a) with (1 + (a' - a - 1)) in E' by lia.
      rewrite Z.pow_add_r, Z.pow_1_r in E' by lia.
      rewrite E' in Ho.
      replace (r' * (2 * 2 ^ (a' - a - 1))) with (2 * (r' * 2 ^ (a' - a - 1))) in Ho by ring.
      rewrite Z.odd_mul in Ho. discriminate. }
  intros Ho Ho' Ha Ha' E.
  destruct (Z.le_ge_cases a a').
  - apply W; auto with zarith.
  - symmetry in E. destruct (W r' r a' a) as [-> ->]; auto with zarith.
Qed.

(** Two numbers have the same reduced form exactly when they are equal. *)
Lemma reduced_eq (m e m' e' : Z) :
  reduced m e = reduced m' e'
  <-> m * 2 ^ (e - Z.min e e') = m' * 2 ^ (e' - Z.min e e').
Proof.
  set (k := Z.min e e').
  assert (P : 0 < 2 ^ (e - k)) by (apply Z.pow_pos_nonneg; lia).
  assert (P' : 0 < 2 ^ (e' - k)) by (apply Z.pow_pos_nonneg; lia).
  destruct (reduced_spec m e) as [[-> ->]|(r & j & Ho & Hj & -> & ->)];
    destruct (reduced_spec m' e') as [[-> ->]|(r' & j' & Ho' & Hj' & -> & ->)].
  - split; reflexivity.
  - assert (Q : 0 < 2 ^ j') by (apply Z.pow_pos_nonneg; lia).
    split.
    + intros E. inversion E. subst r'. discriminate.
    + intros E. exfalso. destruct r'; [discriminate|nia|nia].
  - assert (Q : 0 < 2 ^ j) by (apply Z.pow_pos_nonneg; lia).
    split.
    + intros E. inversion E. subst r. discriminate.
    + intros E. exfalso. destruct r; [discriminate|nia|nia].
  - rewrite <- !Z.mul_assoc, <- !Z.pow_add_r by lia. split.
    + intros E. inversion E. subst r'. f_equal. f_equal. lia.
    + intros E. apply odd_times_pow_unique in E as [-> E]; try assumption; try lia.
      f_equal. lia.
Qed.

Lemma float_key_eq (x y : pyfloat) :
  float_key x = float_key y <-> float_eqb x y = true.
Proof.
  destruct x as [m e|n|], y as [m' e'|n'|]; cbn [float_key float_eqb];
    try (split; [|discriminate]);
    try (destruct (reduced_spec m e) as [[_ ->]|(? & ? & _ & _ & _ & ->)]; discriminate);
    try (destruct (reduced_spec m' e') as [[_ ->]|(? & ? & _ & _ & _ & ->)]; discriminate);
    try discriminate.
  - rewrite reduced_eq. symmetry. apply Z.eqb_eq.
  - rewrite Bool.eqb_true_iff. split; [now intros [= ->]|now intros ->].
  - split; reflexivity.
Qed.

(** [dict_key] files two values that can be hashed under one key exactly
    when they are the same key for Python. *)
Lemma dict_key_same_key (a b : pyval) :
  hashable a = true -> hashable b = true ->
  (dict_key a = dict_key b <-> same_key a b = true).
Proof.
  assert (N : forall m e k, reduced m e = k -> (forall r j, k <> KNum r j) -> False).
  { intros m e k E Hk.
    destruct (reduced_spec m e) as [[_ E']|(r & j & _ & _ & _ & E')];
      rewrite E' in E; symmetry in E; now apply Hk in E. }
  assert (F : forall f k, float_key f = k ->
                          (k = KNone \/ exists s, k = KStr s) -> False).
  { intros [m e|n|] k E Hk; cbn [float_key] in E.
    - apply (N _ _ _ E). intros r j ->. destruct Hk as [Hk|[s Hk]]; discriminate.
    - subst k. destruct Hk as [Hk|[s Hk]]; discriminate.
    - subst k. destruct Hk as [Hk|[s Hk]]; discriminate. }
  intros Ha Hb.
  destruct a as [|x|x|x|x|x|x], b as [|y|y|y|y|y|y]; try discriminate;
    cbn [dict_key same_key as_float option_map];
    try (rewrite <- float_key_eq; split; [intros [= E]; exact E | intros E; now f_equal]);
    try (split; [|discriminate]; intros [= E]; exfalso;
         first [ apply (F _ _ E); first [left; reflexivity | right; eexists; reflexivity]
               | apply (N _ _ _ E); intros; discriminate
               | symmetry in E;
                 first [ apply (F _ _ E); first [left; reflexivity | right; eexists; reflexivity]
                       | apply (N _ _ _ E); intros; discriminate ] ]).
  - split; reflexivity.
  - rewrite String.eqb_eq. split; [now intros [= ->]|now intros ->].
Qed.

Lemma dict_key_str (s t : string) :
  dict_key (PStr s) = dict_key (PStr t) <-> s = t.
Proof. cbn [dict_key]. split; [now intros [= ->]|now intros ->]. Qed.

Lemma dict_key_hashable (v : pyval) :
  hashable v = true <-> dict_key v <> None.
Proof.
  destruct v as [| | |f| | |]; cbn; split; try discriminate; try reflexivity;
    try (intros H; now elim H).
Qed.


(** *** The article rows *)

(** Rows with pairwise different keys have pairwise different images under
    anything the key is computed from. *)
Lemma NoDup_map_finer {A B K : Type} (f : A -> B) (g : B -> K) (l : list A) :
  NoDup (map (fun x => g (f x)) l) -> NoDup (map f l).
Proof.
  induction l as [|a l IH]; cbn [map]; intros ND; [constructor|].
  inversion ND as [|? ? Hn ND']; subst. constructor; [|now apply IH].
  intros Hin. apply Hn. apply in_map_iff in Hin as (x & E & Hx).
  apply in_map_iff. exists x. split; [now rewrite E|assumption].
Qed.

Lemma forallb_false_exists {A : Type} (p : A -> bool) (l : list A) :
  forallb p l = false -> exists x, In x l /\ p x = false.
Proof.
  induction l as [|a l IH]; cbn [forallb]; [discriminate|].
  destruct (p a) eqn:Pa; cbn [andb].
  - intros H. destruct (IH H) as (x & Hx & Px). exists x. split; [now right|assumption].
  - intros _. exists a. split; [now left|assumption].
Qed.

Section FrameFacts.
Context {C : Type}.
Variable C_eq_dec : forall a b : C, {a = b} + {a <> b}.
Variable cell_code : pyval -> C.

Lemma deduplicate_eq (df : list Gdelt.row) :
  Gdelt.deduplicate C_eq_dec cell_code df
  = if forallb (fun r => hashable (Gdelt.url (Gdelt.record r))) df
    then Ret (drop_duplicates (Gdelt.key cell_code) (Gdelt.key_eq_dec C_eq_dec) df)
    else Raise TypeError.
Proof. reflexivity. Qed.

Lemma drop_duplicates_In {R K : Type} (key : R -> K)
    (key_eq_dec : forall a b : K, {a = b} + {a <> b}) (rows : list R) (r : R) :
  In r (drop_duplicates key key_eq_dec rows) -> In r rows.
Proof.
  intros H. apply drop_duplicates_first in H. destruct H as (l1 & l2 & -> & _).
  apply in_app_iff. right. now left.
Qed.

Lemma deduplicate_twice (df : list Gdelt.row) :
  (d <- Gdelt.deduplicate C_eq_dec cell_code df ;; Gdelt.deduplicate C_eq_dec cell_code d)
  = Gdelt.deduplicate C_eq_dec cell_code df.
Proof.
  rewrite deduplicate_eq.
  destruct (forallb (fun r => hashable (Gdelt.url (Gdelt.record r))) df) eqn:Hh;
    [|reflexivity].
  cbn [bind]. rewrite deduplicate_eq.
  replace (forallb _ (drop_duplicates (Gdelt.key cell_code) (Gdelt.key_eq_dec C_eq_dec) df))
    with true.
  - now rewrite drop_duplicates_idempotent.
  - symmetry. apply forallb_forall. intros r Hr.
    apply drop_duplicates_In in Hr. rewrite forallb_forall in Hh. now apply Hh.
Qed.

End FrameFacts.



(** *** The videos *)

Lemma unique_videos_eq (videos : list Youtube.video) :
  Youtube.unique_videos videos
  = if forallb (fun v => hashable (Youtube.video_id v)) videos
    then Ret (dict_values_by_key Youtube.id_key option_hkey_eq_dec videos)
    else Raise TypeError.
Proof. reflexivity. Qed.

Lemma dict_values_In {R K : Type} (key : R -> K)
    (key_eq_dec : forall a b : K, {a = b} + {a <> b}) (rows : list R) (v : R) :
  In v (dict_values_by_key key key_eq_dec rows) -> In v rows.
Proof.
  intros H. apply dict_values_last in H. destruct H as (l1 & l2 & -> & _).
  apply in_app_iff. right. now left.
Qed.

(** What [unique_videos] returns has pairwise different keys. *)
Lemma unique_videos_NoDup (videos unique : list Youtube.video) :
  Youtube.unique_videos videos = Ret unique ->
  NoDup (map Youtube.id_key unique).
Proof.
  rewrite unique_videos_eq.
  destruct (forallb _ videos); [|discriminate].
  intros [= <-]. apply dict_values_NoDup.
Qed.

(** [search_videos] returns what [unique_videos] makes of the videos its
    page loops collected. *)
Lemma search_videos_unique {U : Type}
    (execute : U -> Youtube.request -> outcome pyval * U)
    (fuel : nat) (u : U) (keywords : list string) (start_date end_date : string)
    (cap : Z) (videos : list Youtube.video) (reqs : list Youtube.request) (u' : U) :
  Youtube.search_videos execute fuel u keywords start_date end_date cap
  = Ret (videos, reqs, u') ->
  NoDup (map Youtube.id_key videos).
Proof.
  unfold Youtube.search_videos.
  destruct (Youtube.search_keywords _ _ _ _ _ _ _ _ _) as [st|e|]; cbn [bind];
    [|discriminate|discriminate].
  destruct (Youtube.unique_videos (Youtube.all_videos st)) as [unique|e|] eqn:E;
    cbn [bind]; [|discriminate|discriminate].
  intros [= <- _ _]. now apply unique_videos_NoDup in E.
Qed.

(** C6: the deduplication of [search_videos] either returns videos whose
    ids are pairwise different keys (so pairwise different ids), each of
    them the last video of the input with its key, so that it carries the
    keyword of the last discovery, with every key of the input still there;
    or it raises [TypeError], which happens exactly when some id is a list
    or a dict and cannot be a key.  Two ids that are strings are the
    same key exactly when they are equal.  A video found under "a" and then
    under "b" is kept once, with keyword "b"; and the videos that
    [search_videos] returns have pairwise different keys, whatever the
    upstream answers. *)
Theorem unique_videos_last_discovery (videos : list Youtube.video) :
  match Youtube.unique_videos videos with
  | Ret unique =>
      NoDup (map Youtube.id_key unique)
      /\ NoDup (map Youtube.video_id unique)
      /\ (forall v, In v unique -> last_with_key Youtube.id_key videos v)
      /\ (forall v, In v videos ->
                    In (Youtube.id_key v) (map Youtube.id_key unique))
  | Raise e =>
      e = TypeError
      /\ exists v, In v videos /\ hashable (Youtube.video_id v) = false
  | OutOfFuel => False
  end
  /\ (forall s t, dict_key (PStr s) = dict_key (PStr t) <-> s = t)
  /\ Youtube.unique_videos [Mock.video "v1" "a"; Mock.video "v2" "a"; Mock.video "v1" "b"]
     = Ret [Mock.video "v1" "b"; Mock.video "v2" "a"]
  /\ (forall (U : Type) (execute : U -> Youtube.request -> outcome pyval * U)
             fuel u keywords start_date end_date cap,
        match Youtube.search_videos execute fuel u keywords start_date end_date cap with
        | Ret (found, _, _) => NoDup (map Youtube.id_key found)
        | _ => True
        end).
Proof.
  split; [|split; [apply dict_key_str|split; [vm_compute; reflexivity|]]].
  - rewrite unique_videos_eq.
    destruct (forallb (fun v => hashable (Youtube.video_id v)) videos) eqn:Hh.
    + split; [apply dict_values_NoDup|]. split.
      { apply (NoDup_map_finer Youtube.video_id dict_key). apply dict_values_NoDup. }
      split.
      * intros v. apply dict_values_last.
      * intros v. apply dict_values_all.
    + split; [reflexivity|]. now apply forallb_false_exists.
  - intros U execute fuel u keywords start_date end_date cap.
    destruct (Youtube.search_videos _ _ _ _ _ _ _) as [[[found reqs] u']|e|] eqn:E;
      [|exact I|exact I].
    now apply search_videos_unique in E.
Qed.

(** *** Idempotence *)

(** C9: deduplicating twice is deduplicating once, and a sequence whose keys
    are already pairwise different is returned unchanged, for the article
    rows keyed by (url, keyword), whatever codes pandas gives the URLs, and
    for the videos keyed by video_id; a key that cannot be hashed raises
    [TypeError] the first time already. *)
Theorem deduplication_idempotent :
  (forall (C : Type) (C_eq_dec : forall a b : C, {a = b} + {a <> b})
          (cell_code : pyval -> C) df,
     (d <- Gdelt.deduplicate C_eq_dec cell_code df ;; Gdelt.deduplicate C_eq_dec cell_code d)
     = Gdelt.deduplicate C_eq_dec cell_code df)
  /\ (forall (C : Type) (C_eq_dec : forall a b : C, {a = b} + {a <> b})
             (cell_code : pyval -> C) df,
        NoDup (map (Gdelt.key cell_code) df) ->
        Gdelt.deduplicate C_eq_dec cell_code df
        = if forallb (fun r => hashable (Gdelt.url (Gdelt.record r))) df
          then Ret df else Raise TypeError)
  /\ (forall videos,
        (unique <- Youtube.unique_videos videos ;; Youtube.unique_videos unique)
        = Youtube.unique_videos videos)
  /\ (forall videos,
        NoDup (map Youtube.id_key videos) ->
        Youtube.unique_videos videos
        = if forallb (fun v => hashable (Youtube.video_id v)) videos
          then Ret videos else Raise TypeError).
Proof.
  split; [intros C C_eq_dec cell_code df; apply deduplicate_twice|].
  split.
  { intros C C_eq_dec cell_code df ND. rewrite deduplicate_eq.
    now rewrite drop_duplicates_fixed. }
  split.
  - intros videos. rewrite unique_videos_eq.
    destruct (forallb (fun v => hashable (Youtube.video_id v)) videos) eqn:Hh;
      [|reflexivity].
    cbn [bind]. rewrite unique_videos_eq.
    replace (forallb _ (dict_values_by_key Youtube.id_key option_hkey_eq_dec videos))
      with true.
    + now rewrite dict_values_idempotent.
    + symmetry. apply forallb_forall. intros v Hv.
      apply dict_values_In in Hv. rewrite forallb_forall in Hh. now apply Hh.
  - intros videos ND. rewrite unique_videos_eq.
    now rewrite dict_values_fixed.
Qed.


(** ** The compact timestamp of the articles *)

(** A property checked on every integer of a range is a property of each
    integer of the range. *)
Lemma range_forallb (P : Z -> bool) (len : Z) :
  forallb P (map Z.of_nat (seq 0 (Z.to_nat len))) = true ->
  forall n, 0 <= n < len -> P n = true.
Proof.
  intros H n Hn. rewrite forallb_forall in H. apply H.
  apply in_map_iff. exists (Z.to_nat n). split; [lia|].
  apply in_seq. lia.
Qed.

Lemma match_seq_app (p : list cls) :
  forall txt rest,
    (List.length p <= String.length txt)%nat ->
    match_seq p (txt ++ rest)
    = match match_seq p txt with
      | Some (t, r) => Some (t, (r ++ rest)%string)
      | None => None
      end.
Proof.
  induction p as [|k p IH]; intros txt rest Hlen; cbn [match_seq].
  - reflexivity.
  - destruct txt as [|c txt]; cbn [String.length List.length] in Hlen; [lia|].
    cbn [append]. destruct (k c); [|reflexivity].
    rewrite IH by lia. destruct (match_seq p txt) as [[t r]|]; reflexivity.
Qed.

Lemma alternatives_app (g : list (list cls)) (txt rest : string) :
  (forall p, In p g -> (List.length p <= String.length txt)%nat) ->
  alternatives g (txt ++ rest)
  = map (fun tr => (fst tr, (snd tr ++ rest)%string)) (alternatives g txt).
Proof.
  unfold alternatives. induction g as [|p g IH]; intros Hlen; cbn [flat_map map].
  - reflexivity.
  - rewrite map_app, IH by (intros; apply Hlen; now right). f_equal.
    rewrite match_seq_app by (apply Hlen; now left).
    destruct (match_seq p txt) as [[t r]|]; reflexivity.
Qed.

Lemma reads_as_spec (g : list (list cls)) (txt rest : string) (n : Z) :
  (forall p, In p g -> (List.length p <= String.length txt)%nat) ->
  reads_as g txt n = true ->
  (exists tl, alternatives g (txt ++ rest) = (txt, rest) :: tl)
  /\ int_of_string txt = Ret n.
Proof.
  intros Hlen H. unfold reads_as in H. apply andb_true_iff in H as [H1 H2].
  split.
  - rewrite alternatives_app by assumption.
    destruct (alternatives g txt) as [|[t [|? ?]] tl]; try discriminate.
    apply String.eqb_eq in H1. subst t. cbn [map fst snd append]. eauto.
  - destruct (int_of_string txt); try discriminate.
    apply Z.eqb_eq in H2. now subst.
Qed.

Lemma two_wide (g : list (list cls)) (n : Z) :
  forallb (fun p => (List.length p <=? 2)%nat) g = true ->
  forall p, In p g -> (List.length p <= String.length (pad2 n))%nat.
Proof.
  intros H p Hp. rewrite forallb_forall in H. apply H in Hp.
  apply Nat.leb_le in Hp. exact Hp.
Qed.

Lemma reads_fields_spec (g : list (list cls)) (lo hi n : Z) (rest : string) :
  reads_fields g lo hi = true ->
  0 <= lo <= n -> n <= hi ->
  (exists tl, alternatives g (pad2 n ++ rest) = (pad2 n, rest) :: tl)
  /\ int_of_string (pad2 n) = Ret n.
Proof.
  intros H Hlo Hhi. apply andb_true_iff in H as [Hw H].
  apply reads_as_spec; [now apply two_wide|].
  pose proof (range_forallb _ _ H n ltac:(lia)) as E. cbn beta in E.
  destruct (Z.leb_spec lo n); [exact E | lia].
Qed.

Lemma reads_year (y : Z) (rest : string) :
  0 <= y <= 9999 ->
  (exists tl, alternatives re_Y (pad4 y ++ rest) = (pad4 y, rest) :: tl)
  /\ int_of_string (pad4 y) = Ret y.
Proof.
  intros Hy. apply reads_as_spec.
  - intros p [<-|[]]. reflexivity.
  - apply (range_forallb (fun y => reads_as re_Y (pad4 y) y) 10000);
      [vm_compute; reflexivity | lia].
Qed.

Lemma reads_month : reads_fields re_m 1 12 = true.
Proof. vm_compute. reflexivity. Qed.

Lemma reads_day : reads_fields re_d 1 31 = true.
Proof. vm_compute. reflexivity. Qed.

Lemma reads_hour : reads_fields re_H 0 23 = true.
Proof. vm_compute. reflexivity. Qed.

Lemma reads_minute : reads_fields re_M 0 59 = true.
Proof. vm_compute. reflexivity. Qed.

Lemma reads_second : reads_fields re_S 0 59 = true.
Proof. vm_compute. reflexivity. Qed.

Lemma match_groups_head (g : list (list cls)) (gs : list (list (list cls)))
    (s txt rest r : string) (caps : list string) :
  (exists tl, alternatives g s = (txt, rest) :: tl) ->
  (exists tl, match_groups gs rest = (caps, r) :: tl) ->
  exists tl, match_groups (g :: gs) s = (txt :: caps, r) :: tl.
Proof.
  intros [tl1 E1] [tl2 E2]. cbn [match_groups]. rewrite E1. cbn [flat_map].
  rewrite E2. cbn [map app]. eauto.
Qed.

(** A compact timestamp is parsed into its fields. *)
Lemma strptime_compact_text (y m d H M S : Z) :
  0 <= y <= 9999 -> 1 <= m <= 12 -> 1 <= d <= 31 ->
  0 <= H <= 23 -> 0 <= M <= 59 -> 0 <= S <= 59 ->
  strptime_str (compact_text y m d H M S) = datetime_new y m d H M S 0 None.
Proof.
  intros Hy Hm Hd HH HM HS. unfold strptime_str, compact_text.
  destruct (reads_year y (pad2 m ++ pad2 d ++ pad2 H ++ pad2 M ++ pad2 S) Hy)
    as [AY IY].
  destruct (reads_fields_spec re_m 1 12 m (pad2 d ++ pad2 H ++ pad2 M ++ pad2 S)
              reads_month ltac:(lia) ltac:(lia)) as [Am Im].
  destruct (reads_fields_spec re_d 1 31 d (pad2 H ++ pad2 M ++ pad2 S)
              reads_day ltac:(lia) ltac:(lia)) as [Ad Id].
  destruct (reads_fields_spec re_H 0 23 H (pad2 M ++ pad2 S)
              reads_hour ltac:(lia) ltac:(lia)) as [AH IH].
  destruct (reads_fields_spec re_M 0 59 M (pad2 S)
              reads_minute ltac:(lia) ltac:(lia)) as [AM IM].
  destruct (reads_fields_spec re_S 0 59 S EmptyString
              reads_second ltac:(lia) ltac:(lia)) as [AS IS].
  assert (E : exists tl,
             match_groups gdelt_format
               (pad4 y ++ pad2 m ++ pad2 d ++ pad2 H ++ pad2 M ++ pad2 S)
             = ([pad4 y; pad2 m; pad2 d; pad2 H; pad2 M; pad2 S], EmptyString) :: tl).
  { unfold gdelt_format.
    do 5 (eapply match_groups_head; [eassumption|]).
    eapply match_groups_head; [|cbn [match_groups]; eauto].
    exact AS. }
  destruct E as [tl E]. rewrite E.
  rewrite IY, Im, Id, IH, IM, IS. reflexivity.
Qed.

Lemma length_append (a b : string) :
  String.length (a ++ b) = (String.length a + String.length b)%nat.
Proof. induction a as [|c a IH]; cbn [append String.length]; [reflexivity | now rewrite IH]. Qed.

Lemma all_ok_append (a b : string) : all_ok a -> all_ok b -> all_ok (a ++ b).
Proof.
  unfold all_ok. induction a as [|c a IH]; cbn [append list_ascii_of_string]; intros Ha Hb.
  - exact Hb.
  - inversion Ha; subst. constructor; auto.
Qed.

Lemma all_ok_In (s : string) (c : ascii) :
  all_ok s -> In c (list_ascii_of_string s) -> ok_char c = true.
Proof. unfold all_ok. rewrite Forall_forall. auto. Qed.

Lemma d09_ok : cls_ok d09.
Proof. intros c H. unfold ok_char. unfold d09 in H. now rewrite H. Qed.

Lemma between_ok (lo hi : ascii) :
  is_digit lo = true -> is_digit hi = true -> cls_ok (between lo hi).
Proof.
  unfold cls_ok, between, ok_char, is_digit. intros Hlo Hhi c H.
  rewrite !andb_true_iff, !Z.leb_le in *. rewrite orb_true_iff. left.
  rewrite andb_true_iff, !Z.leb_le. lia.
Qed.

Lemma exactly_ok (a : ascii) : ok_char a = true -> cls_ok (exactly a).
Proof.
  unfold cls_ok, exactly. intros Ha c H. apply Ascii.eqb_eq in H. now subst.
Qed.

Lemma match_seq_sound (p : list cls) :
  forall s txt rest,
    match_seq p s = Some (txt, rest) ->
    s = (txt ++ rest)%string
    /\ String.length txt = List.length p
    /\ (Forall cls_ok p -> all_ok txt).
Proof.
  induction p as [|k p IH]; intros s txt rest; cbn [match_seq].
  - intros E. inversion E; subst. repeat split. constructor.
  - destruct s as [|c s]; [discriminate|].
    destruct (k c) eqn:Hk; [|discriminate].
    destruct (match_seq p s) as [[t r]|] eqn:Hm; [|discriminate].
    intros E. inversion E; subst. destruct (IH _ _ _ Hm) as (-> & Hl & Hok).
    repeat split.
    + cbn [String.length List.length]. now rewrite Hl.
    + intros F. inversion F; subst. constructor; [auto | now apply Hok].
Qed.

Lemma alternatives_sound (g : list (list cls)) (s txt rest : string) :
  In (txt, rest) (alternatives g s) ->
  exists p, In p g /\ match_seq p s = Some (txt, rest).
Proof.
  unfold alternatives. rewrite in_flat_map. intros (p & Hp & H). exists p.
  split; [assumption|]. destruct (match_seq p s) as [tr|]; [|destruct H].
  destruct H as [->|[]]. reflexivity.
Qed.

Lemma group_sound (lo hi : nat) (g : list (list cls)) (s txt rest : string) :
  group_ok lo hi g ->
  In (txt, rest) (alternatives g s) ->
  s = (txt ++ rest)%string /\ (lo <= String.length txt <= hi)%nat /\ all_ok txt.
Proof.
  intros Hg H. apply alternatives_sound in H as (p & Hp & Hm).
  apply match_seq_sound in Hm as (-> & Hl & Hok).
  destruct (Hg p Hp) as [Hlen Hc]. rewrite Hl. auto.
Qed.

Ltac cls_facts :=
  repeat first
    [ apply Forall_nil
    | apply Forall_cons
    | apply d09_ok
    | apply between_ok; reflexivity
    | apply exactly_ok; reflexivity ].

Ltac group_facts :=
  intros p Hp; cbn [In] in Hp;
  repeat (destruct Hp as [<-|Hp]; [split; [cbn [List.length]; lia | cls_facts]|]);
  destruct Hp.

Lemma re_Y_ok : group_ok 4 4 re_Y.
Proof. group_facts. Qed.
Lemma re_m_ok : group_ok 1 2 re_m.
Proof. group_facts. Qed.
Lemma re_d_ok : group_ok 1 2 re_d.
Proof. group_facts. Qed.
Lemma re_H_ok : group_ok 1 2 re_H.
Proof. group_facts. Qed.
Lemma re_M_ok : group_ok 1 2 re_M.
Proof. group_facts. Qed.
Lemma re_S_ok : group_ok 1 2 re_S.
Proof. group_facts. Qed.

Lemma match_groups_cons (g : list (list cls)) (gs : list (list (list cls)))
    (s rest : string) (caps : list string) :
  In (caps, rest) (match_groups (g :: gs) s) ->
  exists txt caps' mid,
    caps = txt :: caps' /\ In (txt, mid) (alternatives g s)
    /\ In (caps', rest) (match_groups gs mid).
Proof.
  cbn [match_groups]. rewrite in_flat_map. intros ([txt mid] & H1 & H2).
  apply in_map_iff in H2 as ([caps' r] & E & H2). inversion E; subst.
  exists txt, caps', mid. auto.
Qed.

(** A string that [strptime] accepts is 9 to 14 characters long and made
    of digits and spaces. *)
Lemma gdelt_format_sound (s : string) (caps : list string) :
  In (caps, EmptyString) (match_groups gdelt_format s) ->
  (9 <= String.length s <= 14)%nat /\ all_ok s.
Proof.
  unfold gdelt_format. intros H.
  apply match_groups_cons in H as (tY & c1 & s1 & -> & HY & H).
  apply match_groups_cons in H as (tm & c2 & s2 & -> & Hm & H).
  apply match_groups_cons in H as (td & c3 & s3 & -> & Hd & H).
  apply match_groups_cons in H as (tH & c4 & s4 & -> & HH & H).
  apply match_groups_cons in H as (tM & c5 & s5 & -> & HM & H).
  apply match_groups_cons in H as (tS & c6 & s6 & -> & HS & H).
  cbn [match_groups In] in H. destruct H as [H|[]]. inversion H; subst.
  apply (group_sound _ _ _ _ _ _ re_Y_ok) in HY as (-> & LY & OY).
  apply (group_sound _ _ _ _ _ _ re_m_ok) in Hm as (-> & Lm & Om).
  apply (group_sound _ _ _ _ _ _ re_d_ok) in Hd as (-> & Ld & Od).
  apply (group_sound _ _ _ _ _ _ re_H_ok) in HH as (-> & LH & OH).
  apply (group_sound _ _ _ _ _ _ re_M_ok) in HM as (-> & LM & OM).
  apply (group_sound _ _ _ _ _ _ re_S_ok) in HS as (-> & LS & OS).
  rewrite !length_append. cbn [String.length]. split; [lia|].
  repeat (apply all_ok_append; [assumption|]). constructor.
Qed.

(** The outcomes of [strptime]: a valid datetime or [ValueError]. *)
Lemma int_of_string_outcome (s : string) :
  (exists n, int_of_string s = Ret n) \/ int_of_string s = Raise ValueError.
Proof.
  unfold int_of_string.
  destruct (match int_lstrip s with
            | String c rest =>
                if Ascii.eqb c "-" then (-1, rest)
                else if Ascii.eqb c "+" then (1, rest) else (1, int_lstrip s)
            | EmptyString => (1, int_lstrip s)
            end) as [sign body].
  destruct (int_digits 0 false body); [|now right].
  destruct (count_digits body <=? int_max_str_digits); eauto.
Qed.

Lemma datetime_new_outcome (y m d H M S us : Z) (tz : option Z) :
  (datetime_new y m d H M S us tz = Ret (mkdatetime y m d H M S us tz)
   /\ valid_datetime (mkdatetime y m d H M S us tz) = true)
  \/ datetime_new y m d H M S us tz = Raise ValueError.
Proof.
  unfold datetime_new, valid_datetime.
  cbn [year month day hour minute second microsecond].
  destruct (check_date_fields y m d && check_time_fields H M S us); auto.
Qed.

Lemma strptime_str_outcome (s : string) :
  (exists dt, strptime_str s = Ret dt /\ valid_datetime dt = true
              /\ (9 <= String.length s <= 14)%nat /\ all_ok s)
  \/ strptime_str s = Raise ValueError.
Proof.
  unfold strptime_str.
  destruct (match_groups gdelt_format s) as [|[caps rest] tl] eqn:E; [now right|].
  destruct caps as [|tY [|tm [|td [|tH [|tM [|tS [|? ?]]]]]]]; try now right.
  destruct rest; [|now right].
  assert (Hs : In ([tY; tm; td; tH; tM; tS], EmptyString) (match_groups gdelt_format s))
    by (rewrite E; now left).
  apply gdelt_format_sound in Hs.
  destruct (int_of_string_outcome tY) as [[y ->]| ->]; [|now right].
  destruct (int_of_string_outcome tm) as [[m ->]| ->]; [|now right].
  destruct (int_of_string_outcome td) as [[d ->]| ->]; [|now right].
  destruct (int_of_string_outcome tH) as [[hh ->]| ->]; [|now right].
  destruct (int_of_string_outcome tM) as [[mi ->]| ->]; [|now right].
  destruct (int_of_string_outcome tS) as [[ss ->]| ->]; [|now right].
  cbn [bind].
  destruct (datetime_new_outcome y m d hh mi ss 0 None) as [[-> V]| ->]; [|now right].
  left. eauto.
Qed.

(** [normalize_published_time] in terms of [strptime]. *)
Lemma normalize_published_time_str (s : string) :
  normalize_published_time (PStr s)
  = Ret (match strptime_str s with
         | Ret dt => if String.eqb s "" then None else Some (strftime_iso dt)
         | _ => None
         end).
Proof.
  unfold normalize_published_time, strptime. cbn [py_truthy]. rewrite negb_involutive.
  destruct (String.eqb s "") eqn:Es.
  - now destruct (strptime_str s).
  - destruct (strptime_str_outcome s) as [(dt & -> & _)| ->]; reflexivity.
Qed.

Lemma normalize_published_time_other (v : pyval) :
  (forall s, v <> PStr s) -> normalize_published_time v = Ret None.
Proof.
  intros H. unfold normalize_published_time, strptime.
  destruct v; try (destruct (negb _); reflexivity).
  now destruct (H s).
Qed.

Lemma strftime_iso_text (y m d H M S : Z) :
  1000 <= y ->
  strftime_iso (naive y m d H M S) = iso_text y m d H M S.
Proof.
  intros Hy. unfold strftime_iso, iso_text, strftime_Y, naive.
  cbn [year month day hour minute second].
  destruct (Z.ltb_spec y 10); [lia|]. destruct (Z.ltb_spec y 100); [lia|].
  destruct (Z.ltb_spec y 1000); [lia|]. reflexivity.
Qed.

Lemma normalize_published_time_total (v : pyval) :
  exists r, normalize_published_time v = Ret r.
Proof.
  destruct v;
    try solve [eexists; apply normalize_published_time_other; intros; discriminate].
  rewrite normalize_published_time_str. eauto.
Qed.

(** C4, as stated, fails: [strptime] also accepts fields of one digit and a
    day padded with a space, so a string of the wrong length and a string
    with a character that is no digit are parsed, not rejected. *)
Lemma normalize_published_time_accepts_short_fields :
  normalize_published_time (PStr "2023061512000") = Ret (Some "2023-06-15 12:00:00"%string)
  /\ String.length "2023061512000" = 13%nat
  /\ normalize_published_time (PStr "202311111") = Ret (Some "2023-01-01 01:01:01"%string)
  /\ normalize_published_time (PStr "202306 5120000")
     = Ret (Some "2023-06-05 12:00:00"%string).
Proof. repeat split; vm_compute; reflexivity. Qed.

(** C4, as amended.  [normalize_published_time] never raises.  The compact
    text of a valid date and time is turned into [strftime]'s text of it,
    which is the ISO text from the year 1000 on.  The result is null for the
    empty string, for a value that is no string, for a string shorter than 9
    or longer than 14 characters, for a string with a character that is
    neither a digit nor a space, and for an impossible date; a result that is
    not null is the text of a valid date and time. *)
Theorem normalize_published_time_spec :
  (forall v, exists r, normalize_published_time v = Ret r)
  /\ (forall y m d H M S,
        check_date_fields y m d = true -> check_time_fields H M S 0 = true ->
        normalize_published_time (PStr (compact_text y m d H M S))
        = Ret (Some (strftime_iso (naive y m d H M S))))
  /\ (forall y m d H M S,
        1000 <= y -> strftime_iso (naive y m d H M S) = iso_text y m d H M S)
  /\ normalize_published_time (PStr "20230615120000")
     = Ret (Some "2023-06-15 12:00:00"%string)
  /\ normalize_published_time (PStr "") = Ret None
  /\ (forall v, (forall s, v <> PStr s) -> normalize_published_time v = Ret None)
  /\ (forall s, (String.length s < 9 \/ 14 < String.length s)%nat ->
                normalize_published_time (PStr s) = Ret None)
  /\ (forall s c, In c (list_ascii_of_string s) -> is_digit c = false -> c <> " "%char ->
                  normalize_published_time (PStr s) = Ret None)
  /\ normalize_published_time (PStr "20230230120000") = Ret None
  /\ (forall s iso,
        normalize_published_time (PStr s) = Ret (Some iso) ->
        exists dt, valid_datetime dt = true /\ iso = strftime_iso dt).
Proof.
  split.
  { exact normalize_published_time_total. }
  split.
  { intros y m d H M S Vd Vt. rewrite normalize_published_time_str.
    apply check_date_fields_spec in Vd as Vd'. apply check_time_fields_spec in Vt as Vt'.
    pose proof (days_in_month_bounds y m).
    rewrite strptime_compact_text by lia.
    unfold datetime_new. rewrite Vd, Vt. cbn [andb].
    unfold compact_text, pad4. cbn [append String.eqb]. reflexivity. }
  split; [exact strftime_iso_text|].
  split; [vm_compute; reflexivity|].
  split; [vm_compute; reflexivity|].
  split; [exact normalize_published_time_other|].
  split.
  { intros s Hlen. rewrite normalize_published_time_str.
    destruct (strptime_str_outcome s) as [(dt & -> & _ & Hl & _)| ->]; [lia | reflexivity]. }
  split.
  { intros s c Hc Hd Hsp. rewrite normalize_published_time_str.
    destruct (strptime_str_outcome s) as [(dt & -> & _ & _ & Hok)| ->]; [|reflexivity].
    exfalso. pose proof (all_ok_In _ _ Hok Hc) as E. unfold ok_char in E.
    rewrite Hd in E. cbn [orb] in E. apply Ascii.eqb_eq in E. contradiction. }
  split; [vm_compute; reflexivity|].
  intros s iso. rewrite normalize_published_time_str.
  destruct (strptime_str_outcome s) as [(dt & -> & V & _)| ->]; [|discriminate].
  destruct (String.eqb s ""); [discriminate|].
  intros E. inversion E. eauto.
Qed.


(** ** Normalisation of one item *)

Lemma py_getitem_dict (d : list (string * pyval)) (k : string) (x : pyval) :
  assoc k d = Some x -> py_getitem (PDict d) k = Ret x.
Proof. intros E. cbn [py_getitem]. now rewrite E. Qed.

Lemma py_getitem_missing (d : list (string * pyval)) (k : string) :
  assoc k d = None -> py_getitem (PDict d) k = Raise KeyError.
Proof. intros E. cbn [py_getitem]. now rewrite E. Qed.

Lemma article_records_of_dicts (keyword : string) (arts : list (list (string * pyval))) :
  map_outcome (Gdelt.article_record keyword) (map PDict arts)
  = Ret (map (article_of keyword) arts).
Proof.
  induction arts as [|art arts IH]; cbn [map map_outcome]; [reflexivity|].
  rewrite IH. reflexivity.
Qed.

Lemma add_published_at_iso_total (all_records : list Gdelt.article) :
  exists df,
    Gdelt.add_published_at_iso all_records = Ret df
    /\ map Gdelt.record df = all_records
    /\ forall r, In r df ->
         normalize_published_time (Gdelt.published_at (Gdelt.record r))
         = Ret (Gdelt.published_at_iso r).
Proof.
  unfold Gdelt.add_published_at_iso.
  induction all_records as [|a rest (df & E & Hm & Hn)]; cbn [map_outcome].
  - exists []. repeat split. intros r [].
  - destruct (normalize_published_time_total (Gdelt.published_at a)) as [iso Ea].
    rewrite Ea, E. cbn [bind]. exists (Gdelt.mkrow a iso :: df). repeat split.
    + cbn [map Gdelt.record]. now rewrite Hm.
    + intros r [<-|Hr]; [exact Ea | now apply Hn].
Qed.

(** The video of a search result whose id and snippet are there. *)
Lemma video_of_item_fields (keyword : string) (item id snippet : list (string * pyval))
    (video_id : pyval) :
  assoc "id" item = Some (PDict id) ->
  assoc "videoId" id = Some video_id ->
  assoc "snippet" item = Some (PDict snippet) ->
  Youtube.video_of_item keyword (PDict item)
  = Ret (Youtube.mkvideo video_id (dict_get snippet "title" (PStr ""))
                         (dict_get snippet "channelTitle" (PStr ""))
                         (dict_get snippet "publishedAt" (PStr "")) keyword).
Proof.
  intros E1 E2 E3. unfold Youtube.video_of_item.
  rewrite (py_getitem_dict _ _ _ E1). cbn [bind].
  rewrite (py_getitem_dict _ _ _ E2). cbn [bind].
  rewrite (py_getitem_dict _ _ _ E3). reflexivity.
Qed.

(** The three fields of a comment whose nested snippet is there. *)
Lemma comment_fields_defaults (item s0 top snippet : list (string * pyval)) :
  assoc "snippet" item = Some (PDict s0) ->
  assoc "topLevelComment" s0 = Some (PDict top) ->
  assoc "snippet" top = Some (PDict snippet) ->
  Youtube.comment_fields (PDict item)
  = Ret (dict_get snippet "textDisplay" (PStr ""),
         dict_get snippet "publishedAt" (PStr ""),
         dict_get snippet "likeCount" (PInt 0)).
Proof.
  intros E1 E2 E3. unfold Youtube.comment_fields.
  rewrite (py_getitem_dict _ _ _ E1). cbn [bind].
  rewrite (py_getitem_dict _ _ _ E2). cbn [bind].
  rewrite (py_getitem_dict _ _ _ E3). reflexivity.
Qed.

Lemma assoc_app_fresh {V : Type} (k : string) (d d' : list (string * V)) :
  assoc k d = None -> assoc k (d ++ d') = assoc k d'.
Proof.
  induction d as [|[k' v] d IH]; cbn [assoc app]; [reflexivity|].
  destruct (String.eqb k k'); [discriminate | exact IH].
Qed.

Lemma comment_fields_of_thread (entries snippet : list (string * pyval)) :
  assoc "snippet" entries = None ->
  Youtube.comment_fields (Mock.comment_thread entries snippet)
  = Ret (dict_get snippet "textDisplay" (PStr ""),
         dict_get snippet "publishedAt" (PStr ""),
         dict_get snippet "likeCount" (PInt 0)).
Proof.
  intros E. unfold Mock.comment_thread.
  apply comment_fields_defaults
    with (s0 := [("topLevelComment"%string, PDict [("snippet"%string, PDict snippet)])])
         (top := [("snippet"%string, PDict snippet)]);
    [|reflexivity|reflexivity].
  rewrite assoc_app_fresh by assumption. reflexivity.
Qed.


(** ** Comparing aware datetimes *)

Lemma days_before_year_succ (y : Z) :
  days_before_year (y + 1) = days_before_year y + 365 + (if is_leap y then 1 else 0).
Proof.
  unfold days_before_year, is_leap. cbn zeta.
  replace (y + 1 - 1) with y by lia.
  destruct (Z.eqb_spec (y mod 4) 0), (Z.eqb_spec (y mod 100) 0),
    (Z.eqb_spec (y mod 400) 0); cbn [andb orb negb]; zdiv.
Qed.

Lemma days_before_year_mono (y1 y2 : Z) :
  y1 <= y2 -> days_before_year y1 <= days_before_year y2.
Proof. unfold days_before_year. cbn zeta. intros. zdiv. Qed.

Lemma month_cases (m : Z) :
  1 <= m <= 12 ->
  m = 1 \/ m = 2 \/ m = 3 \/ m = 4 \/ m = 5 \/ m = 6 \/ m = 7 \/ m = 8 \/ m = 9
  \/ m = 10 \/ m = 11 \/ m = 12.
Proof. lia. Qed.

Ltac each_month H :=
  apply month_cases in H;
  repeat (destruct H as [H|H]); subst.

Lemma days_before_month_table (y : Z) :
  let feb := days_in_month y 2 in
  days_before_month y 1 = 0 /\ days_before_month y 2 = 31
  /\ days_before_month y 3 = 31 + feb /\ days_before_month y 4 = 31 + feb + 31
  /\ days_before_month y 5 = 31 + feb + 31 + 30
  /\ days_before_month y 6 = 31 + feb + 31 + 30 + 31
  /\ days_before_month y 7 = 31 + feb + 31 + 30 + 31 + 30
  /\ days_before_month y 8 = 31 + feb + 31 + 30 + 31 + 30 + 31
  /\ days_before_month y 9 = 31 + feb + 31 + 30 + 31 + 30 + 31 + 31
  /\ days_before_month y 10 = 31 + feb + 31 + 30 + 31 + 30 + 31 + 31 + 30
  /\ days_before_month y 11 = 31 + feb + 31 + 30 + 31 + 30 + 31 + 31 + 30 + 31
  /\ days_before_month y 12 = 31 + feb + 31 + 30 + 31 + 30 + 31 + 31 + 30 + 31 + 30.
Proof. cbn zeta. repeat split; reflexivity. Qed.

Ltac month_table y :=
  let T := fresh "T" in
  pose proof (days_before_month_table y) as T; cbn zeta in T;
  decompose [and] T; clear T.

Lemma days_before_month_bounds (y m : Z) :
  1 <= m <= 12 ->
  0 <= days_before_month y m
  /\ days_before_month y m + days_in_month y m <= 365 + (if is_leap y then 1 else 0).
Proof.
  intros Hm. month_table y.
  each_month Hm; cbn [days_in_month] in *; destruct (is_leap y); lia.
Qed.

Lemma days_before_month_step (y m1 m2 : Z) :
  1 <= m1 -> m1 < m2 -> m2 <= 12 ->
  days_before_month y m1 + days_in_month y m1 <= days_before_month y m2.
Proof.
  intros H1 H2 H3.
  assert (Hm1 : 1 <= m1 <= 12) by lia. assert (Hm2 : 1 <= m2 <= 12) by lia.
  month_table y.
  each_month Hm1; each_month Hm2; try lia; cbn [days_in_month] in *;
    destruct (is_leap y); lia.
Qed.

(** The ordinal of a valid date orders dates as their fields do. *)
Lemma ymd2ord_lt (y1 m1 d1 y2 m2 d2 : Z) :
  check_date_fields y1 m1 d1 = true -> check_date_fields y2 m2 d2 = true ->
  lex_compare [y1; m1; d1] [y2; m2; d2] = Lt ->
  ymd2ord y1 m1 d1 < ymd2ord y2 m2 d2.
Proof.
  intros V1 V2. apply check_date_fields_spec in V1, V2.
  cbn [lex_compare]. unfold ymd2ord.
  pose proof (days_before_month_bounds y1 m1 ltac:(lia)).
  pose proof (days_before_month_bounds y2 m2 ltac:(lia)).
  destruct (Z.compare_spec y1 y2) as [->|Hy|Hy]; try discriminate.
  - destruct (Z.compare_spec m1 m2) as [->|Hm|Hm]; try discriminate.
    + destruct (Z.compare_spec d1 d2); try discriminate. lia.
    + intros _. pose proof (days_before_month_step y2 m1 m2 ltac:(lia) Hm ltac:(lia)). lia.
  - intros _. pose proof (days_before_year_succ y1).
    pose proof (days_before_year_mono (y1 + 1) y2 ltac:(lia)). lia.
Qed.

Lemma lex_compare_antisym (a b : list Z) :
  lex_compare b a = CompOpp (lex_compare a b).
Proof.
  revert b. induction a as [|x a IH]; intros [|y b]; cbn [lex_compare]; try reflexivity.
  rewrite (Z.compare_antisym x y). destruct (x ?= y); cbn [CompOpp]; auto.
Qed.

Lemma ymd2ord_compare (y1 m1 d1 y2 m2 d2 : Z) :
  check_date_fields y1 m1 d1 = true -> check_date_fields y2 m2 d2 = true ->
  (ymd2ord y1 m1 d1 ?= ymd2ord y2 m2 d2) = lex_compare [y1; m1; d1] [y2; m2; d2].
Proof.
  intros V1 V2. destruct (lex_compare [y1; m1; d1] [y2; m2; d2]) eqn:E.
  - cbn [lex_compare] in E.
    destruct (Z.compare_spec y1 y2); try discriminate.
    destruct (Z.compare_spec m1 m2); try discriminate.
    destruct (Z.compare_spec d1 d2); try discriminate. subst. apply Z.compare_refl.
  - apply Z.compare_lt_iff. now apply ymd2ord_lt.
  - apply Z.compare_gt_iff. apply ymd2ord_lt; try assumption.
    rewrite lex_compare_antisym, E. reflexivity.
Qed.

Lemma lex_compare_split (a1 a2 a3 b1 b2 b3 : Z) (ta tb : list Z) :
  lex_compare (a1 :: a2 :: a3 :: ta) (b1 :: b2 :: b3 :: tb)
  = match lex_compare [a1; a2; a3] [b1; b2; b3] with
    | Eq => lex_compare ta tb
    | c => c
    end.
Proof.
  cbn [lex_compare]. destruct (a1 ?= b1), (a2 ?= b2), (a3 ?= b3); reflexivity.
Qed.

Lemma compare_eq_intro (x y : Z) (c : comparison) :
  match c with Eq => x = y | Lt => x < y | Gt => y < x end -> c = (x ?= y).
Proof.
  destruct c; intros H; symmetry;
    [now apply Z.compare_eq_iff | now apply Z.compare_lt_iff | now apply Z.compare_gt_iff].
Qed.

(** Two valid aware datetimes compare as their instants do. *)
Lemma dt_cmp_aware (a b : datetime) :
  valid_datetime a = true -> valid_datetime b = true ->
  is_aware a = true -> is_aware b = true ->
  dt_cmp a b = Ret (instant a ?= instant b).
Proof.
  destruct a as [y1 m1 d1 H1 M1 S1 u1 [o1|]], b as [y2 m2 d2 H2 M2 S2 u2 [o2|]];
    try discriminate.
  unfold valid_datetime, is_aware, instant, dt_cmp, fields, utc_microseconds.
  cbn [year month day hour minute second microsecond tzinfo dflt].
  intros V1 V2 _ _.
  apply andb_true_iff in V1 as [D1 T1]. apply andb_true_iff in V2 as [D2 T2].
  apply check_time_fields_spec in T1, T2.
  destruct (Z.eqb_spec o1 o2) as [->|Ho]; [|reflexivity].
  f_equal. rewrite lex_compare_split, <- (ymd2ord_compare _ _ _ _ _ _ D1 D2).
  generalize (ymd2ord y1 m1 d1), (ymd2ord y2 m2 d2). intros n1 n2.
  apply compare_eq_intro. cbn [lex_compare].
  destruct (Z.compare_spec n1 n2); [|lia|lia].
  destruct (Z.compare_spec H1 H2); [|lia|lia].
  destruct (Z.compare_spec M1 M2); [|lia|lia].
  destruct (Z.compare_spec S1 S2); [|lia|lia].
  destruct (Z.compare_spec u1 u2); lia.
Qed.

Lemma dt_lt_aware (a b : datetime) :
  valid_datetime a = true -> valid_datetime b = true ->
  is_aware a = true -> is_aware b = true ->
  dt_lt a b = Ret (instant a <? instant b).
Proof.
  intros. unfold dt_lt. rewrite dt_cmp_aware by assumption. cbn [bind].
  unfold Z.ltb. now destruct (instant a ?= instant b).
Qed.

Lemma dt_gt_aware (a b : datetime) :
  valid_datetime a = true -> valid_datetime b = true ->
  is_aware a = true -> is_aware b = true ->
  dt_gt a b = Ret (instant b <? instant a).
Proof.
  intros. unfold dt_gt. rewrite dt_cmp_aware by assumption. cbn [bind].
  rewrite Z.ltb_antisym. unfold Z.leb. now destruct (instant a ?= instant b).
Qed.

Lemma dt_cmp_mixed (a b : datetime) :
  is_aware a = negb (is_aware b) -> dt_cmp a b = Raise TypeError.
Proof.
  unfold is_aware, dt_cmp. destruct (tzinfo a), (tzinfo b); cbn; try discriminate; reflexivity.
Qed.

(** ** The timestamp of a comment and of an article *)

Lemma normalize_published_time_unparsed (v : pyval) :
  (exists e, strptime v = Raise e) -> normalize_published_time v = Ret None.
Proof.
  intros [e E]. unfold normalize_published_time. rewrite E.
  now destruct (negb (py_truthy v)).
Qed.

Lemma unparsed_article_kept {C : Type}
    (C_eq_dec : forall a b : C, {a = b} + {a <> b}) (cell_code : pyval -> C)
    (all_records : list Gdelt.article) (a : Gdelt.article) :
  In a all_records ->
  (exists e, strptime (Gdelt.published_at a) = Raise e) ->
  exists df,
    Gdelt.add_published_at_iso all_records = Ret df
    /\ In (Gdelt.mkrow a None) df
    /\ match Gdelt.deduplicate C_eq_dec cell_code df with
       | Ret out =>
           In (Gdelt.key cell_code (Gdelt.mkrow a None)) (map (Gdelt.key cell_code) out)
           /\ (first_with_key (Gdelt.key cell_code) df (Gdelt.mkrow a None) ->
               In (Gdelt.mkrow a None) out)
       | Raise e =>
           e = TypeError
           /\ exists r, In r df /\ hashable (Gdelt.url (Gdelt.record r)) = false
       | OutOfFuel => False
       end.
Proof.
  intros Ha Hp. destruct (add_published_at_iso_total all_records) as (df & E & Hm & Hn).
  exists df. split; [assumption|].
  assert (Hin : In (Gdelt.mkrow a None) df).
  { rewrite <- Hm in Ha. apply in_map_iff in Ha as (r & <- & Hr).
    pose proof (Hn r Hr) as En.
    rewrite (normalize_published_time_unparsed _ Hp) in En.
    destruct r as [rec iso]. cbn [Gdelt.record Gdelt.published_at_iso] in *.
    inversion En. subst. exact Hr. }
  split; [assumption|]. rewrite deduplicate_eq.
  destruct (forallb (fun r => hashable (Gdelt.url (Gdelt.record r))) df) eqn:Hh.
  - split.
    + apply drop_duplicates_keys. now apply in_map.
    + apply drop_duplicates_keeps_first.
  - split; [reflexivity|]. now apply forallb_false_exists.
Qed.

(** A comment whose timestamp parses to an aware datetime in the range
    goes on to the record: its id is read, then its likes are counted. *)
Lemma comment_of_item_in_range
    (parse_isoformat : string -> outcome datetime) (v : Youtube.video)
    (start_date end_date : datetime) (item text likes : pyval) (s : string)
    (dt : datetime) :
  Youtube.comment_fields item = Ret (text, PStr s, likes) ->
  valid_datetime start_date = true -> is_aware start_date = true ->
  valid_datetime end_date = true -> is_aware end_date = true ->
  parse_isoformat (Youtube.replace_Z s) = Ret dt ->
  valid_datetime dt = true -> is_aware dt = true ->
  instant start_date <= instant dt <= instant end_date ->
  Youtube.comment_of_item parse_isoformat v start_date end_date item
  = (comment_id <- py_getitem item "id" ;;
     n <- py_int likes ;;
     Ret (Youtube.Kept (Youtube.mkcomment v comment_id text n (PStr s)))).
Proof.
  intros Hf Vs As Ve Ae Hp Vd Ad Hin. unfold Youtube.comment_of_item. rewrite Hf.
  cbn [bind Youtube.py_replace_Z]. rewrite Hp. cbn [bind try_except].
  rewrite dt_lt_aware by assumption. cbn [bind].
  destruct (Z.ltb_spec (instant dt) (instant start_date)) as [Hlt|Hge]; [lia|].
  rewrite dt_gt_aware by assumption.
  destruct (Z.ltb_spec (instant end_date) (instant dt)) as [Hgt|Hle]; [lia|].
  reflexivity.
Qed.

(** C5, as stated, fails: a timestamp without an offset parses, and the
    comparison of the naive datetime with the aware bounds raises
    [TypeError]; and a comment in range that has no id is not retained, the
    item raises [KeyError]. *)
Lemma comment_in_range_not_kept :
  fromisoformat (Youtube.replace_Z "2023-06-15T12:00:00") = Ret (naive 2023 6 15 12 0 0)
  /\ Youtube.comment_of_item fromisoformat (Mock.video "v" "k")
       (Mock.utc_datetime 2023 1 1 0 0 0) (Mock.utc_datetime 2023 12 31 23 59 59)
       (Mock.comment_item "c1" "hello" "2023-06-15T12:00:00" 3)
     = Raise TypeError
  /\ fromisoformat (Youtube.replace_Z "2023-06-15T12:00:00Z")
     = Ret (Mock.utc_datetime 2023 6 15 12 0 0)
  /\ Youtube.comment_of_item fromisoformat (Mock.video "v" "k")
       (Mock.utc_datetime 2023 1 1 0 0 0) (Mock.utc_datetime 2023 12 31 23 59 59)
       (Mock.comment_thread [] [("publishedAt"%string, PStr "2023-06-15T12:00:00Z")])
     = Raise KeyError.
Proof. repeat split; vm_compute; reflexivity. Qed.

(** C5, as amended.  For a comment whose three fields were read, and aware
    bounds: when the timestamp is no string or the parser raises on it, the
    comment is discarded; when it parses to an aware datetime, the comment
    is discarded if its instant is before the start or after the end, and
    otherwise (both bounds included) it goes on to the record, which is
    built when the item has an id and [int] accepts the likes count.  An
    article whose timestamp [strptime] rejects stays in the data frame with
    a null [published_at_iso]; unless a URL of the frame cannot be hashed,
    the deduplication keeps a row with its key, and keeps the row itself
    when it is the first row with its key. *)
Theorem comment_kept_iff_in_range
    (parse_isoformat : string -> outcome datetime) (v : Youtube.video)
    (start_date end_date : datetime) (item text published likes : pyval) :
  Youtube.comment_fields item = Ret (text, published, likes) ->
  valid_datetime start_date = true -> is_aware start_date = true ->
  valid_datetime end_date = true -> is_aware end_date = true ->
  ((forall s, published = PStr s -> exists e, parse_isoformat (Youtube.replace_Z s) = Raise e) ->
     Youtube.comment_of_item parse_isoformat v start_date end_date item
     = Ret Youtube.Skipped)
  /\ (forall s dt,
        published = PStr s -> parse_isoformat (Youtube.replace_Z s) = Ret dt ->
        valid_datetime dt = true -> is_aware dt = true ->
        (instant dt < instant start_date \/ instant end_date < instant dt ->
           Youtube.comment_of_item parse_isoformat v start_date end_date item
           = Ret Youtube.Skipped)
        /\ (instant start_date <= instant dt <= instant end_date ->
              Youtube.comment_of_item parse_isoformat v start_date end_date item
              = (comment_id <- py_getitem item "id" ;;
                 n <- py_int likes ;;
                 Ret (Youtube.Kept (Youtube.mkcomment v comment_id text n published)))))
  /\ (forall (C : Type) (C_eq_dec : forall a b : C, {a = b} + {a <> b})
             (cell_code : pyval -> C) all_records a,
        In a all_records ->
        (exists e, strptime (Gdelt.published_at a) = Raise e) ->
        exists df,
          Gdelt.add_published_at_iso all_records = Ret df
          /\ In (Gdelt.mkrow a None) df
          /\ match Gdelt.deduplicate C_eq_dec cell_code df with
             | Ret out =>
                 In (Gdelt.key cell_code (Gdelt.mkrow a None)) (map (Gdelt.key cell_code) out)
                 /\ (first_with_key (Gdelt.key cell_code) df (Gdelt.mkrow a None) ->
                     In (Gdelt.mkrow a None) out)
             | Raise e =>
                 e = TypeError
                 /\ exists r, In r df /\ hashable (Gdelt.url (Gdelt.record r)) = false
             | OutOfFuel => False
             end).
Proof.
  intros Hf Vs As Ve Ae. unfold Youtube.comment_of_item. rewrite Hf. cbn [bind].
  split; [|split].
  - intros Hp. destruct published; cbn [Youtube.py_replace_Z bind try_except]; try reflexivity.
    destruct (Hp s eq_refl) as [e ->]. reflexivity.
  - intros s dt -> Hp Vd Ad. cbn [Youtube.py_replace_Z bind]. rewrite Hp.
    cbn [bind try_except].
    rewrite dt_lt_aware by assumption. cbn [bind].
    destruct (Z.ltb_spec (instant dt) (instant start_date)) as [Hlt|Hge].
    + cbn [bind]. split; [reflexivity | lia].
    + rewrite dt_gt_aware by assumption.
      destruct (Z.ltb_spec (instant end_date) (instant dt)) as [Hgt|Hle]; cbn [bind].
      * split; [reflexivity | lia].
      * split; [lia | reflexivity].
  - intros C C_eq_dec cell_code. apply unparsed_article_kept.
Qed.

Lemma comment_kept_iff_in_range_witness :
  Youtube.comment_of_item fromisoformat (Mock.video "v" "k")
    (Mock.utc_datetime 2023 1 1 0 0 0) (Mock.utc_datetime 2023 12 31 23 59 59)
    (Mock.comment_item "c1" "hello" "2023-12-31T23:59:59Z" 3)
  = Ret (Youtube.Kept
           (Youtube.mkcomment (Mock.video "v" "k") (PStr "c1") (PStr "hello") 3
                              (PStr "2023-12-31T23:59:59Z"))).
Proof.
  refine (proj2 (proj1 (proj2
            (comment_kept_iff_in_range fromisoformat (Mock.video "v" "k")
               (Mock.utc_datetime 2023 1 1 0 0 0) (Mock.utc_datetime 2023 12 31 23 59 59)
               (Mock.comment_item "c1" "hello" "2023-12-31T23:59:59Z" 3)
               (PStr "hello") (PStr "2023-12-31T23:59:59Z") (PInt 3)
               eq_refl eq_refl eq_refl eq_refl eq_refl))
            "2023-12-31T23:59:59Z"%string (Mock.utc_datetime 2023 12 31 23 59 59)
            eq_refl eq_refl eq_refl eq_refl) _).
  split; vm_compute; discriminate.
Defined.


(** ** The defaults of the record normalisation *)

(** C3, as stated, fails on the comment path: an item without its nested
    snippet, a comment in range without an id, and a likes count that [int]
    rejects each raise out of the loop body. *)
Lemma comment_of_item_raises :
  Youtube.comment_of_item fromisoformat (Mock.video "v" "k")
    (Mock.utc_datetime 2023 1 1 0 0 0) (Mock.utc_datetime 2023 12 31 23 59 59)
    (PDict [("id"%string, PStr "c1")])
  = Raise KeyError
  /\ Youtube.comment_of_item fromisoformat (Mock.video "v" "k")
       (Mock.utc_datetime 2023 1 1 0 0 0) (Mock.utc_datetime 2023 12 31 23 59 59)
       (Mock.comment_thread [] [("publishedAt"%string, PStr "2023-06-15T12:00:00Z")])
     = Raise KeyError
  /\ Youtube.comment_of_item fromisoformat (Mock.video "v" "k")
       (Mock.utc_datetime 2023 1 1 0 0 0) (Mock.utc_datetime 2023 12 31 23 59 59)
       (Mock.comment_thread [("id"%string, PStr "c1")]
          [("publishedAt"%string, PStr "2023-06-15T12:00:00Z"); ("likeCount"%string, PStr "many")])
     = Raise ValueError.
Proof. repeat split; vm_compute; reflexivity. Qed.

(** C3, as amended.  On the article path a dict always gives a record, each
    absent field taking its default, and adding the normalised timestamp
    never raises.  On the video and comment paths the fields read with
    [get] take their defaults (the empty string, 0 for the likes) when
    absent, while the ids and the nested snippets are read by subscript:
    a search result without its id or snippet and a comment without its
    nested snippet raise [KeyError]; a comment in the range raises
    [KeyError] when it has no id, and otherwise raises what [int] raises on
    its likes count, as [int] does on [None] and on a word. *)
Theorem normalization_defaults :
  (forall keyword art,
     Gdelt.article_record keyword (PDict art) = Ret (article_of keyword art))
  /\ (forall keyword arts,
        map_outcome (Gdelt.article_record keyword) (map PDict arts)
        = Ret (map (article_of keyword) arts))
  /\ (forall all_records,
        exists df, Gdelt.add_published_at_iso all_records = Ret df
                   /\ map Gdelt.record df = all_records)
  /\ (forall keyword item id snippet video_id,
        assoc "id" item = Some (PDict id) ->
        assoc "videoId" id = Some video_id ->
        assoc "snippet" item = Some (PDict snippet) ->
        Youtube.video_of_item keyword (PDict item)
        = Ret (Youtube.mkvideo video_id (dict_get snippet "title" (PStr ""))
                               (dict_get snippet "channelTitle" (PStr ""))
                               (dict_get snippet "publishedAt" (PStr "")) keyword))
  /\ (forall keyword item, assoc "id" item = None ->
        Youtube.video_of_item keyword (PDict item) = Raise KeyError)
  /\ (forall keyword item id video_id,
        assoc "id" item = Some (PDict id) -> assoc "videoId" id = Some video_id ->
        assoc "snippet" item = None ->
        Youtube.video_of_item keyword (PDict item) = Raise KeyError)
  /\ (forall item s0 top snippet,
        assoc "snippet" item = Some (PDict s0) ->
        assoc "topLevelComment" s0 = Some (PDict top) ->
        assoc "snippet" top = Some (PDict snippet) ->
        Youtube.comment_fields (PDict item)
        = Ret (dict_get snippet "textDisplay" (PStr ""),
               dict_get snippet "publishedAt" (PStr ""),
               dict_get snippet "likeCount" (PInt 0)))
  /\ (forall parse_isoformat v start_date end_date item,
        assoc "snippet" item = None ->
        Youtube.comment_of_item parse_isoformat v start_date end_date (PDict item)
        = Raise KeyError)
  /\ (forall parse_isoformat v start_date end_date item text likes s dt,
        Youtube.comment_fields (PDict item) = Ret (text, PStr s, likes) ->
        valid_datetime start_date = true -> is_aware start_date = true ->
        valid_datetime end_date = true -> is_aware end_date = true ->
        parse_isoformat (Youtube.replace_Z s) = Ret dt ->
        valid_datetime dt = true -> is_aware dt = true ->
        instant start_date <= instant dt <= instant end_date ->
        (assoc "id" item = None ->
         Youtube.comment_of_item parse_isoformat v start_date end_date (PDict item)
         = Raise KeyError)
        /\ (forall comment_id e,
              assoc "id" item = Some comment_id -> py_int likes = Raise e ->
              Youtube.comment_of_item parse_isoformat v start_date end_date (PDict item)
              = Raise e)
        /\ (forall comment_id n,
              assoc "id" item = Some comment_id -> py_int likes = Ret n ->
              Youtube.comment_of_item parse_isoformat v start_date end_date (PDict item)
              = Ret (Youtube.Kept (Youtube.mkcomment v comment_id text n (PStr s)))))
  /\ py_int PNone = Raise TypeError
  /\ py_int (PStr "many") = Raise ValueError.
Proof.
  split; [reflexivity|].
  split; [exact article_records_of_dicts|].
  split.
  { intros all_records. destruct (add_published_at_iso_total all_records) as (df & E & Hm & _).
    eauto. }
  split; [exact video_of_item_fields|].
  split.
  { intros keyword item E. unfold Youtube.video_of_item.
    now rewrite (py_getitem_missing _ _ E). }
  split.
  { intros keyword item id video_id E1 E2 E3. unfold Youtube.video_of_item.
    rewrite (py_getitem_dict _ _ _ E1). cbn [bind].
    rewrite (py_getitem_dict _ _ _ E2). cbn [bind].
    now rewrite (py_getitem_missing _ _ E3). }
  split; [exact comment_fields_defaults|].
  split.
  { intros parse v sd ed item E. unfold Youtube.comment_of_item, Youtube.comment_fields.
    rewrite (py_getitem_missing _ _ E). reflexivity. }
  split; [|split; vm_compute; reflexivity].
  intros parse v sd ed item text likes s dt Hf Vs As Ve Ae Hp Vd Ad Hin.
  rewrite (comment_of_item_in_range parse v sd ed (PDict item) text likes s dt)
    by assumption.
  split; [|split].
  - intros E. now rewrite (py_getitem_missing _ _ E).
  - intros comment_id e E Hi. rewrite (py_getitem_dict _ _ _ E). cbn [bind].
    now rewrite Hi.
  - intros comment_id n E Hi. rewrite (py_getitem_dict _ _ _ E). cbn [bind].
    now rewrite Hi.
Qed.


(** ** The page loops *)

Lemma map_outcome_app {A B : Type} (f : A -> outcome B) (l1 l2 : list A) (bs : list B) :
  map_outcome f (l1 ++ l2) = Ret bs ->
  exists b1 b2, map_outcome f l1 = Ret b1 /\ map_outcome f l2 = Ret b2 /\ bs = b1 ++ b2.
Proof.
  revert bs. induction l1 as [|a l1 IH]; intros bs; cbn [app map_outcome].
  - intros E. exists [], bs. auto.
  - destruct (f a) as [b| |]; cbn [bind]; try discriminate.
    destruct (map_outcome f (l1 ++ l2)) as [bs'| |] eqn:E; cbn [bind]; try discriminate.
    intros E'. inversion E'; subst.
    destruct (IH _ eq_refl) as (b1 & b2 & -> & -> & ->).
    exists (b :: b1), b2. auto.
Qed.

Lemma map_outcome_length {A B : Type} (f : A -> outcome B) (l : list A) (bs : list B) :
  map_outcome f l = Ret bs -> List.length bs = List.length l.
Proof.
  revert bs. induction l as [|a l IH]; intros bs; cbn [map_outcome].
  - intros E. now inversion E.
  - destruct (f a) as [b| |]; cbn [bind]; try discriminate.
    destruct (map_outcome f l) as [bs'| |]; cbn [bind]; try discriminate.
    intros E. inversion E. cbn [List.length]. now rewrite (IH _ eq_refl).
Qed.

Lemma firstn_app_cap {A : Type} (n : Z) (a b : list A) :
  firstn (Z.to_nat n) (a ++ b)
  = firstn (Z.to_nat n) a
    ++ firstn (Z.to_nat (n - Z.of_nat (List.length (firstn (Z.to_nat n) a)))) b.
Proof.
  rewrite firstn_app, length_firstn. f_equal.
  destruct (Nat.le_gt_cases (Z.to_nat n) (List.length a)) as [H|H].
  - rewrite Nat.min_l by assumption.
    replace (Z.to_nat n - List.length a)%nat with O by lia.
    replace (Z.to_nat (n - Z.of_nat (Z.to_nat n))) with O by lia. reflexivity.
  - rewrite Nat.min_r by lia. f_equal. lia.
Qed.

(** *** The videos of a page *)

(** The item loop of [search_videos] on items that all give a video:
    the videos are appended up to the cap. *)
Lemma search_items_spec (keyword : string) (cap : Z) (items : list pyval) :
  forall (vs acc : list Youtube.video) (c : Z),
    map_outcome (Youtube.video_of_item keyword) items = Ret vs ->
    c < cap ->
    Youtube.search_items keyword cap items acc c
    = Ret (acc ++ firstn (Z.to_nat (cap - c)) vs,
           c + Z.of_nat (List.length (firstn (Z.to_nat (cap - c)) vs))).
Proof.
  induction items as [|item items IH]; intros vs acc c; cbn [map_outcome Youtube.search_items].
  - intros E Hc. inversion E. rewrite firstn_nil, app_nil_r. cbn [List.length].
    do 2 f_equal. lia.
  - destruct (Youtube.video_of_item keyword item) as [v| |]; cbn [bind]; try discriminate.
    destruct (map_outcome (Youtube.video_of_item keyword) items) as [vs'| |] eqn:E';
      cbn [bind]; try discriminate.
    intros E Hc. inversion E; subst.
    replace (Z.to_nat (cap - c)) with (S (Z.to_nat (cap - (c + 1)))) by lia.
    cbn [firstn List.length].
    destruct (Z.geb_spec (c + 1) cap) as [Hge|Hlt].
    + replace (Z.to_nat (cap - (c + 1))) with O by lia. cbn [firstn List.length].
      reflexivity.
    + rewrite (IH vs' (acc ++ [v]) (c + 1) eq_refl Hlt).
      rewrite <- app_assoc. cbn [app]. do 2 f_equal. lia.
Qed.

(** Whatever the items are, the item loop only appends, counts what it
    appends, and stops at the cap. *)
Lemma search_items_bound (keyword : string) (cap : Z) (items : list pyval) :
  forall (acc acc' : list Youtube.video) (c c' : Z),
    Youtube.search_items keyword cap items acc c = Ret (acc', c') ->
    c < cap ->
    exists new, acc' = acc ++ new /\ c' = c + Z.of_nat (List.length new) /\ c' <= cap.
Proof.
  induction items as [|item items IH]; intros acc acc' c c'; cbn [Youtube.search_items].
  - intros E Hc. inversion E; subst. exists []. rewrite app_nil_r. cbn. split; [easy|lia].
  - destruct (Youtube.video_of_item keyword item) as [v| |]; cbn [bind]; try discriminate.
    destruct (Z.geb_spec (c + 1) cap) as [Hge|Hlt]; intros E Hc.
    + inversion E; subst. exists [v]. cbn [List.length]. split; [easy|lia].
    + destruct (IH _ _ _ _ E Hlt) as (new & -> & -> & Hle).
      exists (v :: new). rewrite <- app_assoc. cbn [app List.length]. split; [easy|lia].
Qed.

Lemma page_items_get (p : list (string * pyval)) :
  Youtube.items_listed p = true ->
  py_get (PDict p) "items" (PList []) = Ret (PList (Youtube.page_items p)).
Proof.
  unfold Youtube.items_listed, Youtube.page_items, py_get, dict_get.
  destruct (assoc "items" p) as [[]|]; try discriminate; reflexivity.
Qed.

Lemma page_token_get (p : list (string * pyval)) :
  py_get (PDict p) "nextPageToken" PNone = Ret (Youtube.page_token p).
Proof. reflexivity. Qed.

Lemma pages_requested_capped (cap c1 c2 : Z) (counts : list nat) :
  c1 = c2 \/ (cap <= c1 /\ cap <= c2) ->
  pages_requested cap c1 counts = pages_requested cap c2 counts.
Proof.
  intros [->|[H1 H2]]; [reflexivity|]. destruct counts; cbn [pages_requested]; [reflexivity|].
  destruct (Z.ltb_spec c1 cap), (Z.ltb_spec c2 cap); first [lia | reflexivity].
Qed.

Lemma pages_requested_le (cap c : Z) (counts : list nat) :
  (pages_requested cap c counts <= List.length counts)%nat.
Proof.
  revert c. induction counts as [|k counts IH]; intros c; cbn [pages_requested List.length].
  - lia.
  - destruct (c <? cap); [|lia]. specialize (IH (c + Z.of_nat k)). lia.
Qed.

(** All the pages are asked for exactly when the cap is not reached
    before the last one. *)
Lemma pages_requested_all (cap c : Z) (counts : list nat) :
  counts <> [] ->
  (pages_requested cap c counts = List.length counts
   <-> c + Z.of_nat (list_sum (removelast counts)) < cap).
Proof.
  unfold list_sum.
  revert c. induction counts as [|k counts IH]; intros c Hne; [congruence|].
  cbn [pages_requested List.length]. destruct counts as [|k' counts].
  - cbn [removelast fold_right pages_requested List.length].
    destruct (Z.ltb_spec c cap); split; intros H'; try lia; try discriminate;
      try reflexivity.
  - assert (Hne' : k' :: counts <> []) by discriminate.
    specialize (IH (c + Z.of_nat k) Hne').
    change (removelast (k :: k' :: counts)) with (k :: removelast (k' :: counts)).
    cbn [fold_right]. destruct (Z.ltb_spec c cap); split; intros H'.
    + assert (c + Z.of_nat k
              + Z.of_nat (fold_right Nat.add 0%nat (removelast (k' :: counts))) < cap)
        by (apply IH; lia). lia.
    + f_equal. apply IH. lia.
    + discriminate.
    + pose proof (Nat2Z.is_nonneg
                    (k + fold_right Nat.add 0%nat (removelast (k' :: counts)))). lia.
Qed.

Section SearchRuns.
Context {U : Type}.
Variable execute : U -> Youtube.request -> outcome pyval * U.
Variables keyword start_date end_date : string.
Variable cap : Z.

Local Abbreviation request_with := (Youtube.SearchList keyword start_date end_date).
Local Abbreviation loop := (Youtube.search_pages execute).

(** One step of the loop on a page that is served. *)
Lemma search_pages_step (fuel : nat) (token : pyval) (st : Youtube.search_state U)
    (p : list (string * pyval)) (u' : U) (vs : list Youtube.video) :
  Youtube.collected st < cap ->
  execute (Youtube.client st) (request_with token) = (Ret (PDict p), u') ->
  Youtube.items_listed p = true ->
  map_outcome (Youtube.video_of_item keyword) (Youtube.page_items p) = Ret vs ->
  let taken := firstn (Z.to_nat (cap - Youtube.collected st)) vs in
  let st' := Youtube.mksearch (Youtube.all_videos st ++ taken)
                              (Youtube.collected st + Z.of_nat (List.length taken))
                              (Youtube.sent st ++ [request_with token]) u' in
  loop (S fuel) keyword start_date end_date cap token st
  = if py_truthy (Youtube.page_token p)
    then loop fuel keyword start_date end_date cap (Youtube.page_token p) st'
    else Ret st'.
Proof.
  intros Hc He Hl Hv. cbn zeta. cbn [Youtube.search_pages].
  destruct (Z.ltb_spec (Youtube.collected st) cap); [|lia].
  rewrite He. rewrite (page_items_get p Hl). cbn [bind py_iter].
  rewrite (search_items_spec _ _ _ _ _ _ Hv Hc). cbn [bind].
  rewrite page_token_get. cbn [bind].
  now destruct (py_truthy (Youtube.page_token p)).
Qed.

(** The loop on a run of pages of which the last has no token. *)
Lemma search_pages_run (pages : list (list (string * pyval))) :
  forall (fuel : nat) (token : pyval) (st : Youtube.search_state U) (u_end : U)
         (vs : list Youtube.video),
    serves execute request_with (Youtube.client st) token pages u_end ->
    last_is_final pages ->
    Forall (fun p => Youtube.items_listed p = true) pages ->
    map_outcome (Youtube.video_of_item keyword) (flat_map Youtube.page_items pages) = Ret vs ->
    (List.length pages < fuel)%nat ->
    exists st',
      loop fuel keyword start_date end_date cap token st = Ret st'
      /\ Youtube.all_videos st'
         = Youtube.all_videos st ++ firstn (Z.to_nat (cap - Youtube.collected st)) vs
      /\ Youtube.collected st'
         = Youtube.collected st
           + Z.of_nat (List.length (firstn (Z.to_nat (cap - Youtube.collected st)) vs))
      /\ Youtube.sent st'
         = Youtube.sent st
           ++ firstn (pages_requested cap (Youtube.collected st)
                        (map (fun p => List.length (Youtube.page_items p)) pages))
                     (requests_for request_with token pages).
Proof.
  induction pages as [|p rest IH]; intros fuel token st u_end vs Hs Hf Hl Hv Hfuel;
    [destruct Hf|].
  destruct fuel as [|fuel]; [cbn [List.length] in Hfuel; lia|].
  cbn [map pages_requested requests_for].
  destruct (Z.ltb_spec (Youtube.collected st) cap) as [Hc|Hc].
  - cbn [serves] in Hs. destruct Hs as (u' & He & Hs).
    inversion Hl as [|? ? Hlp Hlr]; subst.
    cbn [flat_map] in Hv. apply map_outcome_app in Hv as (v1 & v2 & Hv1 & Hv2 & ->).
    rewrite (search_pages_step fuel token st p u' v1 Hc He Hlp Hv1). cbn zeta.
    destruct rest as [|p2 rest].
    + cbn [last_is_final] in Hf. rewrite Hf.
      cbn [flat_map map_outcome] in Hv2. inversion Hv2; subst.
      eexists. split; [reflexivity|].
      cbn [Youtube.all_videos Youtube.collected Youtube.sent map pages_requested
           requests_for firstn].
      rewrite app_nil_r. auto.
    + destruct Hf as [Ht Hf]. rewrite Ht.
      match goal with
      | |- context [loop fuel _ _ _ _ _ ?s] =>
          destruct (IH fuel (Youtube.page_token p) s u_end v2 Hs Hf Hlr Hv2
                       ltac:(cbn [List.length] in *; lia))
            as (st' & E & Ha & Hcount & Hsent)
      end.
      exists st'. split; [exact E|].
      cbn [Youtube.all_videos Youtube.collected Youtube.sent] in Ha, Hcount, Hsent.
      rewrite Ha, Hcount, Hsent. rewrite firstn_app_cap, length_app.
      replace (cap - (Youtube.collected st
                      + Z.of_nat (List.length (firstn (Z.to_nat (cap - Youtube.collected st)) v1))))
        with (cap - Youtube.collected st
              - Z.of_nat (List.length (firstn (Z.to_nat (cap - Youtube.collected st)) v1)))
        by lia.
      rewrite <- !app_assoc. cbn [app firstn].
      split; [reflexivity|]. split; [lia|].
      do 3 f_equal. apply pages_requested_capped.
      rewrite <- (map_outcome_length _ _ _ Hv1), length_firstn. lia.
  - destruct fuel; cbn [Youtube.search_pages];
      (destruct (Z.ltb_spec (Youtube.collected st) cap); [lia|]);
      (eexists; split; [reflexivity|]);
      (replace (Z.to_nat (cap - Youtube.collected st)) with O by lia);
      cbn [firstn List.length]; rewrite !app_nil_r; (split; [reflexivity|]);
      (split; [lia | reflexivity]).
Qed.

(** Whatever the client answers, a run of the loop only appends videos,
    counts them, and does not pass the cap. *)
Lemma search_pages_bound (fuel : nat) :
  forall (token : pyval) (st st' : Youtube.search_state U),
    loop fuel keyword start_date end_date cap token st = Ret st' ->
    exists new,
      Youtube.all_videos st' = Youtube.all_videos st ++ new
      /\ Youtube.collected st' = Youtube.collected st + Z.of_nat (List.length new)
      /\ Youtube.collected st' <= Z.max (Youtube.collected st) cap.
Proof.
  induction fuel as [|fuel IH]; intros token st st'; cbn [Youtube.search_pages];
    [discriminate|].
  destruct (Z.ltb_spec (Youtube.collected st) cap) as [Hc|Hc].
  - destruct (execute (Youtube.client st) (request_with token)) as [[response|e|] u'];
      [| |discriminate].
    + destruct (py_get response "items" (PList [])) as [items_v| |]; cbn [bind];
        try discriminate.
      destruct (py_iter items_v) as [items| |]; cbn [bind]; try discriminate.
      destruct (Youtube.search_items keyword cap items (Youtube.all_videos st)
                  (Youtube.collected st)) as [[acc' c']| |] eqn:Ei; cbn [bind];
        try discriminate.
      destruct (search_items_bound _ _ _ _ _ _ _ Ei Hc) as (new1 & -> & -> & Hle).
      destruct (py_get response "nextPageToken" PNone) as [tok'| |]; cbn [bind];
        try discriminate.
      destruct (py_truthy tok'); cbn [negb].
      * intros E. apply IH in E as (new2 & Ea & Ec & Hle2).
        cbn [Youtube.all_videos Youtube.collected] in Ea, Ec, Hle2.
        exists (new1 ++ new2). rewrite Ea, Ec, length_app, <- app_assoc.
        split; [reflexivity|]. split; lia.
      * intros E. inversion E; subst. cbn [Youtube.all_videos Youtube.collected].
        exists new1. split; [reflexivity|]. split; lia.
    + intros E. inversion E; subst. cbn [Youtube.all_videos Youtube.collected].
      exists []. rewrite app_nil_r. cbn [List.length]. split; [reflexivity|]. split; lia.
  - intros E. inversion E; subst. exists []. rewrite app_nil_r. cbn [List.length].
    split; [reflexivity|]. split; lia.
Qed.

(** A request that fails ends the loop with what was accumulated. *)
Lemma search_pages_failure (fuel : nat) (token : pyval) (st : Youtube.search_state U)
    (e : exn) (u' : U) :
  Youtube.collected st < cap ->
  execute (Youtube.client st) (request_with token) = (Raise e, u') ->
  loop (S fuel) keyword start_date end_date cap token st
  = Ret (Youtube.mksearch (Youtube.all_videos st) (Youtube.collected st)
                          (Youtube.sent st ++ [request_with token]) u').
Proof.
  intros Hc He. cbn [Youtube.search_pages].
  destruct (Z.ltb_spec (Youtube.collected st) cap); [|lia]. now rewrite He.
Qed.

(** The loop on pages that all carry a token, below the cap: it goes
    through all of them. *)
Lemma search_pages_prefix (pages : list (list (string * pyval))) :
  forall (fuel : nat) (token : pyval) (st : Youtube.search_state U) (u_end : U)
         (vs : list Youtube.video),
    serves execute request_with (Youtube.client st) token pages u_end ->
    all_continue pages ->
    Forall (fun p => Youtube.items_listed p = true) pages ->
    map_outcome (Youtube.video_of_item keyword) (flat_map Youtube.page_items pages) = Ret vs ->
    Youtube.collected st + Z.of_nat (List.length vs) < cap ->
    loop (List.length pages + fuel) keyword start_date end_date cap token st
    = loop fuel keyword start_date end_date cap (token_after token pages)
           (Youtube.mksearch (Youtube.all_videos st ++ vs)
                             (Youtube.collected st + Z.of_nat (List.length vs))
                             (Youtube.sent st ++ requests_for request_with token pages)
                             u_end).
Proof.
  induction pages as [|p rest IH]; intros fuel token st u_end vs Hs Hc Hl Hv Hcap.
  - cbn [serves] in Hs. subst u_end. cbn [flat_map map_outcome] in Hv. inversion Hv; subst.
    cbn [List.length Nat.add token_after requests_for]. rewrite !app_nil_r, Z.add_0_r.
    now destruct st.
  - cbn [serves] in Hs. destruct Hs as (u' & He & Hs).
    inversion Hc as [|? ? Ht Hc']; subst. inversion Hl as [|? ? Hlp Hlr]; subst.
    cbn [flat_map] in Hv. apply map_outcome_app in Hv as (v1 & v2 & Hv1 & Hv2 & ->).
    rewrite length_app in Hcap.
    cbn [List.length Nat.add token_after requests_for].
    rewrite (search_pages_step (List.length rest + fuel) token st p u' v1
               ltac:(lia) He Hlp Hv1). cbn zeta. rewrite Ht.
    rewrite firstn_all2 by lia.
    match goal with
    | |- context [loop _ _ _ _ _ _ ?s] => rewrite (IH fuel (Youtube.page_token p) s u_end v2)
    end; try assumption.
    + cbn [Youtube.all_videos Youtube.collected Youtube.sent].
      rewrite <- !app_assoc, length_app. cbn [app]. do 2 f_equal. lia.
    + cbn [Youtube.collected]. lia.
Qed.
End SearchRuns.

(** *** The comments of a page *)

Lemma kept_app (r1 r2 : list Youtube.item_result) : kept (r1 ++ r2) = kept r1 ++ kept r2.
Proof. unfold kept. apply flat_map_app. Qed.

Section CommentRuns.
Context {U : Type}.
Variable execute : U -> Youtube.request -> outcome pyval * U.
Variable parse_isoformat : string -> outcome datetime.
Variable v : Youtube.video.
Variables start_date end_date : datetime.
Variable cap : Z.

Local Abbreviation request_with := (Youtube.CommentThreadsList (Youtube.video_id v)).
Local Abbreviation loop := (Youtube.comment_pages execute parse_isoformat).
Local Abbreviation of_item := (Youtube.comment_of_item parse_isoformat v start_date end_date).
Local Abbreviation item_loop := (Youtube.comment_items parse_isoformat v start_date end_date).

(** The item loop of [fetch_comments_for_video] on items that all give a
    result: the kept comments are appended up to the cap. *)
Lemma comment_items_spec (items : list pyval) :
  forall (rs : list Youtube.item_result) (acc : list Youtube.comment) (c : Z),
    map_outcome of_item items = Ret rs ->
    c < cap ->
    item_loop cap items acc c
    = Ret (acc ++ firstn (Z.to_nat (cap - c)) (kept rs),
           c + Z.of_nat (List.length (firstn (Z.to_nat (cap - c)) (kept rs)))).
Proof.
  induction items as [|item items IH]; intros rs acc c;
    cbn [map_outcome Youtube.comment_items].
  - intros E Hc. inversion E. cbn [kept flat_map]. rewrite firstn_nil, app_nil_r.
    cbn [List.length]. do 2 f_equal. lia.
  - destruct (of_item item) as [r| |]; cbn [bind]; try discriminate.
    destruct (map_outcome of_item items) as [rs'| |] eqn:E'; cbn [bind]; try discriminate.
    intros E Hc. inversion E; subst. destruct r as [|cm].
    + cbn [kept flat_map app]. now apply IH.
    + change (kept (Youtube.Kept cm :: rs')) with (cm :: kept rs').
      replace (Z.to_nat (cap - c)) with (S (Z.to_nat (cap - (c + 1)))) by lia.
      cbn [firstn List.length].
      destruct (Z.geb_spec (c + 1) cap) as [Hge|Hlt].
      * replace (Z.to_nat (cap - (c + 1))) with O by lia. cbn [firstn List.length].
        reflexivity.
      * rewrite (IH rs' (acc ++ [cm]) (c + 1) eq_refl Hlt).
        rewrite <- app_assoc. cbn [app]. do 2 f_equal. lia.
Qed.

Lemma comment_items_bound (items : list pyval) :
  forall (acc acc' : list Youtube.comment) (c c' : Z),
    item_loop cap items acc c = Ret (acc', c') ->
    c < cap ->
    exists new, acc' = acc ++ new /\ c' = c + Z.of_nat (List.length new) /\ c' <= cap.
Proof.
  induction items as [|item items IH]; intros acc acc' c c'; cbn [Youtube.comment_items].
  - intros E Hc. inversion E; subst. exists []. rewrite app_nil_r. cbn. split; [easy|lia].
  - destruct (of_item item) as [[|cm]| |]; cbn [bind]; try discriminate.
    + apply IH.
    + destruct (Z.geb_spec (c + 1) cap) as [Hge|Hlt]; intros E Hc.
      * inversion E; subst. exists [cm]. cbn [List.length]. split; [easy|lia].
      * destruct (IH _ _ _ _ E Hlt) as (new & -> & -> & Hle).
        exists (cm :: new). rewrite <- app_assoc. cbn [app List.length]. split; [easy|lia].
Qed.

Lemma comment_pages_step (fuel : nat) (token : pyval) (st : Youtube.comments_state U)
    (p : list (string * pyval)) (u' : U) (rs : list Youtube.item_result) :
  Youtube.fetched st < cap ->
  execute (Youtube.service st) (request_with token) = (Ret (PDict p), u') ->
  Youtube.items_listed p = true ->
  map_outcome of_item (Youtube.page_items p) = Ret rs ->
  let taken := firstn (Z.to_nat (cap - Youtube.fetched st)) (kept rs) in
  let st' := Youtube.mkcomments (Youtube.comments st ++ taken)
                                (Youtube.fetched st + Z.of_nat (List.length taken))
                                (Youtube.requested st ++ [request_with token]) u' in
  loop (S fuel) v start_date end_date cap token st
  = if py_truthy (Youtube.page_token p)
    then loop fuel v start_date end_date cap (Youtube.page_token p) st'
    else Ret st'.
Proof.
  intros Hc He Hl Hv. cbn zeta. cbn [Youtube.comment_pages].
  destruct (Z.ltb_spec (Youtube.fetched st) cap); [|lia].
  rewrite He. rewrite (page_items_get p Hl). cbn [bind py_iter].
  rewrite (comment_items_spec _ _ _ _ Hv Hc). cbn [bind].
  rewrite page_token_get. cbn [bind].
  now destruct (py_truthy (Youtube.page_token p)).
Qed.

Local Abbreviation page_results := (page_results parse_isoformat v start_date end_date).

Lemma comment_pages_run (pages : list (list (string * pyval))) :
  forall (fuel : nat) (token : pyval) (st : Youtube.comments_state U) (u_end : U)
         (results : list (list Youtube.item_result)),
    serves execute request_with (Youtube.service st) token pages u_end ->
    last_is_final pages ->
    Forall (fun p => Youtube.items_listed p = true) pages ->
    page_results pages results ->
    (List.length pages < fuel)%nat ->
    exists st',
      loop fuel v start_date end_date cap token st = Ret st'
      /\ Youtube.comments st'
         = Youtube.comments st
           ++ firstn (Z.to_nat (cap - Youtube.fetched st)) (flat_map kept results)
      /\ Youtube.fetched st'
         = Youtube.fetched st
           + Z.of_nat (List.length (firstn (Z.to_nat (cap - Youtube.fetched st))
                                           (flat_map kept results)))
      /\ Youtube.requested st'
         = Youtube.requested st
           ++ firstn (pages_requested cap (Youtube.fetched st)
                        (map (fun rs => List.length (kept rs)) results))
                     (requests_for request_with token pages).
Proof.
  induction pages as [|p rest IH]; intros fuel token st u_end results Hs Hf Hl Hv Hfuel;
    [destruct Hf|].
  destruct fuel as [|fuel]; [cbn [List.length] in Hfuel; lia|].
  inversion Hv as [|? rs ? results' Hv1 Hv2]; subst.
  cbn [map pages_requested requests_for flat_map].
  destruct (Z.ltb_spec (Youtube.fetched st) cap) as [Hc|Hc].
  - cbn [serves] in Hs. destruct Hs as (u' & He & Hs).
    inversion Hl as [|? ? Hlp Hlr]; subst.
    rewrite (comment_pages_step fuel token st p u' rs Hc He Hlp Hv1). cbn zeta.
    destruct rest as [|p2 rest].
    + cbn [last_is_final] in Hf. rewrite Hf. inversion Hv2; subst.
      eexists. split; [reflexivity|].
      cbn [Youtube.comments Youtube.fetched Youtube.requested map pages_requested
           requests_for firstn flat_map].
      rewrite !app_nil_r. auto.
    + destruct Hf as [Ht Hf]. rewrite Ht.
      match goal with
      | |- context [loop fuel _ _ _ _ _ ?s] =>
          destruct (IH fuel (Youtube.page_token p) s u_end results' Hs Hf Hlr Hv2
                       ltac:(cbn [List.length] in *; lia))
            as (st' & E & Ha & Hcount & Hsent)
      end.
      exists st'. split; [exact E|].
      cbn [Youtube.comments Youtube.fetched Youtube.requested] in Ha, Hcount, Hsent.
      rewrite Ha, Hcount, Hsent. rewrite firstn_app_cap, length_app.
      replace (cap - (Youtube.fetched st
                      + Z.of_nat (List.length (firstn (Z.to_nat (cap - Youtube.fetched st))
                                                      (kept rs)))))
        with (cap - Youtube.fetched st
              - Z.of_nat (List.length (firstn (Z.to_nat (cap - Youtube.fetched st))
                                              (kept rs))))
        by lia.
      rewrite <- !app_assoc. cbn [app firstn].
      split; [reflexivity|]. split; [lia|].
      do 3 f_equal. apply pages_requested_capped.
      rewrite length_firstn. lia.
  - destruct fuel; cbn [Youtube.comment_pages];
      (destruct (Z.ltb_spec (Youtube.fetched st) cap); [lia|]);
      (eexists; split; [reflexivity|]);
      (replace (Z.to_nat (cap - Youtube.fetched st)) with O by lia);
      cbn [firstn List.length]; rewrite !app_nil_r; (split; [reflexivity|]);
      (split; [lia | reflexivity]).
Qed.

Lemma comment_pages_bound (fuel : nat) :
  forall (token : pyval) (st st' : Youtube.comments_state U),
    loop fuel v start_date end_date cap token st = Ret st' ->
    exists new,
      Youtube.comments st' = Youtube.comments st ++ new
      /\ Youtube.fetched st' = Youtube.fetched st + Z.of_nat (List.length new)
      /\ Youtube.fetched st' <= Z.max (Youtube.fetched st) cap.
Proof.
  induction fuel as [|fuel IH]; intros token st st'; cbn [Youtube.comment_pages];
    [discriminate|].
  destruct (Z.ltb_spec (Youtube.fetched st) cap) as [Hc|Hc].
  - destruct (execute (Youtube.service st) (request_with token)) as [[response|e|] u'];
      [| |discriminate].
    + destruct (py_get response "items" (PList [])) as [items_v| |]; cbn [bind];
        try discriminate.
      destruct (py_iter items_v) as [items| |]; cbn [bind]; try discriminate.
      destruct (item_loop cap items (Youtube.comments st) (Youtube.fetched st))
        as [[acc' c']| |] eqn:Ei; cbn [bind]; try discriminate.
      destruct (comment_items_bound _ _ _ _ _ Ei Hc) as (new1 & -> & -> & Hle).
      destruct (py_get response "nextPageToken" PNone) as [tok'| |]; cbn [bind];
        try discriminate.
      destruct (py_truthy tok'); cbn [negb].
      * intros E. apply IH in E as (new2 & Ea & Ec & Hle2).
        cbn [Youtube.comments Youtube.fetched] in Ea, Ec, Hle2.
        exists (new1 ++ new2). rewrite Ea, Ec, length_app, <- app_assoc.
        split; [reflexivity|]. split; lia.
      * intros E. inversion E; subst. cbn [Youtube.comments Youtube.fetched].
        exists new1. split; [reflexivity|]. split; lia.
    + intros E. inversion E; subst. cbn [Youtube.comments Youtube.fetched].
      exists []. rewrite app_nil_r. cbn [List.length]. split; [reflexivity|]. split; lia.
  - intros E. inversion E; subst. exists []. rewrite app_nil_r. cbn [List.length].
    split; [reflexivity|]. split; lia.
Qed.

Lemma comment_pages_failure (fuel : nat) (token : pyval) (st : Youtube.comments_state U)
    (e : exn) (u' : U) :
  Youtube.fetched st < cap ->
  execute (Youtube.service st) (request_with token) = (Raise e, u') ->
  loop (S fuel) v start_date end_date cap token st
  = Ret (Youtube.mkcomments (Youtube.comments st) (Youtube.fetched st)
                            (Youtube.requested st ++ [request_with token]) u').
Proof.
  intros Hc He. cbn [Youtube.comment_pages].
  destruct (Z.ltb_spec (Youtube.fetched st) cap); [|lia]. now rewrite He.
Qed.

Lemma comment_pages_prefix (pages : list (list (string * pyval))) :
  forall (fuel : nat) (token : pyval) (st : Youtube.comments_state U) (u_end : U)
         (results : list (list Youtube.item_result)),
    serves execute request_with (Youtube.service st) token pages u_end ->
    all_continue pages ->
    Forall (fun p => Youtube.items_listed p = true) pages ->
    page_results pages results ->
    Youtube.fetched st + Z.of_nat (List.length (flat_map kept results)) < cap ->
    loop (List.length pages + fuel) v start_date end_date cap token st
    = loop fuel v start_date end_date cap (token_after token pages)
           (Youtube.mkcomments (Youtube.comments st ++ flat_map kept results)
                               (Youtube.fetched st
                                + Z.of_nat (List.length (flat_map kept results)))
                               (Youtube.requested st ++ requests_for request_with token pages)
                               u_end).
Proof.
  induction pages as [|p rest IH]; intros fuel token st u_end results Hs Hc Hl Hv Hcap.
  - cbn [serves] in Hs. subst u_end. inversion Hv; subst.
    cbn [List.length Nat.add token_after requests_for flat_map].
    rewrite !app_nil_r, Z.add_0_r. now destruct st.
  - cbn [serves] in Hs. destruct Hs as (u' & He & Hs).
    inversion Hc as [|? ? Ht Hc']; subst. inversion Hl as [|? ? Hlp Hlr]; subst.
    inversion Hv as [|? rs ? results' Hv1 Hv2]; subst.
    cbn [flat_map] in *. rewrite length_app in Hcap.
    cbn [List.length Nat.add token_after requests_for].
    rewrite (comment_pages_step (List.length rest + fuel) token st p u' rs
               ltac:(lia) He Hlp Hv1). cbn zeta. rewrite Ht.
    rewrite firstn_all2 by lia.
    match goal with
    | |- context [loop _ _ _ _ _ _ ?s] =>
        rewrite (IH fuel (Youtube.page_token p) s u_end results')
    end; try assumption.
    + cbn [Youtube.comments Youtube.fetched Youtube.requested].
      rewrite <- !app_assoc, length_app. cbn [app]. do 2 f_equal. lia.
    + cbn [Youtube.fetched]. lia.
Qed.
End CommentRuns.


(** ** Pagination: the cap and the continuation token *)

Lemma removelast_map {A B : Type} (f : A -> B) (l : list A) :
  removelast (map f l) = map f (removelast l).
Proof.
  induction l as [|a [|b l] IH]; [reflexivity | reflexivity |].
  change (removelast (map f (a :: b :: l))) with (f a :: removelast (map f (b :: l))).
  now rewrite IH.
Qed.

Lemma counts_before_last {A B : Type} (f : A -> list B) (l : list A) :
  list_sum (removelast (map (fun x => List.length (f x)) l))
  = List.length (flat_map f (removelast l)).
Proof. now rewrite removelast_map, length_flat_map. Qed.

(** C7, as stated, fails: with a cap of 1 and a first page that holds one
    video and a token, the loop does not ask for the second page, so an
    upstream with K = 1 page that carries a token gets one request, not
    K + 1 = 2. *)
Lemma search_pages_stops_at_cap :
  Youtube.search_pages Mock.execute 5 "k" "2022-01-01T00:00:00Z" "2022-12-31T23:59:59Z" 1
    PNone
    (Youtube.mksearch [] 0 []
       [Ret (PDict (Mock.page [Mock.search_item "v1" "first"] "t1"));
        Ret (PDict (Mock.last_page [Mock.search_item "v2" "second"]))])
  = Ret (Youtube.mksearch
           [Youtube.mkvideo (PStr "v1") (PStr "first") (PStr "") (PStr "") "k"] 1
           [Youtube.SearchList "k" "2022-01-01T00:00:00Z" "2022-12-31T23:59:59Z" PNone]
           [Ret (PDict (Mock.last_page [Mock.search_item "v2" "second"]))]).
Proof. vm_compute. reflexivity. Qed.

(** C7, as amended.  Against a client that serves pages of which all but
    the last carry a token, with items that all normalise, the search loop
    of a keyword returns the videos of the pages up to the cap, and asks
    for at most as many pages as there are: for all of them exactly when the
    videos of the pages before the last are fewer than the cap.  The comment
    loop does the same with the comments it keeps.  Whatever the client
    answers, a keyword adds at most [cap] videos and a video gets at most
    [cap] comments. *)
Theorem page_loops_follow_tokens_to_cap :
  (forall (U : Type) (execute : U -> Youtube.request -> outcome pyval * U)
          (keyword start_date end_date : string) (cap : Z)
          (pages : list (list (string * pyval))) (fuel : nat)
          (acc : list Youtube.video) (sent0 : list Youtube.request) (u u_end : U)
          (vs : list Youtube.video),
     serves execute (Youtube.SearchList keyword start_date end_date) u PNone pages u_end ->
     last_is_final pages ->
     Forall (fun p => Youtube.items_listed p = true) pages ->
     map_outcome (Youtube.video_of_item keyword) (flat_map Youtube.page_items pages) = Ret vs ->
     (List.length pages < fuel)%nat ->
     exists st' n,
       Youtube.search_pages execute fuel keyword start_date end_date cap PNone
         (Youtube.mksearch acc 0 sent0 u) = Ret st'
       /\ Youtube.all_videos st' = acc ++ firstn (Z.to_nat cap) vs
       /\ Youtube.sent st'
          = sent0 ++ firstn n (requests_for (Youtube.SearchList keyword start_date end_date)
                                            PNone pages)
       /\ (n <= List.length pages)%nat
       /\ (n = List.length pages
           <-> Z.of_nat (List.length (flat_map Youtube.page_items (removelast pages))) < cap))
  /\ (forall (U : Type) (execute : U -> Youtube.request -> outcome pyval * U)
             (parse_isoformat : string -> outcome datetime) (v : Youtube.video)
             (start_date end_date : datetime) (cap : Z)
             (pages : list (list (string * pyval))) (fuel : nat) (u u_end : U)
             (results : list (list Youtube.item_result)),
        Youtube.sliceable (Youtube.video_title v) = true ->
        serves execute (Youtube.CommentThreadsList (Youtube.video_id v)) u PNone pages u_end ->
        last_is_final pages ->
        Forall (fun p => Youtube.items_listed p = true) pages ->
        page_results parse_isoformat v start_date end_date pages results ->
        (List.length pages < fuel)%nat ->
        exists st' n,
          Youtube.fetch_comments_for_video execute parse_isoformat fuel u v
            start_date end_date cap = Ret st'
          /\ Youtube.comments st' = firstn (Z.to_nat cap) (flat_map kept results)
          /\ Youtube.requested st'
             = firstn n (requests_for (Youtube.CommentThreadsList (Youtube.video_id v))
                                      PNone pages)
          /\ (n <= List.length pages)%nat
          /\ (n = List.length pages
              <-> Z.of_nat (List.length (flat_map kept (removelast results))) < cap))
  /\ (forall (U : Type) (execute : U -> Youtube.request -> outcome pyval * U)
             (fuel : nat) (keyword start_date end_date : string) (cap : Z)
             (acc : list Youtube.video) (sent0 : list Youtube.request) (u : U)
             (st' : Youtube.search_state U),
        Youtube.search_pages execute fuel keyword start_date end_date cap PNone
          (Youtube.mksearch acc 0 sent0 u) = Ret st' ->
        exists new,
          Youtube.all_videos st' = acc ++ new
          /\ Z.of_nat (List.length new) <= Z.max 0 cap)
  /\ (forall (U : Type) (execute : U -> Youtube.request -> outcome pyval * U)
             (parse_isoformat : string -> outcome datetime) (fuel : nat) (u : U)
             (v : Youtube.video) (start_date end_date : datetime) (cap : Z)
             (st' : Youtube.comments_state U),
        Youtube.fetch_comments_for_video execute parse_isoformat fuel u v
          start_date end_date cap = Ret st' ->
        Z.of_nat (List.length (Youtube.comments st')) <= Z.max 0 cap).
Proof.
  split; [|split; [|split]].
  - intros U execute keyword start_date end_date cap pages fuel acc sent0 u u_end vs
           Hs Hf Hl Hv Hfuel.
    destruct (search_pages_run execute keyword start_date end_date cap pages fuel PNone
                (Youtube.mksearch acc 0 sent0 u) u_end vs Hs Hf Hl Hv Hfuel)
      as (st' & E & Ha & _ & Hsent).
    cbn [Youtube.all_videos Youtube.collected Youtube.sent] in Ha, Hsent.
    rewrite Z.sub_0_r in Ha.
    exists st', (pages_requested cap 0
                   (map (fun p => List.length (Youtube.page_items p)) pages)).
    repeat split; try assumption.
    + rewrite <- (length_map (fun p => List.length (Youtube.page_items p)) pages).
      apply pages_requested_le.
    + intros H. rewrite <- counts_before_last. rewrite <- Z.add_0_l at 1.
      apply pages_requested_all; [destruct pages; [destruct Hf | discriminate]|].
      now rewrite length_map.
    + intros H. rewrite <- counts_before_last in H.
      rewrite <- (length_map (fun p => List.length (Youtube.page_items p)) pages).
      apply pages_requested_all; [destruct pages; [destruct Hf | discriminate]|].
      exact H.
  - intros U execute parse v start_date end_date cap pages fuel u u_end results
           Hv Hs Hf Hl Hr Hfuel.
    unfold Youtube.fetch_comments_for_video. rewrite Hv.
    destruct (comment_pages_run execute parse v start_date end_date cap pages fuel PNone
                (Youtube.mkcomments [] 0 [] u) u_end results Hs Hf Hl Hr Hfuel)
      as (st' & E & Ha & _ & Hsent).
    cbn [Youtube.comments Youtube.fetched Youtube.requested app] in Ha, Hsent.
    rewrite Z.sub_0_r in Ha.
    assert (Hlen : List.length results = List.length pages)
      by (symmetry; eapply Forall2_length; exact Hr).
    assert (Hne : map (fun rs => List.length (kept rs)) results <> []).
    { destruct results; [|discriminate]. destruct pages; [destruct Hf | discriminate]. }
    exists st', (pages_requested cap 0 (map (fun rs => List.length (kept rs)) results)).
    repeat split; try assumption.
    + rewrite <- Hlen, <- (length_map (fun rs => List.length (kept rs)) results).
      apply pages_requested_le.
    + intros H. rewrite <- counts_before_last. rewrite <- Z.add_0_l at 1.
      apply pages_requested_all; [exact Hne|]. now rewrite length_map, Hlen.
    + intros H. rewrite <- counts_before_last in H.
      rewrite <- Hlen, <- (length_map (fun rs => List.length (kept rs)) results).
      apply pages_requested_all; [exact Hne | exact H].
  - intros U execute fuel keyword start_date end_date cap acc sent0 u st' E.
    apply search_pages_bound in E as (new & Ea & Ec & Hle).
    cbn [Youtube.all_videos Youtube.collected] in Ea, Ec, Hle.
    exists new. split; [assumption | lia].
  - intros U execute parse fuel u v start_date end_date cap st'.
    unfold Youtube.fetch_comments_for_video.
    destruct (Youtube.sliceable (Youtube.video_title v)); [|discriminate].
    intros E. apply comment_pages_bound in E as (new & Ea & Ec & Hle).
    cbn [Youtube.comments Youtube.fetched app] in Ea, Ec, Hle.
    rewrite Ea. lia.
Qed.

Lemma page_loops_follow_tokens_to_cap_witness :
  exists st' n,
    Youtube.search_pages Mock.execute 4 "k" "2022-01-01T00:00:00Z" "2022-12-31T23:59:59Z" 50
      PNone
      (Youtube.mksearch [] 0 []
         [Ret (PDict (Mock.page [Mock.search_item "v1" "a"; Mock.search_item "v2" "b"] "t1"));
          Ret (PDict (Mock.page [Mock.search_item "v3" "c"] "t2"));
          Ret (PDict (Mock.last_page [Mock.search_item "v4" "d"]))])
    = Ret st'
    /\ Youtube.all_videos st'
       = [] ++ firstn (Z.to_nat 50)
                [Youtube.mkvideo (PStr "v1") (PStr "a") (PStr "") (PStr "") "k";
                 Youtube.mkvideo (PStr "v2") (PStr "b") (PStr "") (PStr "") "k";
                 Youtube.mkvideo (PStr "v3") (PStr "c") (PStr "") (PStr "") "k";
                 Youtube.mkvideo (PStr "v4") (PStr "d") (PStr "") (PStr "") "k"]
    /\ Youtube.sent st'
       = [] ++ firstn n
           (requests_for (Youtube.SearchList "k" "2022-01-01T00:00:00Z" "2022-12-31T23:59:59Z")
              PNone
              [Mock.page [Mock.search_item "v1" "a"; Mock.search_item "v2" "b"] "t1";
               Mock.page [Mock.search_item "v3" "c"] "t2";
               Mock.last_page [Mock.search_item "v4" "d"]])
    /\ (n <= 3)%nat
    /\ (n = 3%nat <-> 3 < 50).
Proof.
  refine (proj1 page_loops_follow_tokens_to_cap Mock.script Mock.execute
            "k"%string "2022-01-01T00:00:00Z"%string "2022-12-31T23:59:59Z"%string 50
            [Mock.page [Mock.search_item "v1" "a"; Mock.search_item "v2" "b"] "t1";
             Mock.page [Mock.search_item "v3" "c"] "t2";
             Mock.last_page [Mock.search_item "v4" "d"]]
            4%nat [] [] _ [] _ _ _ _ _ _).
  - cbn [serves]. repeat (eexists; split; [reflexivity|]). reflexivity.
  - cbn. auto.
  - repeat constructor.
  - vm_compute. reflexivity.
  - cbn. lia.
Defined.

(** ** Pagination: a request that fails *)

Lemma decode_response_failed (answer : outcome Gdelt.response) :
  request_failed answer = true -> Gdelt.decode_response answer = Ret (inl []).
Proof.
  unfold request_failed, Gdelt.decode_response, Gdelt.raise_for_status.
  destruct answer as [resp|e|]; [|reflexivity|discriminate]. cbn [bind].
  destruct ((400 <=? Gdelt.status_code resp) && (Gdelt.status_code resp <? 600));
    [reflexivity|]. cbn [bind orb try_except].
  destruct (all_space (Gdelt.text resp)); [reflexivity|]. cbn [orb].
  destruct (Gdelt.json resp); [discriminate | reflexivity].
Qed.

Lemma fetch_gdelt_chunk_failed {U : Type} (requests_get : U -> Gdelt.params -> outcome Gdelt.response * U)
    (u u' : U) (keyword : string) (start_dt end_dt : datetime) (maxrecords : Z)
    (answer : outcome Gdelt.response) :
  requests_get u (Gdelt.mkparams (Gdelt.quoted keyword) "ArtList" maxrecords "json"
                                 (to_gdelt_datetime start_dt) (to_gdelt_datetime end_dt))
  = (answer, u') ->
  request_failed answer = true ->
  Gdelt.fetch_gdelt_chunk U requests_get u keyword start_dt end_dt maxrecords = Ret ([], u').
Proof.
  intros He Hf. unfold Gdelt.fetch_gdelt_chunk. rewrite He.
  now rewrite (decode_response_failed _ Hf).
Qed.


(** * Further properties of the scrapers *)

(** ** The timestamps sent to GDELT *)

Lemma strftime_Y_pad4 (y : Z) : 1000 <= y -> strftime_Y y = pad4 y.
Proof.
  intros H. unfold strftime_Y.
  destruct (Z.ltb_spec y 10); [lia|]. destruct (Z.ltb_spec y 100); [lia|].
  destruct (Z.ltb_spec y 1000); [lia|]. reflexivity.
Qed.

(** X2: the compact timestamp that [to_gdelt_datetime] writes for a valid
    datetime from the year 1000 on has 14 characters, [strptime] with the
    same format reads it back to the same date and time (without the
    microseconds and the offset, which the format does not carry), and
    [normalize_published_time] turns it into the ISO text of that date and
    time. *)
Theorem to_gdelt_datetime_round_trip (dt : datetime) :
  valid_datetime dt = true ->
  1000 <= year dt ->
  String.length (to_gdelt_datetime dt) = 14%nat
  /\ strptime (PStr (to_gdelt_datetime dt))
     = Ret (naive (year dt) (month dt) (day dt) (hour dt) (minute dt) (second dt))
  /\ normalize_published_time (PStr (to_gdelt_datetime dt))
     = Ret (Some (iso_text (year dt) (month dt) (day dt)
                           (hour dt) (minute dt) (second dt))).
Proof.
  intros V Hy. unfold valid_datetime in V. apply andb_prop in V as [Vd Vt].
  apply check_date_fields_spec in Vd as (Y & M & D).
  apply check_time_fields_spec in Vt as (HH & MM & SS & US).
  pose proof (days_in_month_bounds (year dt) (month dt)) as B.
  assert (E : to_gdelt_datetime dt
              = compact_text (year dt) (month dt) (day dt)
                             (hour dt) (minute dt) (second dt)).
  { unfold to_gdelt_datetime, compact_text. now rewrite strftime_Y_pad4. }
  assert (P : strptime_str (compact_text (year dt) (month dt) (day dt)
                                         (hour dt) (minute dt) (second dt))
              = Ret (naive (year dt) (month dt) (day dt)
                           (hour dt) (minute dt) (second dt))).
  { rewrite strptime_compact_text by lia. apply datetime_new_ok; lia. }
  rewrite E. split; [reflexivity|]. split; [exact P|].
  rewrite normalize_published_time_str, P.
  cbn [compact_text pad4 String.eqb append]. f_equal. f_equal.
  apply strftime_iso_text. lia.
Qed.

Lemma to_gdelt_datetime_round_trip_witness :
  String.length (to_gdelt_datetime (naive 2022 1 31 23 59 59)) = 14%nat
  /\ strptime (PStr (to_gdelt_datetime (naive 2022 1 31 23 59 59)))
     = Ret (naive 2022 1 31 23 59 59)
  /\ normalize_published_time (PStr (to_gdelt_datetime (naive 2022 1 31 23 59 59)))
     = Ret (Some (iso_text 2022 1 31 23 59 59)).
Proof.
  refine (to_gdelt_datetime_round_trip (naive 2022 1 31 23 59 59) eq_refl _).
  cbn. lia.
Defined.

(** ** The monthly windows *)

Lemma months_from_In (n : nat) :
  forall y m y' m',
    1 <= m <= 12 ->
    In (y', m') (months_from n (y, m)) ->
    1 <= m' <= 12 /\ 12 * y + m <= 12 * y' + m' < 12 * y + m + Z.of_nat n.
Proof.
  induction n as [|n IH]; intros y m y' m' Hm; cbn [months_from In]; [tauto|].
  intros [E|H].
  - inversion E; subst. lia.
  - destruct (next_ym_range y m Hm) as [Hm' Hidx].
    destruct (next_ym (y, m)) as [y1 m1] eqn:En. cbn [fst snd] in *.
    apply IH in H; [|assumption]. lia.
Qed.

(** X3: for two valid dates, [generate_monthly_ranges] returns the empty
    list exactly when the month of [start_date] is after the month of
    [end_date]; a start day after the end day in the same month does not
    make the result empty. *)
Theorem generate_monthly_ranges_empty_iff (ys ms ds ye me de : Z) :
  check_date_fields ys ms ds = true ->
  check_date_fields ye me de = true ->
  (generate_monthly_ranges (isoformat_date ys ms ds) (isoformat_date ye me de) = Ret []
   <-> 12 * ye + me < 12 * ys + ms).
Proof.
  intros Vs Ve. rewrite generate_monthly_ranges_spec by assumption.
  destruct (Z.leb_spec (12 * ys + ms) (12 * ye + me)) as [Hle|Hgt]; cbn [andb].
  - split; [|lia].
    destruct (12 * ye + me =? 12 * 9999 + 12); [discriminate|].
    destruct (months_touched ys ms ye me) as [|k] eqn:En;
      [unfold months_touched in En; lia|].
    cbn [months_from map]. discriminate.
  - split; [lia|]. intros _.
    replace (months_touched ys ms ye me) with 0%nat by (unfold months_touched; lia).
    reflexivity.
Qed.

Lemma generate_monthly_ranges_empty_iff_witness :
  generate_monthly_ranges "2022-04-01" "2022-03-31" = Ret []
  <-> 12 * 2022 + 3 < 12 * 2022 + 4.
Proof.
  exact (generate_monthly_ranges_empty_iff 2022 4 1 2022 3 31 eq_refl eq_refl).
Defined.

(** X4: every window that [generate_monthly_ranges] returns for two valid
    dates covers whole days of one calendar month, a month from the month
    of [start_date] to the month of [end_date]: it starts on the first day
    of the month at 00:00:00 and ends at 23:59:59, on the last day of the
    month or, in the month of [end_date], on the day of [end_date]. *)
Theorem generate_monthly_ranges_windows (ys ms ds ye me de : Z)
    (ranges : list time_range) :
  check_date_fields ys ms ds = true ->
  check_date_fields ye me de = true ->
  generate_monthly_ranges (isoformat_date ys ms ds) (isoformat_date ye me de)
  = Ret ranges ->
  Forall (fun c =>
            exists y m d,
              range_start c = naive y m 1 0 0 0
              /\ range_end c = naive y m d 23 59 59
              /\ check_date_fields y m d = true
              /\ 12 * ys + ms <= 12 * y + m <= 12 * ye + me
              /\ (d = days_in_month y m \/ (y = ye /\ m = me /\ d = de)))
         ranges.
Proof.
  intros Vs Ve. rewrite generate_monthly_ranges_spec by assumption.
  destruct ((12 * ys + ms <=? 12 * ye + me) && (12 * ye + me =? 12 * 9999 + 12));
    [discriminate|].
  intros [= <-]. apply Forall_forall. intros c Hc.
  apply in_map_iff in Hc as ([y m] & <- & Hin).
  apply check_date_fields_spec in Vs as (Ys & Ms & Ds).
  pose proof Ve as Ve'. apply check_date_fields_spec in Ve' as (Ye & Me & De).
  apply months_from_In in Hin as [Hm Hidx]; [|assumption].
  assert (Hn : Z.of_nat (months_touched ys ms ye me) <= Z.max 0 (12 * (ye - ys) + (me - ms) + 1))
    by (unfold months_touched; lia).
  assert (Hy : 1 <= y <= 9999) by lia.
  pose proof (days_in_month_bounds y m) as B.
  unfold month_chunk.
  destruct (Z.eqb_spec y ye) as [->|Hne]; cbn [andb].
  - destruct (Z.eqb_spec m me) as [->|Hne].
    + exists ye, me, de. repeat split; try assumption; lia.
    + exists ye, m, (days_in_month ye m).
      repeat split; try lia. apply check_date_fields_spec. lia.
  - exists y, m, (days_in_month y m).
    repeat split; try lia. apply check_date_fields_spec. lia.
Qed.

Lemma generate_monthly_ranges_windows_witness :
  Forall (fun c =>
            exists y m d,
              range_start c = naive y m 1 0 0 0
              /\ range_end c = naive y m d 23 59 59
              /\ check_date_fields y m d = true
              /\ 12 * 2022 + 1 <= 12 * y + m <= 12 * 2022 + 3
              /\ (d = days_in_month y m \/ (y = 2022 /\ m = 3 /\ d = 10)))
         [ mkrange (naive 2022 1 1 0 0 0) (naive 2022 1 31 23 59 59);
           mkrange (naive 2022 2 1 0 0 0) (naive 2022 2 28 23 59 59);
           mkrange (naive 2022 3 1 0 0 0) (naive 2022 3 10 23 59 59) ].
Proof.
  refine (generate_monthly_ranges_windows 2022 1 15 2022 3 10 _ eq_refl eq_refl _).
  vm_compute. reflexivity.
Defined.

(** ** One request of the GDELT scraper *)

Lemma decode_response_ok (resp : Gdelt.response) (data : pyval) :
  request_failed (Ret resp) = false ->
  Gdelt.json resp = Some data ->
  Gdelt.decode_response (Ret resp) = Ret (inr data).
Proof.
  unfold request_failed, Gdelt.decode_response, Gdelt.raise_for_status.
  intros Hf Hj. cbn [bind]. rewrite Hj in *.
  destruct ((400 <=? Gdelt.status_code resp) && (Gdelt.status_code resp <? 600));
    [discriminate|]. cbn [bind orb try_except] in *.
  destruct (all_space (Gdelt.text resp)); [discriminate|]. reflexivity.
Qed.

Lemma fetch_gdelt_chunk_decoded {U : Type}
    (requests_get : U -> Gdelt.params -> outcome Gdelt.response * U)
    (u u' : U) (keyword : string) (start_dt end_dt : datetime) (maxrecords : Z)
    (resp : Gdelt.response) (data : pyval) :
  requests_get u (window_params keyword maxrecords (mkrange start_dt end_dt))
  = (Ret resp, u') ->
  request_failed (Ret resp) = false ->
  Gdelt.json resp = Some data ->
  Gdelt.fetch_gdelt_chunk U requests_get u keyword start_dt end_dt maxrecords
  = (records <- Gdelt.records_of_body keyword data ;; Ret (records, u')).
Proof.
  intros He Hf Hj. unfold Gdelt.fetch_gdelt_chunk.
  unfold window_params in He. cbn [range_start range_end] in He. rewrite He.
  now rewrite (decode_response_ok _ _ Hf Hj).
Qed.

Lemma article_record_not_dict (keyword : string) (art : pyval) :
  is_dict art = false -> Gdelt.article_record keyword art = Raise AttributeError.
Proof. destruct art; try reflexivity. discriminate. Qed.

Lemma article_records_not_dicts (keyword : string) (arts : list pyval) :
  forallb is_dict arts = false ->
  map_outcome (Gdelt.article_record keyword) arts = Raise AttributeError.
Proof.
  induction arts as [|a arts IH]; cbn [forallb map_outcome]; [discriminate|].
  destruct a as [| | | | | |d]; try reflexivity.
  cbn [is_dict andb]. intros H. rewrite (IH H).
  change (Gdelt.article_record keyword (PDict d)) with (Ret (article_of keyword d)).
  reflexivity.
Qed.

(** X5: when the request succeeds with a body that decodes to an object,
    [fetch_gdelt_chunk] returns no record if the object has no [articles]
    entry, and otherwise, for a list of objects, exactly one record per
    article, in the order of the list, each with the keyword and the source
    tag: the list is not cut at [maxrecords], which is only sent to the
    service. *)
Theorem fetch_gdelt_chunk_records {U : Type}
    (requests_get : U -> Gdelt.params -> outcome Gdelt.response * U)
    (u u' : U) (keyword : string) (start_dt end_dt : datetime) (maxrecords : Z)
    (resp : Gdelt.response) (body : list (string * pyval)) :
  requests_get u (window_params keyword maxrecords (mkrange start_dt end_dt))
  = (Ret resp, u') ->
  request_failed (Ret resp) = false ->
  Gdelt.json resp = Some (PDict body) ->
  (assoc "articles" body = None ->
   Gdelt.fetch_gdelt_chunk U requests_get u keyword start_dt end_dt maxrecords
   = Ret ([], u'))
  /\ (forall arts,
        assoc "articles" body = Some (PList (map PDict arts)) ->
        Gdelt.fetch_gdelt_chunk U requests_get u keyword start_dt end_dt maxrecords
        = Ret (map (article_of keyword) arts, u')
        /\ List.length (map (article_of keyword) arts) = List.length arts
        /\ Forall (fun a => Gdelt.keyword a = keyword /\ Gdelt.source a = "gdelt"%string)
                  (map (article_of keyword) arts)).
Proof.
  intros He Hf Hj. rewrite (fetch_gdelt_chunk_decoded _ _ _ _ _ _ _ _ _ He Hf Hj).
  unfold Gdelt.records_of_body. cbn [py_contains py_getitem bind]. split.
  - intros ->. reflexivity.
  - intros arts ->. cbn [negb bind py_iter].
    rewrite article_records_of_dicts. cbn [bind].
    split; [reflexivity|]. split; [apply length_map|].
    apply Forall_forall. intros a Ha. apply in_map_iff in Ha as (d & <- & _).
    split; reflexivity.
Qed.

(** X6: the membership test and the loop over the articles are outside the
    [try] of [fetch_gdelt_chunk], so a body that decodes but has not the
    expected shape raises out of it: [TypeError] when the body is [null], a
    boolean or a number, or when its [articles] entry is one, and
    [AttributeError] when [articles] is a list with an element that is not an
    object.  The exception ends the loops over the windows and the
    keywords. *)
Theorem fetch_gdelt_chunk_unguarded {U : Type}
    (requests_get : U -> Gdelt.params -> outcome Gdelt.response * U)
    (u u' : U) (keyword : string) (dr : time_range) (maxrecords : Z)
    (resp : Gdelt.response) (data : pyval) :
  requests_get u (window_params keyword maxrecords dr) = (Ret resp, u') ->
  request_failed (Ret resp) = false ->
  Gdelt.json resp = Some data ->
  let fetched :=
    Gdelt.fetch_gdelt_chunk U requests_get u keyword (range_start dr) (range_end dr)
                            maxrecords in
  (is_scalar data = true -> fetched = Raise TypeError)
  /\ (forall body x,
        data = PDict body -> assoc "articles" body = Some x -> is_scalar x = true ->
        fetched = Raise TypeError)
  /\ (forall body arts,
        data = PDict body -> assoc "articles" body = Some (PList arts) ->
        forallb is_dict arts = false ->
        fetched = Raise AttributeError)
  /\ (forall e rest keywords date_ranges all_records,
        fetched = Raise e ->
        Gdelt.fetch_windows U requests_get u keyword maxrecords (dr :: rest) all_records
        = Raise e
        /\ Gdelt.fetch_keywords U requests_get u (keyword :: keywords) maxrecords
             (dr :: date_ranges) all_records
           = Raise e).
Proof.
  intros He Hf Hj fetched.
  assert (E : fetched
              = (records <- Gdelt.records_of_body keyword data ;; Ret (records, u'))).
  { destruct dr as [s e]. exact (fetch_gdelt_chunk_decoded _ _ _ _ _ _ _ _ _ He Hf Hj). }
  split; [|split; [|split]].
  - intros Hs. rewrite E. destruct data; try discriminate; reflexivity.
  - intros body x -> Ha Hs. rewrite E. unfold Gdelt.records_of_body.
    cbn [py_contains py_getitem bind]. rewrite Ha. cbn [negb bind].
    destruct x; try discriminate; reflexivity.
  - intros body arts -> Ha Hd. rewrite E. unfold Gdelt.records_of_body.
    cbn [py_contains py_getitem bind]. rewrite Ha. cbn [negb bind py_iter].
    now rewrite (article_records_not_dicts _ _ Hd).
  - intros e rest keywords date_ranges all_records Hr.
    assert (W : forall rest', Gdelt.fetch_windows U requests_get u keyword maxrecords
                                (dr :: rest') all_records = Raise e).
    { intros rest'. cbn [Gdelt.fetch_windows]. fold fetched. now rewrite Hr. }
    split; [apply W|]. cbn [Gdelt.fetch_keywords]. now rewrite W.
Qed.

Lemma fetch_gdelt_chunk_records_witness :
  Gdelt.fetch_gdelt_chunk unit (Mock.always (Ret (Mock.ok Mock.two_articles_text
                                                          Mock.two_articles)))
    tt "ai" (naive 2022 1 1 0 0 0) (naive 2022 1 31 23 59 59) 1
  = Ret (map (article_of "ai") [[]; []], tt)
  /\ List.length (map (article_of "ai") [[]; []]) = 2%nat
  /\ Forall (fun a => Gdelt.keyword a = "ai"%string /\ Gdelt.source a = "gdelt"%string)
            (map (article_of "ai") [[]; []]).
Proof.
  refine (proj2 (fetch_gdelt_chunk_records
                   (Mock.always (Ret (Mock.ok Mock.two_articles_text Mock.two_articles)))
                   tt tt "ai"%string (naive 2022 1 1 0 0 0) (naive 2022 1 31 23 59 59) 1
                   (Mock.ok Mock.two_articles_text Mock.two_articles)
                   [("articles"%string, PList [PDict []; PDict []])]
                   eq_refl eq_refl eq_refl)
                [[]; []] eq_refl).
Defined.

Lemma fetch_gdelt_chunk_unguarded_witness :
  Gdelt.fetch_gdelt_chunk unit (Mock.always (Ret (Mock.ok "null" PNone)))
    tt "ai" (naive 2022 1 1 0 0 0) (naive 2022 1 31 23 59 59) 250
  = Raise TypeError.
Proof.
  refine (proj1 (fetch_gdelt_chunk_unguarded
                   (Mock.always (Ret (Mock.ok "null" PNone)))
                   tt tt "ai"%string
                   (mkrange (naive 2022 1 1 0 0 0) (naive 2022 1 31 23 59 59)) 250
                   (Mock.ok "null" PNone) PNone eq_refl eq_refl eq_refl)
                eq_refl).
Defined.

(** ** The run of the GDELT scraper *)












Section RunFacts.
Context {U : Type}.
Variable requests_get : U -> Gdelt.params -> outcome Gdelt.response * U.
Variable maxrecords : Z.
Variable known : list string.

Local Abbreviation tagged :=
  (fun a => In (Gdelt.keyword a) known /\ Gdelt.source a = "gdelt"%string).


End RunFacts.




(** ** The videos of a search *)

Lemma video_of_item_keyword (keyword : string) (item : pyval) (v : Youtube.video) :
  Youtube.video_of_item keyword item = Ret v -> Youtube.keyword v = keyword.
Proof.
  unfold Youtube.video_of_item.
  destruct (py_getitem item "id") as [id|e|]; cbn [bind]; try discriminate.
  destruct (py_getitem id "videoId") as [vid|e|]; cbn [bind]; try discriminate.
  destruct (py_getitem item "snippet") as [snippet|e|]; cbn [bind]; try discriminate.
  destruct (py_get snippet "title" (PStr "")) as [t|e|]; cbn [bind]; try discriminate.
  destruct (py_get snippet "channelTitle" (PStr "")) as [c|e|]; cbn [bind];
    try discriminate.
  destruct (py_get snippet "publishedAt" (PStr "")) as [p|e|]; cbn [bind];
    try discriminate.
  now intros [= <-].
Qed.

Lemma search_items_keyword (keyword : string) (cap : Z) (items : list pyval) :
  forall (acc acc' : list Youtube.video) (c c' : Z),
    Youtube.search_items keyword cap items acc c = Ret (acc', c') ->
    exists new, acc' = acc ++ new
                /\ Forall (fun v => Youtube.keyword v = keyword) new.
Proof.
  induction items as [|item rest IH]; intros acc acc' c c'; cbn [Youtube.search_items].
  - intros [= <- _]. exists []. now rewrite app_nil_r.
  - destruct (Youtube.video_of_item keyword item) as [v|e|] eqn:Ev; cbn [bind];
      try discriminate.
    apply video_of_item_keyword in Ev. cbn zeta.
    destruct (c + 1 >=? cap).
    + intros [= <- _]. exists [v]. split; [reflexivity|]. now constructor.
    + intros E. apply IH in E as (new & -> & Hn). exists (v :: new).
      rewrite <- app_assoc. split; [reflexivity|]. now constructor.
Qed.

Section SearchFacts.
Context {U : Type}.
Variable execute : U -> Youtube.request -> outcome pyval * U.
Variables start_date end_date : string.
Variable cap : Z.

(** What a page loop adds: videos of its keyword, and requests for its
    keyword with the two bounds. *)
Lemma search_pages_keyword (keyword : string) (fuel : nat) :
  forall (token : pyval) (st st' : Youtube.search_state U),
    Youtube.search_pages execute fuel keyword start_date end_date cap token st = Ret st' ->
    exists new reqs,
      Youtube.all_videos st' = Youtube.all_videos st ++ new
      /\ Forall (fun v => Youtube.keyword v = keyword) new
      /\ Youtube.sent st' = Youtube.sent st ++ reqs
      /\ Forall (fun r => exists t, r = Youtube.SearchList keyword start_date end_date t)
                reqs.
Proof.
  induction fuel as [|fuel IH]; intros token st st'; cbn [Youtube.search_pages];
    [discriminate|].
  destruct (Youtube.collected st <? cap).
  - destruct (execute (Youtube.client st) _) as [[response|e|] u']; [| |discriminate].
    + destruct (py_get response "items" (PList [])) as [items_v| |]; cbn [bind];
        try discriminate.
      destruct (py_iter items_v) as [items| |]; cbn [bind]; try discriminate.
      destruct (Youtube.search_items keyword cap items (Youtube.all_videos st)
                  (Youtube.collected st)) as [[acc' c']| |] eqn:Ei; cbn [bind];
        try discriminate.
      apply search_items_keyword in Ei as (new1 & -> & Hn1).
      destruct (py_get response "nextPageToken" PNone) as [tok'| |]; cbn [bind];
        try discriminate.
      destruct (py_truthy tok'); cbn [negb].
      * intros E. apply IH in E as (new2 & reqs2 & Ea & Hn2 & Es & Hr2).
        cbn [Youtube.all_videos Youtube.sent] in Ea, Es.
        exists (new1 ++ new2), (Youtube.SearchList keyword start_date end_date token :: reqs2).
        rewrite Ea, Es, <- !app_assoc. split; [reflexivity|].
        split; [now apply Forall_app|]. split; [reflexivity|].
        constructor; [now exists token|assumption].
      * intros [= <-]. cbn [Youtube.all_videos Youtube.sent].
        exists new1, [Youtube.SearchList keyword start_date end_date token].
        repeat split; try assumption. constructor; [now exists token|constructor].
    + intros [= <-]. cbn [Youtube.all_videos Youtube.sent].
      exists [], [Youtube.SearchList keyword start_date end_date token].
      rewrite app_nil_r. repeat split; constructor; [now exists token|constructor].
  - intros [= <-]. exists [], []. rewrite !app_nil_r. repeat split; constructor.
Qed.

Lemma search_keywords_inv (fuel : nat) (keywords : list string) :
  forall (videos : list Youtube.video) (reqs : list Youtube.request) (u : U)
         (st : Youtube.search_state U),
    Youtube.search_keywords execute fuel keywords start_date end_date cap videos reqs u
    = Ret st ->
    exists new sent,
      Youtube.all_videos st = videos ++ new
      /\ Forall (fun v => In (Youtube.keyword v) keywords) new
      /\ Z.of_nat (List.length new) <= Z.max 0 cap * Z.of_nat (List.length keywords)
      /\ Youtube.sent st = reqs ++ sent
      /\ Forall (fun r => exists k t, In k keywords
                                      /\ r = Youtube.SearchList k start_date end_date t)
                sent.
Proof.
  induction keywords as [|keyword rest IH]; intros videos reqs u st;
    cbn [Youtube.search_keywords].
  - intros [= <-]. cbn [Youtube.all_videos Youtube.sent]. exists [], [].
    rewrite !app_nil_r. cbn [List.length]. repeat split; try constructor. lia.
  - destruct (Youtube.search_pages execute fuel keyword start_date end_date cap PNone
                (Youtube.mksearch videos 0 reqs u)) as [st1|e|] eqn:Ep; cbn [bind];
      try discriminate.
    pose proof (search_pages_bound execute keyword start_date end_date cap fuel _ _ _ Ep)
      as (new0 & Ea0 & Ec0 & Hle0).
    apply search_pages_keyword in Ep as (new1 & reqs1 & Ea & Hn1 & Es & Hr1).
    cbn [Youtube.all_videos Youtube.sent Youtube.collected] in *.
    assert (new0 = new1) as -> by (rewrite Ea in Ea0; now apply app_inv_head in Ea0).
    intros E. apply IH in E as (new2 & reqs2 & Ea2 & Hn2 & Hl2 & Es2 & Hr2).
    exists (new1 ++ new2), (reqs1 ++ reqs2).
    rewrite Ea2, Ea, Es2, Es, <- !app_assoc. split; [reflexivity|]. split.
    { apply Forall_app. split.
      - eapply Forall_impl; [|exact Hn1]. cbn beta. intros v ->. now left.
      - eapply Forall_impl; [|exact Hn2]. cbn beta. intros v Hv. now right. }
    split.
    { rewrite length_app. cbn [List.length]. nia. }
    split; [reflexivity|].
    apply Forall_app. split.
    + eapply Forall_impl; [|exact Hr1]. cbn beta. intros r [t ->].
      exists keyword, t. split; [now left|reflexivity].
    + eapply Forall_impl; [|exact Hr2]. cbn beta. intros r (k & t & Hk & ->).
      exists k, t. split; [now right|reflexivity].
Qed.
End SearchFacts.

Lemma dict_values_length {R K : Type} (key : R -> K)
    (key_eq_dec : forall a b : K, {a = b} + {a <> b}) (rows : list R) :
  (List.length (dict_values_by_key key key_eq_dec rows) <= List.length rows)%nat.
Proof.
  rewrite <- (length_map key (dict_values_by_key key key_eq_dec rows)).
  rewrite <- (length_map key rows).
  apply NoDup_incl_length; [apply dict_values_NoDup|].
  intros k Hk. apply in_map_iff in Hk as (v & <- & Hv).
  apply in_map. now apply dict_values_In in Hv.
Qed.

Lemma search_videos_inv {U : Type}
    (execute : U -> Youtube.request -> outcome pyval * U)
    (fuel : nat) (u u' : U) (keywords : list string) (start_date end_date : string)
    (cap : Z) (videos : list Youtube.video) (reqs : list Youtube.request) :
  Youtube.search_videos execute fuel u keywords start_date end_date cap
  = Ret (videos, reqs, u') ->
  Forall (fun v => In (Youtube.keyword v) keywords) videos
  /\ Z.of_nat (List.length videos) <= Z.max 0 cap * Z.of_nat (List.length keywords)
  /\ Forall (fun r => exists k t, In k keywords
                                  /\ r = Youtube.SearchList k start_date end_date t)
            reqs.
Proof.
  unfold Youtube.search_videos.
  destruct (Youtube.search_keywords execute fuel keywords start_date end_date cap [] [] u)
    as [st|e|] eqn:Ek; cbn [bind]; try discriminate.
  apply search_keywords_inv in Ek as (new & sent & Ea & Hn & Hl & Es & Hr).
  cbn [app] in Ea, Es. rewrite Ea, Es.
  rewrite unique_videos_eq. destruct (forallb _ new); cbn [bind]; [|discriminate].
  intros [= <- <- _]. split; [|split; [|assumption]].
  - apply Forall_forall. intros v Hv. apply dict_values_In in Hv.
    rewrite Forall_forall in Hn. now apply Hn.
  - pose proof (dict_values_length Youtube.id_key option_hkey_eq_dec new). lia.
Qed.

(** X11: whatever the client answers, a call of [search_videos] that returns
    gives videos that each carry one of the keywords of the call, at most
    [max_videos_per_keyword] of them per keyword, and has sent only search
    requests for one of the keywords with the two given date bounds. *)
Theorem search_videos_within_keywords {U : Type}
    (execute : U -> Youtube.request -> outcome pyval * U)
    (fuel : nat) (u u' : U) (keywords : list string) (start_date end_date : string)
    (cap : Z) (videos : list Youtube.video) (reqs : list Youtube.request) :
  Youtube.search_videos execute fuel u keywords start_date end_date cap
  = Ret (videos, reqs, u') ->
  Forall (fun v => In (Youtube.keyword v) keywords) videos
  /\ Z.of_nat (List.length videos) <= Z.max 0 cap * Z.of_nat (List.length keywords)
  /\ Forall (fun r => exists k t, In k keywords
                                  /\ r = Youtube.SearchList k start_date end_date t)
            reqs.
Proof. apply search_videos_inv. Qed.

Lemma search_videos_within_keywords_witness :
  Forall (fun v => In (Youtube.keyword v) ["a"%string; "b"%string])
         [Mock.video "v1" "b"; Mock.video "v2" "a"]
  /\ Z.of_nat (List.length [Mock.video "v1" "b"; Mock.video "v2" "a"])
     <= Z.max 0 2 * Z.of_nat (List.length ["a"%string; "b"%string])
  /\ Forall (fun r => exists k t,
                        In k ["a"%string; "b"%string]
                        /\ r = Youtube.SearchList k "2022-01-01T00:00:00Z"
                                                  "2022-12-31T23:59:59Z" t)
            [Youtube.SearchList "a" "2022-01-01T00:00:00Z" "2022-12-31T23:59:59Z" PNone;
             Youtube.SearchList "b" "2022-01-01T00:00:00Z" "2022-12-31T23:59:59Z" PNone].
Proof.
  refine (search_videos_within_keywords Mock.execute 3
            [Ret (PDict (Mock.last_page [Mock.search_item "v1" ""; Mock.search_item "v2" ""]));
             Ret (PDict (Mock.last_page [Mock.search_item "v1" ""]))]
            [] ["a"%string; "b"%string]
            "2022-01-01T00:00:00Z"%string "2022-12-31T23:59:59Z"%string 2 _ _ _).
  vm_compute. reflexivity.
Defined.

(** ** The comments of a video *)

Section CommentFacts.
Context {U : Type}.
Variable execute : U -> Youtube.request -> outcome pyval * U.
Variable parse_isoformat : string -> outcome datetime.
Variable v : Youtube.video.
Variables start_date end_date : datetime.

(** A comment of the video [v] whose timestamp is a string that the parser
    reads, to a datetime that the two comparisons of the loop find neither
    before the start nor after the end. *)
Local Abbreviation in_range :=
  (fun c =>
     Youtube.of_video c = v
     /\ exists s dt,
          Youtube.comment_published_at c = PStr s
          /\ parse_isoformat (Youtube.replace_Z s) = Ret dt
          /\ dt_lt dt start_date = Ret false
          /\ dt_gt dt end_date = Ret false).

Lemma comment_of_item_kept (item : pyval) (c : Youtube.comment) :
  Youtube.comment_of_item parse_isoformat v start_date end_date item
  = Ret (Youtube.Kept c) ->
  in_range c.
Proof.
  unfold Youtube.comment_of_item.
  destruct (Youtube.comment_fields item) as [[[text published] likes]|e|]; cbn [bind];
    try discriminate.
  destruct published as [| | | |s| |]; cbn [Youtube.py_replace_Z bind try_except];
    try discriminate.
  destruct (parse_isoformat (Youtube.replace_Z s)) as [dt|e|] eqn:Ep;
    cbn [bind try_except]; try discriminate.
  destruct (dt_lt dt start_date) as [[|]|e|] eqn:El; cbn [bind]; try discriminate.
  destruct (dt_gt dt end_date) as [[|]|e|] eqn:Eg; cbn [bind]; try discriminate.
  destruct (py_getitem item "id") as [id|e|]; cbn [bind]; try discriminate.
  destruct (py_int likes) as [n|e|]; cbn [bind]; try discriminate.
  intros [= <-]. cbn [Youtube.of_video Youtube.comment_published_at].
  split; [reflexivity|]. exists s, dt. auto.
Qed.

Lemma comment_items_in_range (cap : Z) (items : list pyval) :
  forall (acc acc' : list Youtube.comment) (n n' : Z),
    Forall in_range acc ->
    Youtube.comment_items parse_isoformat v start_date end_date cap items acc n
    = Ret (acc', n') ->
    Forall in_range acc'.
Proof.
  induction items as [|item rest IH]; intros acc acc' n n' Hacc;
    cbn [Youtube.comment_items].
  - now intros [= <- _].
  - destruct (Youtube.comment_of_item parse_isoformat v start_date end_date item)
      as [[|c]|e|] eqn:Ec; cbn [bind]; try discriminate.
    + apply IH. assumption.
    + apply comment_of_item_kept in Ec. cbn zeta.
      assert (Forall in_range (acc ++ [c]))
        by (apply Forall_app; split; [assumption|now constructor]).
      destruct (n + 1 >=? cap); [now intros [= <- _]|now apply IH].
Qed.

Lemma comment_pages_in_range (cap : Z) (fuel : nat) :
  forall (token : pyval) (st st' : Youtube.comments_state U),
    Forall in_range (Youtube.comments st) ->
    Youtube.comment_pages execute parse_isoformat fuel v start_date end_date cap token st
    = Ret st' ->
    Forall in_range (Youtube.comments st').
Proof.
  induction fuel as [|fuel IH]; intros token st st' Hst; cbn [Youtube.comment_pages];
    [discriminate|].
  destruct (Youtube.fetched st <? cap); [|now intros [= <-]].
  destruct (execute (Youtube.service st) _) as [[response|e|] u']; [| |discriminate].
  - destruct (py_get response "items" (PList [])) as [items_v| |]; cbn [bind];
      try discriminate.
    destruct (py_iter items_v) as [items| |]; cbn [bind]; try discriminate.
    destruct (Youtube.comment_items parse_isoformat v start_date end_date cap items
                (Youtube.comments st) (Youtube.fetched st)) as [[acc' n']| |] eqn:Ei;
      cbn [bind]; try discriminate.
    apply comment_items_in_range in Ei; [|assumption].
    destruct (py_get response "nextPageToken" PNone) as [tok'| |]; cbn [bind];
      try discriminate.
    destruct (py_truthy tok'); cbn [negb].
    + apply IH. assumption.
    + now intros [= <-].
  - now intros [= <-].
Qed.
End CommentFacts.

(** X10: whatever the client answers, every comment that
    [fetch_comments_for_video] returns is attributed to the video it was
    called for, and its [comment_published_at] is a string that the parser
    reads (after [Z] is replaced by [+00:00]) to a datetime that is not
    before [start_date] and not after [end_date]: a comment that does not
    parse or lies outside the range is never returned. *)
Theorem fetched_comments_in_range {U : Type}
    (execute : U -> Youtube.request -> outcome pyval * U)
    (parse_isoformat : string -> outcome datetime) (fuel : nat) (u : U)
    (v : Youtube.video) (start_date end_date : datetime) (cap : Z)
    (st : Youtube.comments_state U) :
  Youtube.fetch_comments_for_video execute parse_isoformat fuel u v
    start_date end_date cap = Ret st ->
  Forall (fun c =>
            Youtube.of_video c = v
            /\ exists s dt,
                 Youtube.comment_published_at c = PStr s
                 /\ parse_isoformat (Youtube.replace_Z s) = Ret dt
                 /\ dt_lt dt start_date = Ret false
                 /\ dt_gt dt end_date = Ret false)
         (Youtube.comments st).
Proof.
  unfold Youtube.fetch_comments_for_video.
  destruct (Youtube.sliceable (Youtube.video_title v)); [|discriminate].
  apply comment_pages_in_range. constructor.
Qed.

Lemma fetched_comments_in_range_witness :
  Forall (fun c =>
            Youtube.of_video c = Mock.video "v" "k"
            /\ exists s dt,
                 Youtube.comment_published_at c = PStr s
                 /\ fromisoformat (Youtube.replace_Z s) = Ret dt
                 /\ dt_lt dt (Mock.utc_datetime 2023 1 1 0 0 0) = Ret false
                 /\ dt_gt dt (Mock.utc_datetime 2023 12 31 23 59 59) = Ret false)
         [Youtube.mkcomment (Mock.video "v" "k") (PStr "c2") (PStr "in") 1
                            (PStr "2023-06-15T12:00:00Z")].
Proof.
  refine (fetched_comments_in_range Mock.execute fromisoformat 3
            [Ret (PDict (Mock.last_page
                           [Mock.comment_item "c1" "early" "2022-12-31T23:59:59Z" 0;
                            Mock.comment_item "c2" "in" "2023-06-15T12:00:00Z" 1;
                            Mock.comment_item "c3" "odd" "yesterday" 2]))]
            (Mock.video "v" "k")
            (Mock.utc_datetime 2023 1 1 0 0 0) (Mock.utc_datetime 2023 12 31 23 59 59) 500
            (Youtube.mkcomments _ 1 _ []) _).
  vm_compute. reflexivity.
Defined.

(** ** The comments of a run *)

Lemma fetch_comments_for_video_inv {U : Type}
    (execute : U -> Youtube.request -> outcome pyval * U)
    (parse_isoformat : string -> outcome datetime) (fuel : nat) (u : U)
    (v : Youtube.video) (start_date end_date : datetime) (cap : Z)
    (st : Youtube.comments_state U) :
  Youtube.fetch_comments_for_video execute parse_isoformat fuel u v
    start_date end_date cap = Ret st ->
  Z.of_nat (List.length (Youtube.comments st)) <= Z.max 0 cap
  /\ Forall (fun c => Youtube.of_video c = v) (Youtube.comments st).
Proof.
  unfold Youtube.fetch_comments_for_video.
  destruct (Youtube.sliceable (Youtube.video_title v)); [|discriminate].
  intros E. split.
  - apply comment_pages_bound in E as (new & Ea & Ec & Hle).
    cbn [Youtube.comments Youtube.fetched app] in *. rewrite Ea. lia.
  - apply comment_pages_in_range in E; [|constructor].
    eapply Forall_impl; [|exact E]. cbn beta. now intros c [Hv _].
Qed.

Lemma fetch_all_comments_inv {U : Type}
    (execute : U -> Youtube.request -> outcome pyval * U)
    (parse_isoformat : string -> outcome datetime) (fuel : nat)
    (start_dt end_dt : datetime) (cap : Z) (videos : list Youtube.video) :
  forall (u u' : U) (all_comments result : list Youtube.comment),
    Youtube.fetch_all_comments execute parse_isoformat fuel u videos start_dt end_dt cap
      all_comments = Ret (result, u') ->
    exists new,
      result = all_comments ++ new
      /\ Z.of_nat (List.length new) <= Z.of_nat (List.length videos) * Z.max 0 cap
      /\ Forall (fun c => In (Youtube.of_video c) videos) new.
Proof.
  induction videos as [|v rest IH]; intros u u' acc result;
    cbn [Youtube.fetch_all_comments].
  - intros [= <- _]. exists []. rewrite app_nil_r. cbn [List.length].
    split; [reflexivity|]. split; [lia|constructor].
  - destruct (Youtube.fetch_comments_for_video execute parse_isoformat fuel u v
                start_dt end_dt cap) as [st|e|] eqn:Ef; cbn [bind]; try discriminate.
    apply fetch_comments_for_video_inv in Ef as [Hl Hv].
    intros E. apply IH in E as (new & -> & Hl2 & Hin).
    exists (Youtube.comments st ++ new). rewrite <- app_assoc.
    split; [reflexivity|]. split.
    + rewrite length_app. cbn [List.length]. nia.
    + apply Forall_app. split.
      * eapply Forall_impl; [|exact Hv]. cbn beta. intros c ->. now left.
      * eapply Forall_impl; [|exact Hin]. cbn beta. intros c Hc. now right.
Qed.

(** X14: whatever the client answers and whatever the parser, a run of
    [scrape_youtube_comments] that returns never hands an empty list to the
    CSV writer; the comments it returns are at most
    [max_videos_per_keyword * max_comments_per_video] per keyword, and each
    belongs to a video found under one of the keywords of the run. *)
Theorem scrape_youtube_comments_totals {U : Type}
    (execute : U -> Youtube.request -> outcome pyval * U)
    (parse_isoformat : string -> outcome datetime) (fuel : nat) (u u' : U)
    (keywords : list string) (start_date_str end_date_str : string)
    (max_videos_per_keyword max_comments_per_video : Z)
    (result : option (list Youtube.comment)) :
  Youtube.scrape_youtube_comments execute parse_isoformat fuel u keywords
    start_date_str end_date_str max_videos_per_keyword max_comments_per_video
  = Ret (result, u') ->
  result <> Some []
  /\ forall all_comments,
       result = Some all_comments ->
       Z.of_nat (List.length all_comments)
       <= Z.of_nat (List.length keywords)
          * (Z.max 0 max_videos_per_keyword * Z.max 0 max_comments_per_video)
       /\ Forall (fun c => In (Youtube.keyword (Youtube.of_video c)) keywords)
                 all_comments.
Proof.
  unfold Youtube.scrape_youtube_comments. cbn zeta.
  destruct (parse_isoformat start_date_str) as [start0|e|]; cbn [bind]; try discriminate.
  destruct (parse_isoformat end_date_str) as [end0|e|]; cbn [bind]; try discriminate.
  destruct (replace end0 None None None (Some 23) (Some 59) (Some 59)) as [end1|e|];
    cbn [bind]; try discriminate.
  destruct (Youtube.search_videos execute fuel u keywords _ _ max_videos_per_keyword)
    as [[[videos reqs] u1]|e|] eqn:Es; cbn [bind]; try discriminate.
  apply search_videos_inv in Es as (Hk & Hl & _).
  destruct (Youtube.fetch_all_comments execute parse_isoformat fuel u1 videos _ _
              max_comments_per_video []) as [[all u2]|e|] eqn:Ea; cbn [bind];
    try discriminate.
  apply fetch_all_comments_inv in Ea as (new & -> & Hl2 & Hin). cbn [app].
  intros E. split.
  - destruct new; inversion E; discriminate.
  - intros cs ->. destruct new as [|c new]; [discriminate|]. inversion E; subst.
    split.
    + assert (0 <= Z.max 0 max_comments_per_video) by lia.
      assert (0 <= Z.max 0 max_videos_per_keyword) by lia. nia.
    + eapply Forall_impl; [|exact Hin]. cbn beta. intros c' Hc.
      rewrite Forall_forall in Hk. now apply Hk.
Qed.

Lemma scrape_youtube_comments_totals_witness :
  Some [Youtube.mkcomment (Mock.video "v1" "a") (PStr "c1") (PStr "hi") 3
                          (PStr "2023-06-15T12:00:00Z")] <> Some []
  /\ forall all_comments,
       Some [Youtube.mkcomment (Mock.video "v1" "a") (PStr "c1") (PStr "hi") 3
                               (PStr "2023-06-15T12:00:00Z")] = Some all_comments ->
       Z.of_nat (List.length all_comments)
       <= Z.of_nat (List.length ["a"%string]) * (Z.max 0 50 * Z.max 0 500)
       /\ Forall (fun c => In (Youtube.keyword (Youtube.of_video c)) ["a"%string])
                 all_comments.
Proof.
  refine (scrape_youtube_comments_totals Mock.execute fromisoformat 3
            [Ret (PDict (Mock.last_page [Mock.search_item "v1" ""]));
             Ret (PDict (Mock.last_page
                           [Mock.comment_item "c1" "hi" "2023-06-15T12:00:00Z" 3]))]
            [] ["a"%string] "2023-01-01"%string "2023-12-31"%string 50 500 _ _).
  vm_compute. reflexivity.
Defined.


(** ** Caps that leave no room *)

Lemma search_keywords_no_quota {U : Type}
    (execute : U -> Youtube.request -> outcome pyval * U)
    (fuel : nat) (start_date end_date : string) (cap : Z) (keywords : list string) :
  cap <= 0 -> (0 < fuel)%nat ->
  forall videos reqs u,
    Youtube.search_keywords execute fuel keywords start_date end_date cap videos reqs u
    = Ret (Youtube.mksearch videos 0 reqs u).
Proof.
  intros Hc Hf. destruct fuel as [|fuel]; [lia|].
  induction keywords as [|keyword rest IH]; intros videos reqs u;
    cbn [Youtube.search_keywords Youtube.search_pages Youtube.collected]; [reflexivity|].
  destruct (Z.ltb_spec 0 cap); [lia|]. cbn [bind Youtube.all_videos Youtube.sent
                                             Youtube.client]. apply IH.
Qed.

(** X8: with a cap of 0 or less, [search_videos] returns no video and
    [fetch_comments_for_video] returns no comment, and neither sends a
    request: the condition of the page loop fails at its first test. *)
Theorem no_request_without_quota {U : Type}
    (execute : U -> Youtube.request -> outcome pyval * U)
    (parse_isoformat : string -> outcome datetime) (fuel : nat) (u : U)
    (keywords : list string) (start_date end_date : string)
    (v : Youtube.video) (start_dt end_dt : datetime) (cap : Z) :
  cap <= 0 -> (0 < fuel)%nat ->
  Youtube.search_videos execute fuel u keywords start_date end_date cap
  = Ret ([], [], u)
  /\ (Youtube.sliceable (Youtube.video_title v) = true ->
      Youtube.fetch_comments_for_video execute parse_isoformat fuel u v
        start_dt end_dt cap
      = Ret (Youtube.mkcomments [] 0 [] u)).
Proof.
  intros Hc Hf. split.
  - unfold Youtube.search_videos.
    rewrite search_keywords_no_quota by assumption. reflexivity.
  - intros Hs. unfold Youtube.fetch_comments_for_video. rewrite Hs.
    destruct fuel as [|fuel]; [lia|]. cbn [Youtube.comment_pages Youtube.fetched].
    destruct (Z.ltb_spec 0 cap); [lia|]. reflexivity.
Qed.

Lemma no_request_without_quota_witness :
  Youtube.search_videos Mock.execute 1
    [Ret (PDict (Mock.last_page [Mock.search_item "v1" ""]))]
    ["a"%string; "b"%string] "2022-01-01T00:00:00Z" "2022-12-31T23:59:59Z" 0
  = Ret ([], [], [Ret (PDict (Mock.last_page [Mock.search_item "v1" ""]))])
  /\ (Youtube.sliceable (Youtube.video_title (Mock.video "v" "k")) = true ->
      Youtube.fetch_comments_for_video Mock.execute fromisoformat 1
        [Ret (PDict (Mock.last_page [Mock.search_item "v1" ""]))]
        (Mock.video "v" "k")
        (Mock.utc_datetime 2023 1 1 0 0 0) (Mock.utc_datetime 2023 12 31 23 59 59) 0
      = Ret (Youtube.mkcomments [] 0 []
               [Ret (PDict (Mock.last_page [Mock.search_item "v1" ""]))])).
Proof.
  refine (no_request_without_quota Mock.execute fromisoformat 1
            [Ret (PDict (Mock.last_page [Mock.search_item "v1" ""]))]
            ["a"%string; "b"%string]
            "2022-01-01T00:00:00Z"%string "2022-12-31T23:59:59Z"%string
            (Mock.video "v" "k")
            (Mock.utc_datetime 2023 1 1 0 0 0) (Mock.utc_datetime 2023 12 31 23 59 59) 0
            _ _); lia.
Defined.

(** ** A title that is no text *)

(** X9: a search result whose snippet has a title that is [null], a boolean
    or a number still gives a video, since only an absent title is
    defaulted; but [fetch_comments_for_video] slices the title for its
    progress message before it sends a request, so on that video it raises
    [TypeError], whatever the client, and the exception ends the loop over
    the videos. *)
Theorem untitled_video_stops_comment_fetch
    (keyword : string) (item id snippet : list (string * pyval))
    (video_id title : pyval) :
  assoc "id" item = Some (PDict id) ->
  assoc "videoId" id = Some video_id ->
  assoc "snippet" item = Some (PDict snippet) ->
  assoc "title" snippet = Some title ->
  is_scalar title = true ->
  exists v,
    Youtube.video_of_item keyword (PDict item) = Ret v
    /\ Youtube.video_title v = title
    /\ forall (U : Type) (execute : U -> Youtube.request -> outcome pyval * U)
              (parse_isoformat : string -> outcome datetime) (fuel : nat) (u : U)
              (start_dt end_dt : datetime) (cap : Z)
              (rest : list Youtube.video) (all_comments : list Youtube.comment),
         Youtube.fetch_comments_for_video execute parse_isoformat fuel u v
           start_dt end_dt cap = Raise TypeError
         /\ Youtube.fetch_all_comments execute parse_isoformat fuel u (v :: rest)
              start_dt end_dt cap all_comments = Raise TypeError.
Proof.
  intros Hid Hvid Hsn Ht Hs.
  rewrite (video_of_item_fields keyword item id snippet video_id Hid Hvid Hsn).
  eexists. split; [reflexivity|].
  assert (T : dict_get snippet "title" (PStr "") = title)
    by (unfold dict_get; now rewrite Ht).
  cbn [Youtube.video_title]. split; [exact T|].
  intros U execute parse fuel u sd ed cap rest acc.
  match goal with
  | |- ?f = _ /\ _ => assert (E : f = Raise TypeError)
  end.
  { unfold Youtube.fetch_comments_for_video. cbn [Youtube.video_title]. rewrite T.
    destruct title; try discriminate; reflexivity. }
  split; [exact E|]. cbn [Youtube.fetch_all_comments]. now rewrite E.
Qed.

Lemma untitled_video_stops_comment_fetch_witness :
  exists v,
    Youtube.video_of_item "k"
      (PDict [("id"%string, PDict [("videoId"%string, PStr "v1")]);
              ("snippet"%string, PDict [("title"%string, PNone)])])
    = Ret v
    /\ Youtube.video_title v = PNone
    /\ forall (U : Type) (execute : U -> Youtube.request -> outcome pyval * U)
              (parse_isoformat : string -> outcome datetime) (fuel : nat) (u : U)
              (start_dt end_dt : datetime) (cap : Z)
              (rest : list Youtube.video) (all_comments : list Youtube.comment),
         Youtube.fetch_comments_for_video execute parse_isoformat fuel u v
           start_dt end_dt cap = Raise TypeError
         /\ Youtube.fetch_all_comments execute parse_isoformat fuel u (v :: rest)
              start_dt end_dt cap all_comments = Raise TypeError.
Proof.
  exact (untitled_video_stops_comment_fetch "k"
           [("id"%string, PDict [("videoId"%string, PStr "v1")]);
            ("snippet"%string, PDict [("title"%string, PNone)])]
           [("videoId"%string, PStr "v1")] [("title"%string, PNone)]
           (PStr "v1") PNone eq_refl eq_refl eq_refl eq_refl eq_refl).
Defined.

(** ** The bounds of a run of the YouTube scraper *)

Lemma digit_char_not_Z (d : Z) :
  0 <= d <= 9 -> Ascii.eqb (digit_char d) "Z" = false.
Proof.
  intros H.
  assert (d = 0 \/ d = 1 \/ d = 2 \/ d = 3 \/ d = 4 \/ d = 5 \/ d = 6 \/ d = 7
          \/ d = 8 \/ d = 9) as C by lia.
  repeat (destruct C as [->|C]; [reflexivity|]). subst d. reflexivity.
Qed.

Lemma replace_Z_isoformat_date (y m d : Z) (rest : string) :
  Youtube.replace_Z (isoformat_date y m d ++ rest)
  = (isoformat_date y m d ++ Youtube.replace_Z rest)%string.
Proof.
  unfold isoformat_date, pad4, pad2. cbn [append Youtube.replace_Z].
  rewrite !digit_char_not_Z by zdiv. reflexivity.
Qed.

Lemma string_append_assoc (a b c : string) :
  ((a ++ b) ++ c = a ++ (b ++ c))%string.
Proof. induction a as [|x a IH]; cbn [append]; [reflexivity|now rewrite IH]. Qed.

Lemma fromisoformat_date_time (y m d : Z) (sep : ascii) (tstr : string) :
  check_date_fields y m d = true ->
  fromisoformat (isoformat_date y m d ++ String sep tstr)
  = match obind (parse_hms tstr) (fun '(hh, mi, ss, s6) =>
          obind (parse_offset s6) (fun tz => Some (hh, mi, ss, tz))) with
    | Some (hh, mi, ss, tz) => datetime_new y m d hh mi ss 0 tz
    | None => Raise ValueError
    end.
Proof.
  intros V. pose proof V as V'. apply check_date_fields_spec in V'.
  pose proof (days_in_month_bounds y m).
  unfold fromisoformat, isoformat_date.
  rewrite !string_append_assoc.
  rewrite take_digits4_pad4 by lia. cbn [obind].
  unfold pad2. cbn [append expect Ascii.eqb Bool.eqb obind].
  rewrite take_digits2_pad2 by lia. cbn [obind expect Ascii.eqb Bool.eqb].
  rewrite take_digits2_pad2 by lia. cbn [obind].
  destruct (parse_hms tstr) as [[[[hh mi] ss] s6]|]; cbn [obind]; [|reflexivity].
  destruct (parse_offset s6); reflexivity.
Qed.

Lemma fromisoformat_rfc3339 (y m d H M S : Z) (clock : string) :
  check_date_fields y m d = true ->
  check_time_fields H M S 0 = true ->
  parse_hms (clock ++ "+00:00") = Some (H, M, S, "+00:00"%string) ->
  (forall c, In c (list_ascii_of_string clock) -> Ascii.eqb c "Z" = false) ->
  fromisoformat (Youtube.replace_Z (isoformat_date y m d ++ "T" ++ clock ++ "Z"))
  = Ret (Mock.utc_datetime y m d H M S).
Proof.
  intros Vd Vt Hp Hc. rewrite replace_Z_isoformat_date.
  assert (R : Youtube.replace_Z ("T" ++ clock ++ "Z")
              = String "T" (clock ++ "+00:00")).
  { cbn [append Youtube.replace_Z Ascii.eqb Bool.eqb]. f_equal.
    clear Hp. induction clock as [|c clock IH]; [reflexivity|].
    cbn [append Youtube.replace_Z]. rewrite (Hc c) by now left.
    f_equal. apply IH. intros c' Hc'. apply Hc. now right. }
  rewrite R, fromisoformat_date_time by assumption. rewrite Hp. cbn [obind].
  change (parse_offset "+00:00") with (Some (Some 0)). cbn [obind].
  unfold datetime_new. rewrite Vd, Vt. reflexivity.
Qed.

(** X12: for two valid dates, the bounds with which
    [scrape_youtube_comments] filters the comments are the instants named
    by the two RFC 3339 strings it sends to the search, the start date at
    00:00:00 UTC and the end date at 23:59:59 UTC: parsing the strings the
    way the comment timestamps are parsed gives back the two bounds. *)
Theorem scrape_youtube_comments_bounds {U : Type}
    (execute : U -> Youtube.request -> outcome pyval * U) (fuel : nat) (u : U)
    (keywords : list string) (ys ms ds ye me de : Z)
    (max_videos_per_keyword max_comments_per_video : Z) :
  check_date_fields ys ms ds = true ->
  check_date_fields ye me de = true ->
  let start_rfc3339 := (isoformat_date ys ms ds ++ "T00:00:00Z")%string in
  let end_rfc3339 := (isoformat_date ye me de ++ "T23:59:59Z")%string in
  let start_dt := Mock.utc_datetime ys ms ds 0 0 0 in
  let end_dt := Mock.utc_datetime ye me de 23 59 59 in
  fromisoformat (Youtube.replace_Z start_rfc3339) = Ret start_dt
  /\ fromisoformat (Youtube.replace_Z end_rfc3339) = Ret end_dt
  /\ Youtube.scrape_youtube_comments execute fromisoformat fuel u keywords
       (isoformat_date ys ms ds) (isoformat_date ye me de)
       max_videos_per_keyword max_comments_per_video
     = ('(videos, _, u1) <- Youtube.search_videos execute fuel u keywords
                              start_rfc3339 end_rfc3339 max_videos_per_keyword ;;
        '(all_comments, u2) <- Youtube.fetch_all_comments execute fromisoformat fuel u1
                                 videos start_dt end_dt max_comments_per_video [] ;;
        match all_comments with
        | [] => Ret (None, u2)
        | _ => Ret (Some all_comments, u2)
        end).
Proof.
  intros Vs Ve. cbn zeta. split; [|split].
  - apply (fromisoformat_rfc3339 ys ms ds 0 0 0 "00:00:00"); try assumption;
      try reflexivity.
    intros c Hc. cbn in Hc.
    repeat (destruct Hc as [<-|Hc]; [reflexivity|]). destruct Hc.
  - apply (fromisoformat_rfc3339 ye me de 23 59 59 "23:59:59"); try assumption;
      try reflexivity.
    intros c Hc. cbn in Hc.
    repeat (destruct Hc as [<-|Hc]; [reflexivity|]). destruct Hc.
  - unfold Youtube.scrape_youtube_comments.
    rewrite !fromisoformat_isoformat_date by assumption. cbn [bind].
    apply check_date_fields_spec in Ve as (Ye & Me & De).
    unfold replace, naive, dflt.
    cbn [year month day hour minute second microsecond tzinfo].
    rewrite datetime_new_ok by lia. cbn [bind]. reflexivity.
Qed.

Lemma scrape_youtube_comments_bounds_witness :
  fromisoformat (Youtube.replace_Z (isoformat_date 2022 1 1 ++ "T00:00:00Z"))
  = Ret (Mock.utc_datetime 2022 1 1 0 0 0)
  /\ fromisoformat (Youtube.replace_Z (isoformat_date 2025 12 8 ++ "T23:59:59Z"))
     = Ret (Mock.utc_datetime 2025 12 8 23 59 59)
  /\ Youtube.scrape_youtube_comments Mock.execute fromisoformat 3 []
       ["ai"%string] (isoformat_date 2022 1 1) (isoformat_date 2025 12 8) 50 500
     = ('(videos, _, u1) <- Youtube.search_videos Mock.execute 3 [] ["ai"%string]
                              (isoformat_date 2022 1 1 ++ "T00:00:00Z")
                              (isoformat_date 2025 12 8 ++ "T23:59:59Z") 50 ;;
        '(all_comments, u2) <- Youtube.fetch_all_comments Mock.execute fromisoformat 3 u1
                                 videos (Mock.utc_datetime 2022 1 1 0 0 0)
                                 (Mock.utc_datetime 2025 12 8 23 59 59) 500 [] ;;
        match all_comments with
        | [] => Ret (None, u2)
        | _ => Ret (Some all_comments, u2)
        end).
Proof.
  exact (scrape_youtube_comments_bounds Mock.execute 3 [] ["ai"%string]
           2022 1 1 2025 12 8 50 500 eq_refl eq_refl).
Defined.

(** ** The order of the unique videos *)

Section FirstSeen.
Context {R K : Type}.
Variable key : R -> K.
Variable key_eq_dec : forall a b : K, {a = b} + {a <> b}.

Local Abbreviation first_seen := (drop_duplicates_from (fun k : K => k) key_eq_dec).

Lemma in_dec_equiv {T : Type} (k : K) (l1 l2 : list K) (x y : T) :
  (In k l1 <-> In k l2) ->
  (if in_dec key_eq_dec k l1 then x else y) = (if in_dec key_eq_dec k l2 then x else y).
Proof.
  intros H. destruct (in_dec key_eq_dec k l1), (in_dec key_eq_dec k l2);
    try reflexivity; exfalso; tauto.
Qed.

Lemma first_seen_snoc (l : list K) (k : K) :
  forall seen,
    first_seen seen (l ++ [k])
    = first_seen seen l ++ (if in_dec key_eq_dec k (seen ++ l) then [] else [k]).
Proof.
  induction l as [|a l IH]; intros seen; cbn [app drop_duplicates_from].
  - rewrite app_nil_r. now destruct (in_dec key_eq_dec k seen).
  - destruct (in_dec key_eq_dec a seen) as [Ha|Ha].
    + rewrite IH. f_equal. apply in_dec_equiv. rewrite !in_app_iff. cbn [In].
      split; [tauto|]. intros [H|[->|H]]; tauto.
    + cbn [app]. rewrite IH. f_equal. f_equal. apply in_dec_equiv.
      rewrite !in_app_iff. cbn [In]. tauto.
Qed.

Lemma first_seen_In (l : list K) (k : K) :
  In k (first_seen [] l) <-> In k l.
Proof.
  pose proof (drop_duplicates_from_keys (fun k : K => k) key_eq_dec l [] k) as H.
  rewrite !map_id in H. rewrite H. cbn [In]. tauto.
Qed.

(** The keys of [{key(v): v for v in rows}] are the keys of the rows in the
    order in which they are first met. *)
Lemma dict_comprehension_order (rows : list R) :
  map fst (dict_comprehension_from key key_eq_dec [] rows)
  = first_seen [] (map key rows).
Proof.
  unfold dict_comprehension_from.
  induction rows as [|x rows IH] using rev_ind; [reflexivity|].
  rewrite fold_left_app, map_app. cbn [fold_left map].
  rewrite first_seen_snoc. cbn [app].
  assert (Hk : In (key x) (map fst (fold_left
                 (fun acc v => dict_setitem key_eq_dec acc (key v) v) rows []))
               <-> In (key x) (map key rows))
    by (rewrite IH; apply first_seen_In).
  rewrite <- IH.
  destruct (in_dec key_eq_dec (key x) (map key rows)) as [Hin|Hnin].
  - rewrite app_nil_r. apply dict_setitem_keys. now apply Hk.
  - rewrite (dict_setitem_fresh key) by (now rewrite Hk).
    now rewrite map_app.
Qed.
End FirstSeen.

(** X15: the videos that [unique_videos] returns come in the order in
    which their ids were first discovered: the keys of the result are the
    keys of the input with every later repetition left out (while the
    record kept for an id is that of its last discovery). *)
Theorem unique_videos_order (videos unique : list Youtube.video) :
  Youtube.unique_videos videos = Ret unique ->
  map Youtube.id_key unique
  = drop_duplicates (fun k => k) option_hkey_eq_dec (map Youtube.id_key videos).
Proof.
  rewrite unique_videos_eq. destruct (forallb _ videos); [|discriminate].
  intros [= <-]. rewrite dict_values_keys. apply dict_comprehension_order.
Qed.

Lemma unique_videos_order_witness :
  map Youtube.id_key [Mock.video "v1" "c"; Mock.video "v2" "a"; Mock.video "v3" "b"]
  = drop_duplicates (fun k => k) option_hkey_eq_dec
      (map Youtube.id_key
           [Mock.video "v1" "a"; Mock.video "v2" "a"; Mock.video "v3" "b";
            Mock.video "v1" "c"]).
Proof.
  refine (unique_videos_order
            [Mock.video "v1" "a"; Mock.video "v2" "a"; Mock.video "v3" "b";
             Mock.video "v1" "c"] _ _).
  vm_compute. reflexivity.
Defined.

(** ** Dates that do not exist *)

Lemma fromisoformat_isoformat_fields (y m d : Z) :
  0 <= y <= 9999 -> 0 <= m <= 99 -> 0 <= d <= 99 ->
  fromisoformat (isoformat_date y m d) = datetime_new y m d 0 0 0 0 None.
Proof.
  intros Hy Hm Hd. unfold fromisoformat, isoformat_date.
  rewrite take_digits4_pad4 by lia. cbn [obind].
  unfold pad2. cbn [append expect Ascii.eqb Bool.eqb obind].
  rewrite take_digits2_pad2 by lia. cbn [obind expect Ascii.eqb Bool.eqb].
  rewrite take_digits2_pad2 by lia. cbn [obind]. reflexivity.
Qed.

(** X17: a start or end date that is written [YYYY-MM-DD] but is no date of
    the calendar (a month 13, a 30th of February, the year 0) makes
    [generate_monthly_ranges] raise [ValueError]; the day of [start_date] is
    checked too, although it is not used afterwards. *)
Theorem generate_monthly_ranges_invalid_date (ys ms ds ye me de : Z) :
  0 <= ys <= 9999 -> 0 <= ms <= 99 -> 0 <= ds <= 99 ->
  0 <= ye <= 9999 -> 0 <= me <= 99 -> 0 <= de <= 99 ->
  check_date_fields ys ms ds = false \/ check_date_fields ye me de = false ->
  generate_monthly_ranges (isoformat_date ys ms ds) (isoformat_date ye me de)
  = Raise ValueError.
Proof.
  intros Hys Hms Hds Hye Hme Hde Hbad. unfold generate_monthly_ranges.
  rewrite !fromisoformat_isoformat_fields by assumption.
  destruct (check_date_fields ys ms ds) eqn:Vs.
  - destruct Hbad as [Hbad|Hbad]; [discriminate|].
    apply check_date_fields_spec in Vs as (Ys & Ms & Ds).
    pose proof (days_in_month_bounds ys ms).
    rewrite (datetime_new_ok ys ms ds) by lia. cbn [bind].
    unfold replace, dflt. cbn [year month day hour minute second microsecond tzinfo].
    rewrite datetime_new_ok by lia. cbn [bind].
    unfold datetime_new. rewrite Hbad. reflexivity.
  - unfold datetime_new at 1. rewrite Vs. reflexivity.
Qed.

Lemma generate_monthly_ranges_invalid_date_witness :
  generate_monthly_ranges "2023-02-30" "2023-03-10" = Raise ValueError.
Proof.
  refine (generate_monthly_ranges_invalid_date 2023 2 30 2023 3 10 _ _ _ _ _ _ _);
    try lia.
  left. reflexivity.
Defined.

(** ** Pages without end *)

(** X16: the page loop of [search_videos] has no bound of its own on the
    number of pages.  Against a client that answers every request with a
    page that lists no item and carries a token, the counter never moves
    and the loop never ends: whatever the number of iterations allowed, the
    loop is still running after them. *)
Theorem search_pages_unbounded {U : Type}
    (execute : U -> Youtube.request -> outcome pyval * U)
    (keyword start_date end_date : string) (cap : Z) (p : list (string * pyval)) :
  Youtube.items_listed p = true ->
  Youtube.page_items p = [] ->
  py_truthy (Youtube.page_token p) = true ->
  (forall u req, fst (execute u req) = Ret (PDict p)) ->
  forall (fuel : nat) (token : pyval) (st : Youtube.search_state U),
    Youtube.collected st < cap ->
    Youtube.search_pages execute fuel keyword start_date end_date cap token st
    = OutOfFuel.
Proof.
  intros Hl Hi Ht He. induction fuel as [|fuel IH]; intros token st Hc;
    cbn [Youtube.search_pages]; [reflexivity|].
  destruct (Z.ltb_spec (Youtube.collected st) cap) as [_|]; [|lia].
  pose proof (He (Youtube.client st)
                 (Youtube.SearchList keyword start_date end_date token)) as E.
  destruct (execute (Youtube.client st) _) as [answer u']. cbn [fst] in E. subst answer.
  rewrite (page_items_get p Hl), Hi. cbn [bind py_iter Youtube.search_items].
  rewrite page_token_get. cbn [bind]. rewrite Ht. cbn [negb].
  apply IH. cbn [Youtube.collected]. assumption.
Qed.

Lemma search_pages_unbounded_witness :
  Youtube.search_pages (fun (u : unit) _ => (Ret (PDict (Mock.page [] "next")), u))
    1000 "k" "2022-01-01T00:00:00Z" "2022-12-31T23:59:59Z" 50 PNone
    (Youtube.mksearch [] 0 [] tt)
  = OutOfFuel.
Proof.
  refine (search_pages_unbounded
            (fun (u : unit) _ => (Ret (PDict (Mock.page [] "next")), u))
            "k"%string "2022-01-01T00:00:00Z"%string "2022-12-31T23:59:59Z"%string 50
            (Mock.page [] "next") eq_refl eq_refl eq_refl (fun _ _ => eq_refl)
            1000%nat PNone (Youtube.mksearch [] 0 [] tt) _).
  cbn. lia.
Defined.


(** ** The directory of the output file *)

Lemma drop_while_all {A : Type} (p : A -> bool) (l : list A) :
  forallb p l = true -> drop_while p l = [].
Proof.
  induction l as [|a l IH]; cbn [forallb drop_while]; [reflexivity|].
  destruct (p a); [exact IH|discriminate].
Qed.

Lemma drop_while_app {A : Type} (p : A -> bool) (l1 l2 : list A) :
  forallb p l1 = true -> drop_while p (l1 ++ l2) = drop_while p l2.
Proof.
  induction l1 as [|a l1 IH]; cbn [forallb drop_while app]; [reflexivity|].
  destruct (p a); [exact IH|discriminate].
Qed.

Lemma forallb_rev {A : Type} (p : A -> bool) (l : list A) :
  forallb p (rev l) = forallb p l.
Proof.
  induction l as [|a l IH]; [reflexivity|].
  cbn [rev forallb]. rewrite forallb_app, IH. cbn [forallb].
  rewrite andb_true_r. apply andb_comm.
Qed.

Lemma list_ascii_of_string_app (a b : string) :
  list_ascii_of_string (a ++ b) = list_ascii_of_string a ++ list_ascii_of_string b.
Proof.
  induction a as [|c a IH]; cbn [append list_ascii_of_string app];
    [reflexivity|now rewrite IH].
Qed.

(** A path without a slash has no directory. *)
Lemma dirname_no_slash (file : string) :
  forallb (fun c => negb (is_slash c)) (list_ascii_of_string file) = true ->
  dirname file = EmptyString.
Proof.
  intros H. unfold dirname.
  rewrite drop_while_all by (now rewrite forallb_rev). reflexivity.
Qed.

(** The directory of [directory/file], when [directory] does not end with a
    slash and [file] has none. *)
Lemma dirname_join (dir file : string) (c : ascii) :
  is_slash c = false ->
  forallb (fun c => negb (is_slash c)) (list_ascii_of_string file) = true ->
  dirname ((dir ++ String c EmptyString) ++ "/" ++ file)
  = (dir ++ String c EmptyString)%string.
Proof.
  intros Hc Hf. unfold dirname. cbn zeta.
  rewrite !list_ascii_of_string_app. cbn [list_ascii_of_string append app].
  rewrite !rev_app_distr. cbn [rev app]. rewrite <- !app_assoc. cbn [app].
  rewrite drop_while_app by (now rewrite forallb_rev).
  assert (D : forall l, drop_while (fun c0 => negb (is_slash c0)) ("/"%char :: l)
                        = "/"%char :: l) by reflexivity.
  rewrite !D. cbn [forallb]. rewrite Hc, andb_false_r.
  assert (S : forall l, drop_while is_slash ("/"%char :: c :: l) = c :: l).
  { intros l. cbn [drop_while]. change (is_slash "/") with true. cbn iota.
    now rewrite Hc. }
  rewrite S.
  change (c :: rev (list_ascii_of_string dir))
    with ([c] ++ rev (list_ascii_of_string dir)).
  rewrite rev_app_distr, rev_involutive. cbn [rev app].
  rewrite <- (string_of_list_ascii_of_string (dir ++ String c EmptyString)).
  now rewrite list_ascii_of_string_app.
Qed.

(** X18: with an output path that has no directory part, such as
    [out.csv], the end of [scrape_youtube_comments] asks [os.makedirs] for
    the directory with the empty name, which fails with
    [FileNotFoundError], so the comments are not written; the end of
    [scrape_gdelt] tests the directory name first and writes the file.  With
    a path [directory/file] the two do the same: they make the directory
    and write the file. *)
Theorem output_path_directory {FS T : Type}
    (makedirs : FS -> string -> FS + os_error)
    (to_csv : FS -> string -> list T -> FS + os_error)
    (fs : FS) (rows : list T) :
  (forall fs', makedirs fs' EmptyString = inr (OSError ENOENT)) ->
  (forall file,
     forallb (fun c => negb (is_slash c)) (list_ascii_of_string file) = true ->
     dirname file = EmptyString
     /\ save_comments makedirs to_csv fs file rows = inr (OSError ENOENT)
     /\ save_articles makedirs to_csv fs file rows = to_csv fs file rows)
  /\ (forall dir c file,
        is_slash c = false ->
        forallb (fun c => negb (is_slash c)) (list_ascii_of_string file) = true ->
        let directory := (dir ++ String c EmptyString)%string in
        let path := (directory ++ "/" ++ file)%string in
        dirname path = directory
        /\ save_comments makedirs to_csv fs path rows
           = match makedirs fs directory with
             | inl fs' => to_csv fs' path rows
             | inr e => inr e
             end
        /\ save_articles makedirs to_csv fs path rows
           = save_comments makedirs to_csv fs path rows).
Proof.
  intros Hm. split.
  - intros file Hf. pose proof (dirname_no_slash file Hf) as E.
    split; [exact E|]. unfold save_comments, save_articles. rewrite E, Hm.
    split; reflexivity.
  - intros dir c file Hc Hf. cbn zeta.
    pose proof (dirname_join dir file c Hc Hf) as E.
    split; [exact E|]. unfold save_comments, save_articles. rewrite E.
    split; [reflexivity|].
    destruct (String.eqb_spec (dir ++ String c EmptyString) EmptyString) as [Hn|_];
      [|reflexivity].
    destruct dir; discriminate.
Qed.

Lemma output_path_directory_witness :
  dirname "youtube_raw.csv" = EmptyString
  /\ save_comments Mock.makedirs Mock.to_csv [] "youtube_raw.csv" [Mock.video "v" "k"]
     = inr (OSError ENOENT)
  /\ save_articles Mock.makedirs Mock.to_csv [] "youtube_raw.csv" [Mock.video "v" "k"]
     = Mock.to_csv [] "youtube_raw.csv" [Mock.video "v" "k"].
Proof.
  exact (proj1 (output_path_directory Mock.makedirs Mock.to_csv []
                  [Mock.video "v" "k"] (fun _ => eq_refl))
               "youtube_raw.csv"%string eq_refl).
Defined.


(** ** Requests that fail, and answers that cannot be read *)

Lemma search_pages_unreadable {U : Type}
    (execute : U -> Youtube.request -> outcome pyval * U)
    (keyword start_date end_date : string) (cap : Z) (fuel : nat) (token : pyval)
    (st : Youtube.search_state U) (response : pyval) (u' : U) (e : exn) :
  Youtube.collected st < cap ->
  execute (Youtube.client st) (Youtube.SearchList keyword start_date end_date token)
  = (Ret response, u') ->
  unreadable_page response = Some e ->
  Youtube.search_pages execute (S fuel) keyword start_date end_date cap token st
  = Raise e.
Proof.
  intros Hc He Hu. cbn [Youtube.search_pages].
  destruct (Z.ltb_spec (Youtube.collected st) cap); [|lia]. rewrite He.
  destruct response as [| | | | | |body]; cbn [unreadable_page] in Hu;
    try (injection Hu as <-; reflexivity).
  cbn [py_get bind]. unfold dict_get.
  destruct (assoc "items" body) as [items|]; [|discriminate].
  destruct items; cbn [is_scalar] in Hu; try discriminate;
    injection Hu as <-; reflexivity.
Qed.

Lemma comment_pages_unreadable {U : Type}
    (execute : U -> Youtube.request -> outcome pyval * U)
    (parse_isoformat : string -> outcome datetime) (v : Youtube.video)
    (start_date end_date : datetime) (cap : Z) (fuel : nat) (token : pyval)
    (st : Youtube.comments_state U) (response : pyval) (u' : U) (e : exn) :
  Youtube.fetched st < cap ->
  execute (Youtube.service st) (Youtube.CommentThreadsList (Youtube.video_id v) token)
  = (Ret response, u') ->
  unreadable_page response = Some e ->
  Youtube.comment_pages execute parse_isoformat (S fuel) v start_date end_date cap token st
  = Raise e.
Proof.
  intros Hc He Hu. cbn [Youtube.comment_pages].
  destruct (Z.ltb_spec (Youtube.fetched st) cap); [|lia]. rewrite He.
  destruct response as [| | | | | |body]; cbn [unreadable_page] in Hu;
    try (injection Hu as <-; reflexivity).
  cbn [py_get bind]. unfold dict_get.
  destruct (assoc "items" body) as [items|]; [|discriminate].
  destruct items; cbn [is_scalar] in Hu; try discriminate;
    injection Hu as <-; reflexivity.
Qed.

Lemma records_of_body_unreadable (keyword : string) (data : pyval) :
  unreadable_body data = true ->
  Gdelt.records_of_body keyword data = Raise TypeError.
Proof.
  unfold Gdelt.records_of_body.
  destruct data as [| | | | | |body]; cbn [unreadable_body is_scalar];
    try discriminate; try reflexivity.
  cbn [py_contains py_getitem bind].
  destruct (assoc "articles" body) as [articles|]; [|discriminate].
  cbn [negb bind]. destruct articles; cbn [is_scalar]; try discriminate; reflexivity.
Qed.

(** C8, as stated, fails: a body that is returned and decodes, but has not
    the expected shape, is not handled as a failure.  A GDELT body whose
    [articles] entry is [null] passes every test of the [try] block and
    raises [TypeError] out of the loops over the windows and the keywords;
    a second page of search results whose [items] entry is [null] raises
    [TypeError] out of the loop over the keywords, and the first page is
    lost with the run. *)
Lemma malformed_body_escapes :
  request_failed (Ret (Mock.ok Mock.null_articles_text Mock.null_articles)) = false
  /\ Gdelt.fetch_keywords unit
       (Mock.always (Ret (Mock.ok Mock.null_articles_text Mock.null_articles)))
       tt ["a"%string; "b"%string] 250
       [mkrange (naive 2022 1 1 0 0 0) (naive 2022 1 31 23 59 59)] []
     = Raise TypeError
  /\ Youtube.search_keywords Mock.execute 6 ["a"%string; "b"%string]
       "2022-01-01T00:00:00Z" "2022-12-31T23:59:59Z" 50 [] []
       [Ret (PDict (Mock.page [Mock.search_item "v1" ""] "t1"));
        Ret (PDict [("items"%string, PNone)]);
        Ret (PDict (Mock.last_page [Mock.search_item "v3" ""]))]
     = Raise TypeError.
Proof. repeat split; vm_compute; reflexivity. Qed.

(** C8, as amended.  A request that fails ends the pagination of its
    keyword, window or video with what was accumulated, with no further
    request for it and no exception, and the run goes on with the next one.
    In the search and comment loops the failure is the exception of
    [execute()]; in the GDELT fetch, which makes one request per window, it
    is an exception of the request, an error status, a blank body or a body
    that does not decode.  A failure on page 2 of 5 leaves the videos of
    page 1.  An answer that is returned and decodes but cannot be read is
    not such a failure: a response of the YouTube client that is not an
    object, or whose [items] is [null], a boolean or a number, and a GDELT
    body that is [null], a boolean or a number, or whose [articles] is one,
    raise out of the fetch and out of the loop over the keywords, windows
    or videos. *)
Theorem request_failure_ends_pagination :
  (forall (U : Type) (execute : U -> Youtube.request -> outcome pyval * U)
          (keyword start_date end_date : string) (cap : Z)
          (pages : list (list (string * pyval))) (fuel : nat)
          (acc : list Youtube.video) (sent0 : list Youtube.request) (u u_mid u_fail : U)
          (vs : list Youtube.video) (e : exn),
     serves execute (Youtube.SearchList keyword start_date end_date) u PNone pages u_mid ->
     all_continue pages ->
     Forall (fun p => Youtube.items_listed p = true) pages ->
     map_outcome (Youtube.video_of_item keyword) (flat_map Youtube.page_items pages) = Ret vs ->
     Z.of_nat (List.length vs) < cap ->
     execute u_mid (Youtube.SearchList keyword start_date end_date (token_after PNone pages))
     = (Raise e, u_fail) ->
     (List.length pages < fuel)%nat ->
     Youtube.search_pages execute fuel keyword start_date end_date cap PNone
       (Youtube.mksearch acc 0 sent0 u)
     = Ret (Youtube.mksearch
              (acc ++ vs) (Z.of_nat (List.length vs))
              (sent0
               ++ requests_for (Youtube.SearchList keyword start_date end_date) PNone pages
               ++ [Youtube.SearchList keyword start_date end_date (token_after PNone pages)])
              u_fail))
  /\ (forall (U : Type) (execute : U -> Youtube.request -> outcome pyval * U)
             (parse_isoformat : string -> outcome datetime) (v : Youtube.video)
             (start_date end_date : datetime) (cap : Z)
             (pages : list (list (string * pyval))) (fuel : nat) (u u_mid u_fail : U)
             (results : list (list Youtube.item_result)) (e : exn),
        Youtube.sliceable (Youtube.video_title v) = true ->
        serves execute (Youtube.CommentThreadsList (Youtube.video_id v)) u PNone pages u_mid ->
        all_continue pages ->
        Forall (fun p => Youtube.items_listed p = true) pages ->
        page_results parse_isoformat v start_date end_date pages results ->
        Z.of_nat (List.length (flat_map kept results)) < cap ->
        execute u_mid (Youtube.CommentThreadsList (Youtube.video_id v) (token_after PNone pages))
        = (Raise e, u_fail) ->
        (List.length pages < fuel)%nat ->
        Youtube.fetch_comments_for_video execute parse_isoformat fuel u v
          start_date end_date cap
        = Ret (Youtube.mkcomments
                 (flat_map kept results) (Z.of_nat (List.length (flat_map kept results)))
                 (requests_for (Youtube.CommentThreadsList (Youtube.video_id v)) PNone pages
                  ++ [Youtube.CommentThreadsList (Youtube.video_id v)
                        (token_after PNone pages)])
                 u_fail))
  /\ (forall (U : Type) (execute : U -> Youtube.request -> outcome pyval * U)
             (fuel : nat) (keyword : string) (rest : list string)
             (start_date end_date : string) (cap : Z)
             (acc : list Youtube.video) (sent0 : list Youtube.request) (u : U)
             (st : Youtube.search_state U),
        Youtube.search_pages execute fuel keyword start_date end_date cap PNone
          (Youtube.mksearch acc 0 sent0 u) = Ret st ->
        Youtube.search_keywords execute fuel (keyword :: rest) start_date end_date cap
          acc sent0 u
        = Youtube.search_keywords execute fuel rest start_date end_date cap
            (Youtube.all_videos st) (Youtube.sent st) (Youtube.client st))
  /\ (forall (U : Type) (execute : U -> Youtube.request -> outcome pyval * U)
             (parse_isoformat : string -> outcome datetime) (fuel : nat) (u : U)
             (v : Youtube.video) (rest : list Youtube.video)
             (start_dt end_dt : datetime) (cap : Z) (all_comments : list Youtube.comment)
             (st : Youtube.comments_state U),
        Youtube.fetch_comments_for_video execute parse_isoformat fuel u v start_dt end_dt cap
        = Ret st ->
        Youtube.fetch_all_comments execute parse_isoformat fuel u (v :: rest)
          start_dt end_dt cap all_comments
        = Youtube.fetch_all_comments execute parse_isoformat fuel (Youtube.service st) rest
            start_dt end_dt cap (all_comments ++ Youtube.comments st))
  /\ (forall (U : Type) (requests_get : U -> Gdelt.params -> outcome Gdelt.response * U)
             (u u' : U) (keyword : string) (dr : time_range) (rest : list time_range)
             (maxrecords : Z) (all_records : list Gdelt.article)
             (answer : outcome Gdelt.response),
        requests_get u (Gdelt.mkparams (Gdelt.quoted keyword) "ArtList" maxrecords "json"
                                       (to_gdelt_datetime (range_start dr))
                                       (to_gdelt_datetime (range_end dr)))
        = (answer, u') ->
        request_failed answer = true ->
        Gdelt.fetch_gdelt_chunk U requests_get u keyword (range_start dr) (range_end dr)
          maxrecords = Ret ([], u')
        /\ Gdelt.fetch_windows U requests_get u keyword maxrecords (dr :: rest) all_records
           = Gdelt.fetch_windows U requests_get u' keyword maxrecords rest all_records)
  /\ Youtube.search_keywords Mock.execute 6 ["a"%string; "b"%string]
       "2022-01-01T00:00:00Z" "2022-12-31T23:59:59Z" 50 [] []
       [Ret (PDict (Mock.page [Mock.search_item "v1" ""] "t1"));
        Raise RequestException;
        Ret (PDict (Mock.page [Mock.search_item "v3" ""] "t3"));
        Ret (PDict (Mock.page [Mock.search_item "v4" ""] "t4"));
        Ret (PDict (Mock.last_page [Mock.search_item "v5" ""]))]
     = Ret (Youtube.mksearch
              [Mock.video "v1" "a"; Mock.video "v3" "b"; Mock.video "v4" "b";
               Mock.video "v5" "b"]
              0
              [Youtube.SearchList "a" "2022-01-01T00:00:00Z" "2022-12-31T23:59:59Z" PNone;
               Youtube.SearchList "a" "2022-01-01T00:00:00Z" "2022-12-31T23:59:59Z" (PStr "t1");
               Youtube.SearchList "b" "2022-01-01T00:00:00Z" "2022-12-31T23:59:59Z" PNone;
               Youtube.SearchList "b" "2022-01-01T00:00:00Z" "2022-12-31T23:59:59Z" (PStr "t3");
               Youtube.SearchList "b" "2022-01-01T00:00:00Z" "2022-12-31T23:59:59Z" (PStr "t4")]
              [])
  /\ (forall (U : Type) (execute : U -> Youtube.request -> outcome pyval * U)
             (keyword : string) (rest : list string) (start_date end_date : string)
             (cap : Z) (pages : list (list (string * pyval))) (fuel : nat)
             (acc : list Youtube.video) (sent0 : list Youtube.request) (u u_mid u_bad : U)
             (vs : list Youtube.video) (response : pyval) (e : exn),
        serves execute (Youtube.SearchList keyword start_date end_date) u PNone pages u_mid ->
        all_continue pages ->
        Forall (fun p => Youtube.items_listed p = true) pages ->
        map_outcome (Youtube.video_of_item keyword) (flat_map Youtube.page_items pages)
        = Ret vs ->
        Z.of_nat (List.length vs) < cap ->
        execute u_mid (Youtube.SearchList keyword start_date end_date
                         (token_after PNone pages))
        = (Ret response, u_bad) ->
        unreadable_page response = Some e ->
        (List.length pages < fuel)%nat ->
        Youtube.search_pages execute fuel keyword start_date end_date cap PNone
          (Youtube.mksearch acc 0 sent0 u) = Raise e
        /\ Youtube.search_keywords execute fuel (keyword :: rest) start_date end_date cap
             acc sent0 u = Raise e)
  /\ (forall (U : Type) (execute : U -> Youtube.request -> outcome pyval * U)
             (parse_isoformat : string -> outcome datetime) (v : Youtube.video)
             (rest : list Youtube.video) (start_date end_date : datetime) (cap : Z)
             (pages : list (list (string * pyval))) (fuel : nat) (u u_mid u_bad : U)
             (results : list (list Youtube.item_result))
             (all_comments : list Youtube.comment) (response : pyval) (e : exn),
        Youtube.sliceable (Youtube.video_title v) = true ->
        serves execute (Youtube.CommentThreadsList (Youtube.video_id v)) u PNone pages u_mid ->
        all_continue pages ->
        Forall (fun p => Youtube.items_listed p = true) pages ->
        page_results parse_isoformat v start_date end_date pages results ->
        Z.of_nat (List.length (flat_map kept results)) < cap ->
        execute u_mid (Youtube.CommentThreadsList (Youtube.video_id v)
                         (token_after PNone pages))
        = (Ret response, u_bad) ->
        unreadable_page response = Some e ->
        (List.length pages < fuel)%nat ->
        Youtube.fetch_comments_for_video execute parse_isoformat fuel u v
          start_date end_date cap = Raise e
        /\ Youtube.fetch_all_comments execute parse_isoformat fuel u (v :: rest)
             start_date end_date cap all_comments = Raise e)
  /\ (forall (U : Type) (requests_get : U -> Gdelt.params -> outcome Gdelt.response * U)
             (u u' : U) (keyword : string) (keywords : list string) (dr : time_range)
             (rest date_ranges : list time_range) (maxrecords : Z)
             (all_records : list Gdelt.article) (resp : Gdelt.response) (data : pyval),
        requests_get u (Gdelt.mkparams (Gdelt.quoted keyword) "ArtList" maxrecords "json"
                                       (to_gdelt_datetime (range_start dr))
                                       (to_gdelt_datetime (range_end dr)))
        = (Ret resp, u') ->
        request_failed (Ret resp) = false ->
        Gdelt.json resp = Some data ->
        unreadable_body data = true ->
        Gdelt.fetch_gdelt_chunk U requests_get u keyword (range_start dr) (range_end dr)
          maxrecords = Raise TypeError
        /\ Gdelt.fetch_windows U requests_get u keyword maxrecords (dr :: rest) all_records
           = Raise TypeError
        /\ Gdelt.fetch_keywords U requests_get u (keyword :: keywords) maxrecords
             (dr :: date_ranges) all_records
           = Raise TypeError).
Proof.
  split; [|split; [|split; [|split; [|split; [|split; [|split; [|split]]]]]]].
  - intros U execute keyword start_date end_date cap pages fuel acc sent0 u u_mid u_fail
           vs e Hs Hc Hl Hv Hcap He Hfuel.
    replace fuel with (List.length pages + S (fuel - List.length pages - 1))%nat by lia.
    rewrite (search_pages_prefix execute keyword start_date end_date cap pages _ PNone
               (Youtube.mksearch acc 0 sent0 u) u_mid vs Hs Hc Hl Hv Hcap).
    cbn [Youtube.all_videos Youtube.collected Youtube.sent].
    rewrite search_pages_failure with (e := e) (u' := u_fail);
      cbn [Youtube.all_videos Youtube.collected Youtube.sent Youtube.client];
      [| lia | exact He].
    now rewrite <- app_assoc.
  - intros U execute parse v start_date end_date cap pages fuel u u_mid u_fail
           results e Hv Hs Hc Hl Hr Hcap He Hfuel.
    unfold Youtube.fetch_comments_for_video. rewrite Hv.
    replace fuel with (List.length pages + S (fuel - List.length pages - 1))%nat by lia.
    rewrite (comment_pages_prefix execute parse v start_date end_date cap pages _ PNone
               (Youtube.mkcomments [] 0 [] u) u_mid results Hs Hc Hl Hr Hcap).
    cbn [Youtube.comments Youtube.fetched Youtube.requested app].
    rewrite comment_pages_failure with (e := e) (u' := u_fail);
      cbn [Youtube.comments Youtube.fetched Youtube.requested Youtube.service];
      [reflexivity | lia | exact He].
  - intros U execute fuel keyword rest start_date end_date cap acc sent0 u st E.
    cbn [Youtube.search_keywords]. now rewrite E.
  - intros U execute parse fuel u v rest start_dt end_dt cap all_comments st E.
    cbn [Youtube.fetch_all_comments]. now rewrite E.
  - intros U requests_get u u' keyword dr rest maxrecords all_records answer He Hf.
    pose proof (fetch_gdelt_chunk_failed requests_get u u' keyword _ _ maxrecords answer He Hf)
      as E.
    split; [exact E|]. cbn [Gdelt.fetch_windows]. rewrite E. cbn [bind].
    now rewrite app_nil_r.
  - vm_compute. reflexivity.
  - intros U execute keyword rest start_date end_date cap pages fuel acc sent0
           u u_mid u_bad vs response e Hs Hc Hl Hv Hcap He Hu Hfuel.
    assert (E : Youtube.search_pages execute fuel keyword start_date end_date cap PNone
                  (Youtube.mksearch acc 0 sent0 u) = Raise e).
    { replace fuel with (List.length pages + S (fuel - List.length pages - 1))%nat by lia.
      rewrite (search_pages_prefix execute keyword start_date end_date cap pages _ PNone
                 (Youtube.mksearch acc 0 sent0 u) u_mid vs Hs Hc Hl Hv Hcap).
      cbn [Youtube.all_videos Youtube.collected Youtube.sent].
      apply search_pages_unreadable with (response := response) (u' := u_bad);
        cbn [Youtube.collected Youtube.client]; [lia|exact He|exact Hu]. }
    split; [exact E|]. cbn [Youtube.search_keywords]. now rewrite E.
  - intros U execute parse v rest start_date end_date cap pages fuel u u_mid u_bad
           results all_comments response e Hv Hs Hc Hl Hr Hcap He Hu Hfuel.
    assert (E : Youtube.fetch_comments_for_video execute parse fuel u v
                  start_date end_date cap = Raise e).
    { unfold Youtube.fetch_comments_for_video. rewrite Hv.
      replace fuel with (List.length pages + S (fuel - List.length pages - 1))%nat by lia.
      rewrite (comment_pages_prefix execute parse v start_date end_date cap pages _ PNone
                 (Youtube.mkcomments [] 0 [] u) u_mid results Hs Hc Hl Hr Hcap).
      cbn [Youtube.comments Youtube.fetched Youtube.requested app].
      apply comment_pages_unreadable with (response := response) (u' := u_bad);
        cbn [Youtube.fetched Youtube.service]; [lia|exact He|exact Hu]. }
    split; [exact E|]. cbn [Youtube.fetch_all_comments]. now rewrite E.
  - intros U requests_get u u' keyword keywords dr rest date_ranges maxrecords
           all_records resp data He Hf Hj Hu.
    assert (E : Gdelt.fetch_gdelt_chunk U requests_get u keyword (range_start dr)
                  (range_end dr) maxrecords = Raise TypeError).
    { destruct dr as [s e]. cbn [range_start range_end] in *.
      rewrite (fetch_gdelt_chunk_decoded requests_get u u' keyword s e maxrecords
                 resp data He Hf Hj).
      now rewrite (records_of_body_unreadable keyword data Hu). }
    assert (W : forall rest', Gdelt.fetch_windows U requests_get u keyword maxrecords
                                (dr :: rest') all_records = Raise TypeError).
    { intros rest'. cbn [Gdelt.fetch_windows]. now rewrite E. }
    split; [exact E|]. split; [apply W|]. cbn [Gdelt.fetch_keywords]. now rewrite W.
Qed.
